(** * BLE advertisement scanner: decoder, device table, hex dump, export

    Shallow embedding of the two scanner variants of the repository,
    [ble_basic_scanner.py] (callback driven) and [ble_adv_scanner.py]
    (asynchronous iterator driven), and the properties of the
    advertisement-normalisation pipeline they implement. *)

From Stdlib Require Import ZArith NArith Lia Ascii String Strings.Byte DecimalString.
From Stdlib Require Import Sorting.Sorted.
From stdpp Require Import base list strings gmap.

Local Open Scope list_scope.
Local Open Scope nat_scope.

(** ** Python string primitives used by the scanners *)

Module PyStr.

(** [s[n:]] *)
Fixpoint drop (n : nat) (s : string) : string :=
  match n, s with
  | O, _ => s
  | S _, EmptyString => EmptyString
  | S n', String _ s' => drop n' s'
  end.

(** [s.startswith(p)] *)
Definition startswith (s p : string) : bool := String.prefix p s.

(** [s.endswith(suf)] *)
Definition endswith (s suf : string) : bool :=
  (String.length suf <=? String.length s) &&
  String.eqb (drop (String.length s - String.length suf) s) suf.

(** [s.split(sep)] for a one-character separator: never empty. *)
Fixpoint split (sep : ascii) (s : string) : list string :=
  match s with
  | EmptyString => [EmptyString]
  | String c s' =>
      if Ascii.eqb c sep then EmptyString :: split sep s'
      else match split sep s' with
           | [] => [String c EmptyString]
           | w :: ws => String c w :: ws
           end
  end.

(** [sep.join(parts)] *)
Fixpoint join (sep : string) (parts : list string) : string :=
  match parts with
  | [] => EmptyString
  | [p] => p
  | p :: ps => p +:+ sep +:+ join sep ps
  end.

(** [''.join(chars)] *)
Definition concat_chars (cs : list ascii) : string :=
  fold_right String EmptyString cs.

Definition upper_char (c : ascii) : ascii :=
  let n := N_of_ascii c in
  if ((97 <=? n) && (n <=? 122))%N then ascii_of_N (n - 32) else c.

Definition lower_char (c : ascii) : ascii :=
  let n := N_of_ascii c in
  if ((65 <=? n) && (n <=? 90))%N then ascii_of_N (n + 32) else c.

Fixpoint map_chars (f : ascii -> ascii) (s : string) : string :=
  match s with
  | EmptyString => EmptyString
  | String c s' => String (f c) (map_chars f s')
  end.

(** [s.upper()] and [s.lower()] on ASCII text *)
Definition upper : string -> string := map_chars upper_char.
Definition lower : string -> string := map_chars lower_char.

(** [needle in s] *)
Fixpoint contains (s needle : string) : bool :=
  String.prefix needle s ||
  match s with
  | EmptyString => false
  | String _ s' => contains s' needle
  end.

Definition hyphen : ascii := "-"%char.

End PyStr.

(** ** UUID normalisation

    The block that both decoders inline for every UUID they display
    ([ble_adv_scanner.py] lines 157-166 and 177-184,
    [ble_basic_scanner.py] lines 158-167). *)

Definition SIG_BASE_SUFFIX : string := "-0000-1000-8000-00805f9b34fb".

Definition normalize_uuid (uuid : string) : string :=
  if (String.length uuid =? 36) && PyStr.endswith uuid SIG_BASE_SUFFIX then
    let parts := PyStr.split PyStr.hyphen uuid in
    match parts with
    | p0 :: _ =>
        if (length parts =? 5) && PyStr.startswith p0 "0000"
        then PyStr.drop 4 p0
        else uuid
    | [] => uuid
    end
  else uuid.

(** The textual shape of a SIG-base UUID as the code tests it: 36
    characters, five hyphen-separated groups, the last four spelled
    exactly as in the lower-case base, the first one starting with 0000. *)
Definition SIG_BASE_GROUPS : list string :=
  ["0000"; "1000"; "8000"; "00805f9b34fb"].

Definition is_sig_base_128 (uuid : string) : bool :=
  (String.length uuid =? 36) &&
  match PyStr.split PyStr.hyphen uuid with
  | [g0; g1; g2; g3; g4] =>
      bool_decide ([g1; g2; g3; g4] = SIG_BASE_GROUPS) &&
      PyStr.startswith g0 "0000"
  | _ => false
  end.

(** The shape as the specification words it: the last four groups are
    compared without regard to case. *)
Definition is_sig_base_128_nocase (uuid : string) : bool :=
  (String.length uuid =? 36) &&
  match PyStr.split PyStr.hyphen uuid with
  | [g0; g1; g2; g3; g4] =>
      bool_decide (map PyStr.lower [g1; g2; g3; g4] = SIG_BASE_GROUPS) &&
      PyStr.startswith g0 "0000"
  | _ => false
  end.

(** The sixteen-bit part the specification expects: characters 4..8 of
    the first group, in upper case. *)
Definition embedded_16bit_upper (uuid : string) : string :=
  PyStr.upper (PyStr.drop 4 (hd EmptyString (PyStr.split PyStr.hyphen uuid))).

(** ** Number formatting *)

Module PyFmt.

Definition hex_digit (d : N) : ascii :=
  match d with
  | 0 => "0" | 1 => "1" | 2 => "2" | 3 => "3" | 4 => "4" | 5 => "5"
  | 6 => "6" | 7 => "7" | 8 => "8" | 9 => "9" | 10 => "A" | 11 => "B"
  | 12 => "C" | 13 => "D" | 14 => "E" | _ => "F"
  end%N%char.

Definition hex_digit_lower (d : N) : ascii := PyStr.lower_char (hex_digit d).

(** Most significant digit first; [fuel] bounds the number of digits. *)
Fixpoint hex_digits (fuel : nat) (n : N) (acc : string) : string :=
  match fuel with
  | O => acc
  | S fuel' =>
      let acc' := String (hex_digit (n mod 16)) acc in
      if (n / 16 =? 0)%N then acc' else hex_digits fuel' (n / 16) acc'
  end.

(** [format(n, "X")]: a number of [N.size_nat n] bits has no more
    hexadecimal digits than bits. *)
Definition format_X (n : N) : string :=
  hex_digits (S (N.size_nat n)) n EmptyString.

Fixpoint zeros (k : nat) : string :=
  match k with
  | O => EmptyString
  | S k' => String "0" (zeros k')
  end.

(** [s.rjust(width, "0")] *)
Definition zero_pad (width : nat) (s : string) : string :=
  zeros (width - String.length s) +:+ s.

(** [f"{n:04X}"] and [f"{n:02X}"]: a minimum width, not a maximum. *)
Definition format_04X (n : N) : string := zero_pad 4 (format_X n).
Definition format_02X (n : N) : string := zero_pad 2 (format_X n).

(** Value of an upper-case hexadecimal numeral. *)
Definition hex_value_char (c : ascii) : option N :=
  let n := N_of_ascii c in
  if ((48 <=? n) && (n <=? 57))%N then Some (n - 48)%N
  else if ((65 <=? n) && (n <=? 70))%N then Some (n - 55)%N
  else None.

Fixpoint hex_value_from (acc : N) (s : string) : option N :=
  match s with
  | EmptyString => Some acc
  | String c s' =>
      match hex_value_char c with
      | Some d => hex_value_from (16 * acc + d)%N s'
      | None => None
      end
  end.

Definition hex_value : string -> option N := hex_value_from 0%N.

(** [bytes.hex()]: two lower-case digits per byte. *)
Definition bytes_hex (data : list byte) : string :=
  fold_right
    (fun b acc =>
       let n := Byte.to_N b in
       String (hex_digit_lower (n / 16)) (String (hex_digit_lower (n mod 16)) acc))
    EmptyString data.

Definition dec_digit (d : N) : ascii := ascii_of_N (48 + d mod 10).

(** [%H], [%M], [%S], [%m], [%d] of strftime: two decimal digits. *)
Definition two_digits (n : N) : string :=
  String (dec_digit (n / 10)) (String (dec_digit n) EmptyString).

(** [%Y] of strftime for a four-digit year. *)
Definition four_digits (n : N) : string :=
  String (dec_digit (n / 1000)) (String (dec_digit (n / 100))
    (String (dec_digit (n / 10)) (String (dec_digit n) EmptyString))).

(** [str(n)] for a non-negative integer *)
Definition str_nat (n : nat) : string :=
  NilZero.string_of_uint (Nat.to_uint n).

(** [str(z)] for an integer *)
Definition str_Z (z : Z) : string :=
  match z with
  | Z0 => "0"
  | Zpos p => str_nat (Pos.to_nat p)
  | Zneg p => "-" +:+ str_nat (Pos.to_nat p)
  end.

Definition nl : string := String (ascii_of_nat 10) EmptyString.

End PyFmt.

(** ** The wall clock *)

Record datetime : Type := mk_datetime {
  year : N; month : N; day : N;
  hour : N; minute : N; second : N; microsecond : N
}.

(** [t.strftime("%H:%M:%S")] *)
Definition strftime_HMS (t : datetime) : string :=
  PyFmt.two_digits (hour t) +:+ ":" +:+ PyFmt.two_digits (minute t) +:+ ":"
  +:+ PyFmt.two_digits (second t).

(** [t.strftime("%Y%m%d_%H%M%S")] *)
Definition strftime_stamp (t : datetime) : string :=
  PyFmt.four_digits (year t) +:+ PyFmt.two_digits (month t)
  +:+ PyFmt.two_digits (day t) +:+ "_" +:+ PyFmt.two_digits (hour t)
  +:+ PyFmt.two_digits (minute t) +:+ PyFmt.two_digits (second t).

(** ** Exceptions *)

(** [type(e).__name__] and [str(e)] of a raised exception. *)
Record exn : Type := mk_exn { exn_kind : string; exn_text : string }.

Inductive result (A : Type) : Type :=
| Ok (a : A)
| Raise (e : exn).
Arguments Ok {A} a.
Arguments Raise {A} e.

#[global] Instance result_ret : MRet result := fun _ a => Ok a.
#[global] Instance result_bind : MBind result := fun _ _ f r =>
  match r with
  | Ok a => f a
  | Raise e => Raise e
  end.

(** ** Python dictionaries: insertion-ordered, one entry per key *)

Abbreviation dict K V := (list (K * V)).

Section Dict.
Context {K V : Type} `{EqDecision K}.

(** [d.get(k)] *)
Fixpoint dict_get (k : K) (d : dict K V) : option V :=
  match d with
  | [] => None
  | (k', v) :: d' => if decide (k = k') then Some v else dict_get k d'
  end.

(** [d[k] = v]: an existing key keeps its position, a new key goes last. *)
Fixpoint dict_set (k : K) (v : V) (d : dict K V) : dict K V :=
  match d with
  | [] => [(k, v)]
  | (k', v') :: d' =>
      if decide (k = k') then (k, v) :: d' else (k', v') :: dict_set k v d'
  end.

Definition dict_keys (d : dict K V) : list K := fst <$> d.
Definition dict_values (d : dict K V) : list V := snd <$> d.
End Dict.

(** ** Raw advertisement events (the Bleak types the decoders read) *)

Module BLEDevice.
Record t : Type := mk {
  address : string;
  name : option string
}.
End BLEDevice.

Module AdvertisementData.
(** [rssi] is [None] when the attribute is missing, the case that
    [getattr(advertisement_data, 'rssi', 'N/A')] provides for. *)
Record t : Type := mk {
  local_name : option string;
  manufacturer_data : dict N (list byte);
  service_uuids : list string;
  service_data : dict string (list byte);
  tx_power : option Z;
  rssi : option Z;
  platform_data : string
}.
End AdvertisementData.

(** ** Decoded records: the [device_info] dictionary *)

Module RawData.
Record t : Type := mk {
  manufacturer_data : dict N (list byte);
  service_data : dict string (option string);
  tx_power : option Z;
  platform_data : string
}.
End RawData.

Module DeviceInfo.
Record t : Type := mk {
  address : string;
  name : string;
  manufacturer : string;
  manufacturer_id : string;
  service_uuids : string;
  service_data : string;
  rssi : Z;
  last_seen : string;
  raw_data : RawData.t
}.
End DeviceInfo.

(** What the worker does to the outside: Qt signals and terminal output. *)
Inductive effect : Type :=
| device_found (device_info : DeviceInfo.t)
| scan_started
| scan_stopped
| error_occurred (msg : string)
| print (text : string).

(** The value bound to the local [rssi]: a number, or the string 'N/A'. *)
Inductive rssi_value : Type :=
| RssiNum (z : Z)
| RssiNA.

(** [a or b or ""] on optional strings: the first non-empty one. *)
Definition name_or (a b : option string) : string :=
  match a with
  | Some (String c s) => String c s
  | _ => match b with
         | Some (String c s) => String c s
         | _ => EmptyString
         end
  end.

(** [if isinstance(rssi, (int, float)): rssi = max(rssi, -99)] *)
Definition clamp_rssi (rssi : rssi_value) : rssi_value :=
  match rssi with
  | RssiNum z => RssiNum (Z.max z (-99))
  | RssiNA => RssiNA
  end.

(** [int(rssi) if rssi != 'N/A' else -999] *)
Definition rssi_field (rssi : rssi_value) : Z :=
  match rssi with
  | RssiNum z => z
  | RssiNA => (-999)%Z
  end.

(** [getattr(advertisement_data, 'rssi', 'N/A')] *)
Definition getattr_rssi (adv : AdvertisementData.t) : rssi_value :=
  match AdvertisementData.rssi adv with
  | Some z => RssiNum z
  | None => RssiNA
  end.

(** [f"0x{manufacturer_id:04X}" if manufacturer_id else ""]: the test is
    Python truthiness, so both [None] and the integer 0 take the else
    branch. *)
Definition manufacturer_id_field (manufacturer_id : option N) : string :=
  match manufacturer_id with
  | Some 0%N => EmptyString
  | Some k => "0x" +:+ PyFmt.format_04X k
  | None => EmptyString
  end.

(** [data.hex().upper()] *)
Definition hex_upper (data : list byte) : string :=
  PyStr.upper (PyFmt.bytes_hex data).

(** ** The decoders *)

Section Decoder.

(** [get_manufacturer_name], imported from the module
    [manufacturer_ids]: the company registry. Like any call it may
    raise. *)
Variable get_manufacturer_name : N -> result string.

(** [traceback.format_exc()] and [get_system_info()]: text obtained
    from the interpreter and from platform probes. *)
Variable format_exc : exn -> string.
Variable get_system_info : string.

(** [list(set(xs))]: the iteration order of a set is not specified. *)
Variable list_of_set : list string -> list string.

(** Lines 141-147 of [ble_adv_scanner.py] (135-145 of the basic one). *)
Definition extract_manufacturer (manufacturer_data : dict N (list byte))
  : result (string * option N) :=
  match manufacturer_data with
  | [] => mret (EmptyString, None)
  | (manufacturer_id, _) :: _ =>
      manufacturer_name ← get_manufacturer_name manufacturer_id;
      mret (if PyStr.startswith manufacturer_name "Unknown"
            then "0x" +:+ PyFmt.format_04X manufacturer_id
            else manufacturer_name,
            Some manufacturer_id)
  end.

(** The body of the [try] in [BLEScannerWorker.process_device]
    ([ble_adv_scanner.py]); [now] is what [datetime.now()] returns. *)
Definition process_device_body (now : datetime)
    (device : BLEDevice.t) (advertisement_data : AdvertisementData.t)
  : result DeviceInfo.t :=
  let manufacturer_data :=
    AdvertisementData.manufacturer_data advertisement_data in
  '(manufacturer_name, manufacturer_id) ←
    extract_manufacturer manufacturer_data;
  let all_service_uuids := AdvertisementData.service_uuids advertisement_data in
  let converted_service_uuids := map normalize_uuid all_service_uuids in
  let service_uuids_str := PyStr.join PyFmt.nl converted_service_uuids in
  let service_data_strings :=
    map (fun '(uuid, data) =>
           normalize_uuid uuid +:+ PyFmt.nl +:+ "data: " +:+ hex_upper data)
        (AdvertisementData.service_data advertisement_data) in
  let enhanced_service_data :=
    fold_left (fun acc '(uuid, data) =>
                 dict_set (normalize_uuid uuid) (Some (hex_upper data)) acc)
              (AdvertisementData.service_data advertisement_data) [] in
  let service_data_str :=
    PyStr.join (PyFmt.nl +:+ PyFmt.nl) service_data_strings in
  let rssi := clamp_rssi (getattr_rssi advertisement_data) in
  let last_seen := strftime_HMS now in
  mret {|
    DeviceInfo.address := BLEDevice.address device;
    DeviceInfo.name :=
      name_or (BLEDevice.name device)
              (AdvertisementData.local_name advertisement_data);
    DeviceInfo.manufacturer := manufacturer_name;
    DeviceInfo.manufacturer_id := manufacturer_id_field manufacturer_id;
    DeviceInfo.service_uuids := service_uuids_str;
    DeviceInfo.service_data := service_data_str;
    DeviceInfo.rssi := rssi_field rssi;
    DeviceInfo.last_seen := last_seen;
    DeviceInfo.raw_data := {|
      RawData.manufacturer_data := manufacturer_data;
      RawData.service_data := enhanced_service_data;
      RawData.tx_power := AdvertisementData.tx_power advertisement_data;
      RawData.platform_data :=
        AdvertisementData.platform_data advertisement_data |}
  |}.

(** The UUIDs the basic decoder works on: lines 148-152 of
    [ble_basic_scanner.py]. *)
Definition basic_all_service_uuids (advertisement_data : AdvertisementData.t)
  : list string :=
  let service_uuids := AdvertisementData.service_uuids advertisement_data in
  let service_data_uuids :=
    dict_keys (AdvertisementData.service_data advertisement_data) in
  list_of_set (service_uuids ++ service_data_uuids).

(** The body of the [try] in [BLEScannerWorker.detection_callback]
    ([ble_basic_scanner.py]). *)
Definition detection_callback_body (now : datetime)
    (device : BLEDevice.t) (advertisement_data : AdvertisementData.t)
  : result DeviceInfo.t :=
  let manufacturer_data :=
    AdvertisementData.manufacturer_data advertisement_data in
  '(manufacturer_name, manufacturer_id) ←
    extract_manufacturer manufacturer_data;
  let service_data := AdvertisementData.service_data advertisement_data in
  let all_service_uuids := basic_all_service_uuids advertisement_data in
  let converted_uuids := map normalize_uuid all_service_uuids in
  let service_uuids_str := PyStr.join PyFmt.nl converted_uuids in
  let service_data_strings :=
    map (fun uuid => match dict_get uuid service_data with
                     | Some data => hex_upper data
                     | None => "null"
                     end) all_service_uuids in
  let service_data_str := PyStr.join PyFmt.nl service_data_strings in
  let rssi := clamp_rssi (getattr_rssi advertisement_data) in
  let last_seen := strftime_HMS now in
  let enhanced_service_data :=
    fold_left (fun acc uuid =>
                 dict_set uuid (hex_upper <$> dict_get uuid service_data) acc)
              all_service_uuids [] in
  mret {|
    DeviceInfo.address := BLEDevice.address device;
    DeviceInfo.name :=
      name_or (BLEDevice.name device)
              (AdvertisementData.local_name advertisement_data);
    DeviceInfo.manufacturer := manufacturer_name;
    DeviceInfo.manufacturer_id := manufacturer_id_field manufacturer_id;
    DeviceInfo.service_uuids := service_uuids_str;
    DeviceInfo.service_data := service_data_str;
    DeviceInfo.rssi := rssi_field rssi;
    DeviceInfo.last_seen := last_seen;
    DeviceInfo.raw_data := {|
      RawData.manufacturer_data := manufacturer_data;
      RawData.service_data := enhanced_service_data;
      RawData.tx_power := AdvertisementData.tx_power advertisement_data;
      RawData.platform_data :=
        AdvertisementData.platform_data advertisement_data |}
  |}.

(** [get_detailed_error_info(error, context)] *)
Definition get_detailed_error_info (error : exn) (context : string) : string :=
  PyStr.join PyFmt.nl
    [ "=== DETAILED ERROR INFORMATION ===";
      "Error Type: " +:+ exn_kind error;
      "Error Message: " +:+ exn_text error;
      "Context: " +:+ context;
      "";
      "=== STACK TRACE ===";
      format_exc error;
      "";
      get_system_info ].

Definition see_terminal : string :=
  PyFmt.nl +:+ PyFmt.nl +:+ "See terminal for detailed error information.".

(** The [except Exception] handler shared by both decoders; [method] is
    the name of the method that failed. *)
Definition report_device_error (method : string) (device : BLEDevice.t)
    (e : exn) : list effect :=
  let detailed_error :=
    get_detailed_error_info e
      ("BLE Scanner Worker - " +:+ method +:+ " for device "
       +:+ BLEDevice.address device) in
  [ print ("BLE DEVICE PROCESSING ERROR (Terminal):" +:+ PyFmt.nl
           +:+ detailed_error);
    error_occurred ("Error processing device " +:+ BLEDevice.address device
                    +:+ ": " +:+ exn_text e +:+ see_terminal) ].

(** [BLEScannerWorker.process_device] of [ble_adv_scanner.py] *)
Definition process_device (now : datetime)
    (device : BLEDevice.t) (advertisement_data : AdvertisementData.t)
  : list effect :=
  match process_device_body now device advertisement_data with
  | Ok device_info => [device_found device_info]
  | Raise e => report_device_error "process_device" device e
  end.

(** [BLEScannerWorker.detection_callback] of [ble_basic_scanner.py] *)
Definition detection_callback (now : datetime)
    (device : BLEDevice.t) (advertisement_data : AdvertisementData.t)
  : list effect :=
  match detection_callback_body now device advertisement_data with
  | Ok device_info => [device_found device_info]
  | Raise e => report_device_error "detection_callback" device e
  end.

(** What the scanner hands to the worker, one item per iteration of
    [async for ... in scanner.advertisement_data()]: an advertisement,
    together with the value [self.is_scanning] has when it arrives and
    the clock reading taken while it is decoded, or an exception raised
    by the scanner itself. *)
Inductive scan_item : Type :=
| Advert (is_scanning : bool) (now : datetime)
         (device : BLEDevice.t) (advertisement_data : AdvertisementData.t)
| ScannerFault (e : exn).

(** The [async for] loop of [start_scanning]: effects so far, and the
    exception that left the loop, if any. *)
Fixpoint scan_loop (items : list scan_item) : list effect * option exn :=
  match items with
  | [] => ([], None)
  | Advert false _ _ _ :: _ => ([], None)
  | Advert true now device advertisement_data :: rest =>
      let '(effects, failure) := scan_loop rest in
      (process_device now device advertisement_data ++ effects, failure)
  | ScannerFault e :: _ => ([], Some e)
  end.

(** The [except Exception] handler of [start_scanning]. *)
Definition report_scan_error (e : exn) : list effect :=
  let detailed_error :=
    get_detailed_error_info e "BLE Scanner Worker - start_scanning" in
  [ print ("BLE SCANNER ERROR (Terminal):" +:+ PyFmt.nl +:+ detailed_error);
    error_occurred ("Scanning error: " +:+ exn_text e +:+ see_terminal) ].

(** [BLEScannerWorker.start_scanning] of [ble_adv_scanner.py] *)
Definition start_scanning (items : list scan_item) : list effect :=
  let '(effects, failure) := scan_loop items in
  [scan_started] ++ effects
  ++ match failure with
     | Some e => report_scan_error e
     | None => []
     end
  ++ [scan_stopped].

(** [BLEScannerWorker.start_scanning] of [ble_basic_scanner.py]: the
    scanner is started ([startup] is the exception [scanner.start()]
    raises, if any) and calls [detection_callback] once per detection
    until it is stopped. *)
Definition basic_start_scanning (startup : option exn)
    (detections : list (datetime * BLEDevice.t * AdvertisementData.t))
  : list effect :=
  [scan_started]
  ++ match startup with
     | Some e => report_scan_error e
     | None =>
         flat_map (fun '(now, device, advertisement_data) =>
                     detection_callback now device advertisement_data)
                  detections
     end
  ++ [scan_stopped].

End Decoder.

(** An advertisement delivered while [self.is_scanning] is still set. *)
Definition live_advert (it : scan_item) : bool :=
  match it with
  | Advert true _ _ _ => true
  | _ => false
  end.

(** A duplicate-free listing that keeps first occurrences: one of the
    orders [list(set(xs))] can produce. *)
Fixpoint first_occurrences (xs : list string) : list string :=
  match xs with
  | [] => []
  | x :: xs' => x :: filter (fun y => y ≠ x) (first_occurrences xs')
  end.

(** ** Hex dump

    The loop both detail panels run over a payload
    ([update_manufacturer_details], lines 1007-1035, and
    [update_service_data_details], lines 1110-1138). *)

(** [range(start, stop, step)] for a positive step; at most [fuel] items. *)
Fixpoint range_step (fuel start stop step : nat) : list nat :=
  match fuel with
  | O => []
  | S fuel' =>
      if start <? stop then start :: range_step fuel' (start + step) stop step
      else []
  end.

(** [chr(byte) if 32 <= byte <= 126 else '.'] *)
Definition ascii_repr (b : byte) : string :=
  let n := Byte.to_N b in
  if ((32 <=? n) && (n <=? 126))%N then String (ascii_of_byte b) EmptyString
  else ".".

(** The [for j, byte in enumerate(chunk)] loop. *)
Definition render_chunk (chunk : list byte) : list string * list string :=
  fold_left
    (fun '(hex_bytes, ascii_chars) b =>
       (hex_bytes ++ [PyFmt.format_02X (Byte.to_N b)],
        ascii_chars ++ [ascii_repr b]))
    chunk ([], []).

(** [while len(hex_bytes) < 8: ...]; the loop runs at most eight times. *)
Fixpoint pad_row (fuel : nat) (hex_bytes ascii_chars : list string)
  : list string * list string :=
  match fuel with
  | O => (hex_bytes, ascii_chars)
  | S fuel' =>
      if length hex_bytes <? 8
      then pad_row fuel' (hex_bytes ++ ["  "]) (ascii_chars ++ [" "])
      else (hex_bytes, ascii_chars)
  end.

(** One line of the dump, for the chunk that starts at offset [i]. *)
Definition hex_dump_line (i : nat) (chunk : list byte) : string :=
  let offset := PyFmt.format_04X (N.of_nat i) in
  let '(hex_bytes, ascii_chars) := render_chunk chunk in
  let '(hex_bytes, ascii_chars) := pad_row 8 hex_bytes ascii_chars in
  let hex_part := PyStr.join " " hex_bytes in
  let ascii_part := PyStr.join "" ascii_chars in
  offset +:+ ": " +:+ hex_part +:+ "  |" +:+ ascii_part +:+ "|".

(** [for i in range(0, len(data_bytes), 8)] with
    [chunk = data_bytes[i:i+8]]. *)
Definition hex_dump (data_bytes : list byte) : list string :=
  map (fun i => hex_dump_line i (take 8 (drop i data_bytes)))
      (range_step (length data_bytes) 0 (length data_bytes) 8).

(** ** The application: device store, results table, export *)

(** A [QTableWidgetItem]: display text, the integer kept under
    [Qt.UserRole], and whether it is aligned top-left. *)
Record item : Type := mk_item {
  text : string;
  user_role : option Z;
  align_top_left : bool
}.

Definition QTableWidgetItem (s : string) : item :=
  {| text := s; user_role := None; align_top_left := false |}.

(** A row of the results table; [setColumnCount(7)] fixes the columns:
    Address, Name, Manufacturer, Service UUIDs, Service Data, RSSI,
    Last Seen. A cell without item is [None]. *)
Record table_row : Type := mk_row {
  c0 : option item; c1 : option item; c2 : option item; c3 : option item;
  c4 : option item; c5 : option item; c6 : option item
}.

Definition empty_row : table_row := mk_row None None None None None None None.

(** [Qt.SortOrder] *)
Inductive SortOrder : Type := AscendingOrder | DescendingOrder.

(** Both applications call [self.table.setSortingEnabled(True)]. From
    then on the widget keeps the column that carries the sort indicator
    in order by itself: [setItem] into that column moves the row, and a
    click on a header section sorts the whole table. Where the rows go
    is decided inside Qt: [sorted_row order column row rows] is the
    position to which [QTableModel::setItem] moves row [row] after its
    cell in the sort column was replaced, and [sort_rows order column
    rows] is the table after [QTableView::sortByColumn]. *)
Class TableSorting : Type := {
  sorted_row : SortOrder -> nat -> nat -> list table_row -> nat;
  sort_rows : SortOrder -> nat -> list table_row -> list table_row
}.

Definition set_cell (column : nat) (it : item) (r : table_row) : table_row :=
  match r, column with
  | mk_row _ b c d e f g, 0 => mk_row (Some it) b c d e f g
  | mk_row a _ c d e f g, 1 => mk_row a (Some it) c d e f g
  | mk_row a b _ d e f g, 2 => mk_row a b (Some it) d e f g
  | mk_row a b c _ e f g, 3 => mk_row a b c (Some it) e f g
  | mk_row a b c d _ f g, 4 => mk_row a b c d (Some it) f g
  | mk_row a b c d e _ g, 5 => mk_row a b c d e (Some it) g
  | mk_row a b c d e f _, 6 => mk_row a b c d e f (Some it)
  | _, _ => r
  end.

(** The widget takes the row out and puts it in again at [sortedRow];
    the other rows keep their order. *)
Definition move_row (row sortedRow : nat) (table : list table_row)
  : list table_row :=
  match table !! row with
  | Some r =>
      let rest := delete row table in
      take sortedRow rest ++ r :: drop sortedRow rest
  | None => table
  end.

(** [table.insertRow(row)]; the new row is empty and is not sorted
    in. *)
Definition insertRow (row : nat) (table : list table_row) : list table_row :=
  take row table ++ empty_row :: drop row table.

(** [table.item(row, 0) and table.item(row, 0).text() == address] *)
Definition row_has_address (address : string) (r : table_row) : bool :=
  match c0 r with
  | Some it => String.eqb (text it) address
  | None => false
  end.

(** The [for row in range(rowCount) ... break] search of [add_device]. *)
Fixpoint find_row (address : string) (table : list table_row) : option nat :=
  match table with
  | [] => None
  | r :: rest =>
      if row_has_address address r then Some 0
      else S <$> find_row address rest
  end.

(** The item [add_device] builds for the RSSI column. *)
Definition rssi_item (rssi : Z) : item :=
  if bool_decide (rssi ≠ (-999)%Z)
  then {| text := PyFmt.str_Z rssi; user_role := Some rssi;
          align_top_left := false |}
  else {| text := "N/A"; user_role := Some (-999)%Z;
          align_top_left := false |}.

Definition top_left (it : item) : item :=
  {| text := text it; user_role := user_role it; align_top_left := true |}.

(** The state of [BLEScannerApp] that [add_device], [clear_results] and
    [export_results] read and write: the store, the rows of the table,
    the header section that carries the sort indicator with its order
    ([None] while no section does), and the status line. The detail
    panels, which follow the current selection, are left out. *)
Record app : Type := mk_app {
  devices : dict string DeviceInfo.t;
  table : list table_row;
  sort_indicator : option (nat * SortOrder);
  status_label : string
}.

(** The application before the first event. Whether the header starts
    with a sort indicator is Qt's affair: a start with one is a
    [SortByColumn] as first operation below. *)
Definition initial_app : app :=
  {| devices := []; table := []; sort_indicator := None;
     status_label := "Ready to scan" |}.

(** [BLEScannerApp.clear_results]; [setRowCount(0)] leaves the header as
    it is. *)
Definition clear_results (self : app) : app :=
  {| devices := []; table := []; sort_indicator := sort_indicator self;
     status_label := "Results cleared" |}.

Inductive table_op : Type :=
| Upsert (device_info : DeviceInfo.t)
| Clear
| SortByColumn (column : nat) (order : SortOrder).

Section TableWidget.

Context `{!TableSorting}.

(** [table.setItem(row, column, it)] with sorting enabled: the cell is
    replaced and, when [column] is the section with the sort indicator,
    the row is moved to its sorted position. *)
Definition setItem (indicator : option (nat * SortOrder)) (row column : nat)
    (it : item) (table : list table_row) : list table_row :=
  let table := alter (set_cell column it) row table in
  match indicator with
  | Some (section, order) =>
      if decide (section = column)
      then move_row row (sorted_row order column row table) table
      else table
  | None => table
  end.

(** The seven [setItem] calls of [add_device], in source order, all with
    the row number found before the first of them. *)
Definition write_row (indicator : option (nat * SortOrder)) (row : nat)
    (device_info : DeviceInfo.t) (table : list table_row) : list table_row :=
  let table :=
    setItem indicator row 0
      (QTableWidgetItem (DeviceInfo.address device_info)) table in
  let table :=
    setItem indicator row 1
      (QTableWidgetItem (DeviceInfo.name device_info)) table in
  let table :=
    setItem indicator row 2
      (QTableWidgetItem (DeviceInfo.manufacturer device_info)) table in
  let service_uuids_item :=
    top_left (QTableWidgetItem (DeviceInfo.service_uuids device_info)) in
  let table := setItem indicator row 3 service_uuids_item table in
  let service_data_item :=
    top_left (QTableWidgetItem (DeviceInfo.service_data device_info)) in
  let table := setItem indicator row 4 service_data_item table in
  let table :=
    setItem indicator row 5 (rssi_item (DeviceInfo.rssi device_info)) table in
  setItem indicator row 6
    (QTableWidgetItem (DeviceInfo.last_seen device_info)) table.

(** [BLEScannerApp.add_device] *)
Definition add_device (device_info : DeviceInfo.t) (self : app) : app :=
  let address := DeviceInfo.address device_info in
  let devices' := dict_set address device_info (devices self) in
  let existing_row := find_row address (table self) in
  let '(row, table') :=
    match existing_row with
    | None =>
        let row := length (table self) in
        (row, insertRow row (table self))
    | Some row => (row, table self)
    end in
  {| devices := devices';
     table := write_row (sort_indicator self) row device_info table';
     sort_indicator := sort_indicator self;
     status_label :=
       "Scanning... Found " +:+ PyFmt.str_nat (length devices') +:+ " devices" |}.

(** A click on a header section, which Qt answers with
    [sortByColumn(column, order)]: the section gets the sort indicator
    and the rows are sorted by it. No code of the application runs. *)
Definition sort_by_column (column : nat) (order : SortOrder) (self : app) : app :=
  {| devices := devices self;
     table := sort_rows order column (table self);
     sort_indicator := Some (column, order);
     status_label := status_label self |}.

Definition apply_op (self : app) (op : table_op) : app :=
  match op with
  | Upsert device_info => add_device device_info self
  | Clear => clear_results self
  | SortByColumn column order => sort_by_column column order self
  end.

(** The state after a sequence of operations, oldest first. *)
Definition run_ops (ops : list table_op) : app := fold_left apply_op ops initial_app.

End TableWidget.

(** The address shown in each row. *)
Definition row_addresses (table : list table_row) : list (option string) :=
  (fun r => text <$> c0 r) <$> table.

(** The row [add_device] leaves for a record when no row moves. *)
Definition row_of (device_info : DeviceInfo.t) : table_row :=
  {| c0 := Some (QTableWidgetItem (DeviceInfo.address device_info));
     c1 := Some (QTableWidgetItem (DeviceInfo.name device_info));
     c2 := Some (QTableWidgetItem (DeviceInfo.manufacturer device_info));
     c3 := Some (top_left (QTableWidgetItem (DeviceInfo.service_uuids device_info)));
     c4 := Some (top_left (QTableWidgetItem (DeviceInfo.service_data device_info)));
     c5 := Some (rssi_item (DeviceInfo.rssi device_info));
     c6 := Some (QTableWidgetItem (DeviceInfo.last_seen device_info)) |}.

(** The store has one entry per address and every stored address is
    shown in the address cell of exactly one row, in whatever order the
    rows are. *)
Definition table_shows_store (self : app) : Prop :=
  NoDup (dict_keys (devices self)) /\
  row_addresses (table self) ≡ₚ Some <$> dict_keys (devices self).


(** *** Export *)

(** The working directory: its files, whether it accepts
    [open(filename, 'w')], and how many more characters the device
    takes ([None]: no limit is met). *)
Record filesystem : Type := mk_fs {
  files : gmap string string;
  writable : bool;
  free_space : option nat
}.

Inductive dialog : Type :=
| information (title body : string)
| critical (title body : string).

(** [open(filename, 'w')]: raises when the directory refuses the file;
    otherwise the file exists from now on and is empty, and what it
    held before is given back to the device. *)
Definition open_w (filename : string) (fs : filesystem) : result filesystem :=
  if writable fs then
    let old := default EmptyString (files fs !! filename) in
    Ok {| files := <[filename := EmptyString]> (files fs);
          writable := writable fs;
          free_space := (fun n => n + String.length old) <$> free_space fs |}
  else Raise {| exn_kind := "PermissionError";
                exn_text := "[Errno 13] Permission denied: '" +:+ filename +:+ "'" |}.

Definition no_space_left : exn :=
  {| exn_kind := "OSError"; exn_text := "[Errno 28] No space left on device" |}.

(** Writing [content] through the file opened under [filename] and
    leaving the [with] block: when the device takes all of it the file
    holds [content]; otherwise the file keeps what fitted and the
    write raises. *)
Definition write_text (filename content : string) (fs : filesystem)
  : filesystem * option exn :=
  match free_space fs with
  | Some n =>
      if String.length content <=? n then
        ({| files := <[filename := content]> (files fs);
            writable := writable fs;
            free_space := Some (n - String.length content) |}, None)
      else
        ({| files := <[filename := String.substring 0 n content]> (files fs);
            writable := writable fs;
            free_space := Some 0 |}, Some no_space_left)
  | None =>
      ({| files := <[filename := content]> (files fs);
          writable := writable fs;
          free_space := None |}, None)
  end.

Section ExportResults.

(** [json.dumps(records, indent=2, default=str)]: the text that
    [json.dump] writes. With [default=str] and the keys the decoders
    use (strings and integers) the encoding itself does not fail. *)
Variable json_dumps : list DeviceInfo.t -> string.

Definition export_filename (now : datetime) : string :=
  "ble_scan_results_" +:+ strftime_stamp now +:+ ".json".

(** [BLEScannerApp.export_results]; the application state is only
    read. One handler reports a failure of [open] and a failure of
    [json.dump]. *)
Definition export_results (now : datetime) (self : app) (fs : filesystem)
  : filesystem * dialog :=
  match devices self with
  | [] => (fs, information "Export" "No devices to export")
  | _ :: _ =>
      let filename := export_filename now in
      match open_w filename fs with
      | Ok opened =>
          match write_text filename (json_dumps (dict_values (devices self)))
                  opened with
          | (written, None) =>
              (written,
               information "Export Successful" ("Results exported to " +:+ filename))
          | (written, Some e) =>
              (written,
               critical "Export Error" ("Failed to export: " +:+ exn_text e))
          end
      | Raise e =>
          (fs, critical "Export Error" ("Failed to export: " +:+ exn_text e))
      end
  end.

End ExportResults.

(** ** Sample events *)

Definition sample_registry (company : N) : result string :=
  if (company =? 0x004C)%N then Ok "Apple, Inc."
  else if (company =? 0)%N then Ok "Ericsson AB"
  else Ok "Unknown".

Definition broken_registry (company : N) : result string :=
  Raise {| exn_kind := "KeyError"; exn_text := "company table not loaded" |}.

Definition sample_format_exc (e : exn) : string :=
  "Traceback (most recent call last): " +:+ exn_kind e.

Definition sample_system_info : string := "=== SYSTEM INFORMATION ===".

Definition sample_device : BLEDevice.t :=
  {| BLEDevice.address := "AA:BB:CC:DD:EE:FF"; BLEDevice.name := None |}.

Definition sample_now : datetime := mk_datetime 2025 1 15 9 5 7 250000.
Definition sample_later : datetime := mk_datetime 2025 1 15 9 5 7 750000.

(** Company 0x004C, the battery service in lower and in upper case,
    and a reading of -120 dBm. *)
Definition scenario_adv : AdvertisementData.t :=
  {| AdvertisementData.local_name := Some "Thermo";
     AdvertisementData.manufacturer_data := [(0x004C%N, [x02; x15])];
     AdvertisementData.service_uuids :=
       ["0000180f-0000-1000-8000-00805f9b34fb";
        "0000180F-0000-1000-8000-00805F9B34FB"];
     AdvertisementData.service_data := [];
     AdvertisementData.tx_power := None;
     AdvertisementData.rssi := Some (-120)%Z;
     AdvertisementData.platform_data := "" |}.

(** A UUID that is advertised only as a service-data key. *)
Definition service_data_only_adv : AdvertisementData.t :=
  {| AdvertisementData.local_name := None;
     AdvertisementData.manufacturer_data := [];
     AdvertisementData.service_uuids := [];
     AdvertisementData.service_data :=
       [("0000180f-0000-1000-8000-00805f9b34fb", [x64])];
     AdvertisementData.tx_power := None;
     AdvertisementData.rssi := Some (-60)%Z;
     AdvertisementData.platform_data := "" |}.

(** Manufacturer data under company identifier 0x0000. *)
Definition company_zero_adv : AdvertisementData.t :=
  {| AdvertisementData.local_name := None;
     AdvertisementData.manufacturer_data := [(0%N, [x01; x02])];
     AdvertisementData.service_uuids := [];
     AdvertisementData.service_data := [];
     AdvertisementData.tx_power := None;
     AdvertisementData.rssi := Some (-60)%Z;
     AdvertisementData.platform_data := "" |}.

(** Manufacturer data under an identifier the registry does not know. *)
Definition unknown_company_adv : AdvertisementData.t :=
  {| AdvertisementData.local_name := None;
     AdvertisementData.manufacturer_data := [(0x9999%N, [x01])];
     AdvertisementData.service_uuids := [];
     AdvertisementData.service_data := [];
     AdvertisementData.tx_power := None;
     AdvertisementData.rssi := None;
     AdvertisementData.platform_data := "" |}.

(** Records as the decoders produce them, for two devices. *)
Definition sample_record (address : string) (rssi : Z) (last_seen : string)
  : DeviceInfo.t :=
  {| DeviceInfo.address := address;
     DeviceInfo.name := "Thermo";
     DeviceInfo.manufacturer := "Apple, Inc.";
     DeviceInfo.manufacturer_id := "0x004C";
     DeviceInfo.service_uuids := "180f";
     DeviceInfo.service_data := "";
     DeviceInfo.rssi := rssi;
     DeviceInfo.last_seen := last_seen;
     DeviceInfo.raw_data :=
       {| RawData.manufacturer_data := [(0x004C%N, [x02; x15])];
          RawData.service_data := [];
          RawData.tx_power := None;
          RawData.platform_data := "" |} |}.

Definition first_sighting : DeviceInfo.t :=
  sample_record "AA:BB:CC:DD:EE:FF" (-60) "09:05:07".
Definition second_sighting : DeviceInfo.t :=
  sample_record "AA:BB:CC:DD:EE:FF" (-70) "09:05:09".
Definition other_device : DeviceInfo.t :=
  sample_record "11:22:33:44:55:66" (-80) "09:05:08".

Definition sample_json (records : list DeviceInfo.t) : string :=
  "[" +:+ PyStr.join ", " (DeviceInfo.address <$> records) +:+ "]".

Definition read_only_directory : filesystem :=
  {| files := ∅; writable := false; free_space := None |}.

Definition empty_directory : filesystem :=
  {| files := ∅; writable := true; free_space := None |}.

(** A directory on a device that takes ten more characters. *)
Definition nearly_full_directory : filesystem :=
  {| files := ∅; writable := true; free_space := Some 10 |}.

(** The union the specification asks for: every advertised UUID and
    every service-data key, normalised. *)
Definition normalized_union (adv : AdvertisementData.t) : list string :=
  map normalize_uuid
      (AdvertisementData.service_uuids adv
       ++ dict_keys (AdvertisementData.service_data adv)).

(** ** Decoding hexadecimal text, blank lines, sorting *)

Module PyBytes.

(** The white space [bytes.fromhex] skips before a byte: space, tab,
    line feed, vertical tab, form feed, carriage return. *)
Definition is_space (c : ascii) : bool :=
  let n := N_of_ascii c in
  ((n =? 32) || ((9 <=? n) && (n <=? 13)))%N.

(** The value of a hexadecimal digit of either case. *)
Definition nibble (c : ascii) : option N :=
  let n := N_of_ascii c in
  if ((48 <=? n) && (n <=? 57))%N then Some (n - 48)%N
  else if ((65 <=? n) && (n <=? 70))%N then Some (n - 55)%N
  else if ((97 <=? n) && (n <=? 102))%N then Some (n - 87)%N
  else None.

Definition byte_of_nibbles (top bot : N) : byte :=
  match Byte.of_N (16 * top + bot) with
  | Some b => b
  | None => x00
  end.

(** [bytes.fromhex(s)]: white space may precede each byte, the two
    digits of a byte are adjacent. [None] stands for the [ValueError]
    raised at a character that is no digit or at a digit left alone. *)
Fixpoint fromhex (s : string) : option (list byte) :=
  match s with
  | EmptyString => Some []
  | String c s1 =>
      if is_space c then fromhex s1
      else
        match s1 with
        | EmptyString => None
        | String d s2 =>
            match nibble c, nibble d with
            | Some top, Some bot => cons (byte_of_nibbles top bot) <$> fromhex s2
            | _, _ => None
            end
        end
  end.

(** [format(byte, '08b')] *)
Definition format_08b (n : N) : string :=
  PyStr.concat_chars
    (map (fun i => if N.testbit n i then "1"%char else "0"%char)
         [7; 6; 5; 4; 3; 2; 1; 0]%N).

End PyBytes.

Module PyText.

Definition newline : ascii := ascii_of_nat 10.

(** The characters [str.strip()] removes, among ASCII ones: tab to
    carriage return, the four separators 28 to 31, and space. *)
Definition is_whitespace (c : ascii) : bool :=
  let n := N_of_ascii c in
  ((n =? 32) || ((9 <=? n) && (n <=? 13)) || ((28 <=? n) && (n <=? 31)))%N.

(** [bool(s.strip())]: some character of [s] is no white space. *)
Fixpoint nonblank (s : string) : bool :=
  match s with
  | EmptyString => false
  | String c s' => negb (is_whitespace c) || nonblank s'
  end.

Fixpoint insert_sorted (x : string) (l : list string) : list string :=
  match l with
  | [] => [x]
  | y :: l' => if String.leb x y then x :: l else y :: insert_sorted x l'
  end.

(** [sorted(keys)] for strings, which Python orders by code point. *)
Definition sorted (l : list string) : list string :=
  fold_right insert_sorted [] l.

End PyText.

(** ** The detail panels of the iterator-driven application *)

(** [BLEScannerApp.update_service_uuids_details]: the text the panel is
    given; the empty text when it is cleared. *)
Definition update_service_uuids_details (device_info : DeviceInfo.t) : string :=
  let service_uuids := DeviceInfo.service_uuids device_info in
  if String.eqb service_uuids "" then ""
  else
    let uuids := PyStr.split PyText.newline service_uuids in
    let details :=
      ["Service UUIDs:"; ""]
      ++ concat (imap (fun i uuid =>
                         if PyText.nonblank uuid
                         then [PyFmt.str_nat (i + 1) +:+ ". " +:+ uuid]
                         else []) uuids)
      ++ [""]
      ++ ["Total: "
          +:+ PyFmt.str_nat (length (filter (fun u => PyText.nonblank u = true) uuids))
          +:+ " service UUID(s)"] in
    PyStr.join PyFmt.nl details.

(** What [update_service_data_details] appends for one UUID. *)
Definition service_data_block (uuid : string) (data_hex : option string)
  : list string :=
  ["UUID: " +:+ uuid]
  ++ match data_hex with
     | None =>
         ["Data Length: 0 bytes"; ""; "Raw Data (Hex):"; "(no data)"; "";
          "Hex Dump:"; "(no data)"; ""]
     | Some data_hex =>
         match PyBytes.fromhex data_hex with
         | Some data_bytes =>
             ["Data Length: " +:+ PyFmt.str_nat (length data_bytes) +:+ " bytes";
              ""; "Raw Data (Hex):"; PyStr.upper data_hex; ""; "Hex Dump:"; ""]
             ++ hex_dump data_bytes ++ [""]
         | None => ["Invalid hex data: " +:+ data_hex; ""]
         end
     end.

(** [BLEScannerApp.update_service_data_details]; every key that is
    iterated is a key of the dictionary, so [service_data[uuid]] is
    found. *)
Definition update_service_data_details (device_info : DeviceInfo.t) : string :=
  let service_data := RawData.service_data (DeviceInfo.raw_data device_info) in
  match service_data with
  | [] => ""
  | _ :: _ =>
      let sorted_uuids := PyText.sorted (dict_keys service_data) in
      PyStr.join PyFmt.nl
        (flat_map (fun uuid =>
                     service_data_block uuid (mjoin (dict_get uuid service_data)))
                  sorted_uuids)
  end.

(** The first lines of the manufacturer panel. *)
Definition manufacturer_header (device_info : DeviceInfo.t) : list string :=
  ["Manufacturer: " +:+ DeviceInfo.manufacturer device_info]
  ++ (if String.eqb (DeviceInfo.manufacturer_id device_info) "" then []
      else ["Manufacturer ID: " +:+ DeviceInfo.manufacturer_id device_info])
  ++ [""].

(** What [update_manufacturer_details] appends for one payload. *)
Definition manufacturer_block (data_bytes : list byte) : list string :=
  ["Data Length: " +:+ PyFmt.str_nat (length data_bytes) +:+ " bytes"; "";
   "Raw Data (Hex):"; hex_upper data_bytes; ""; "Hex Dump:"]
  ++ hex_dump data_bytes ++ [""].

(** [BLEScannerApp.update_manufacturer_details], for payloads that are
    byte strings, as the decoder stores them. *)
Definition update_manufacturer_details (device_info : DeviceInfo.t) : string :=
  let manufacturer_data :=
    RawData.manufacturer_data (DeviceInfo.raw_data device_info) in
  match manufacturer_data with
  | [] =>
      PyStr.join PyFmt.nl
        (manufacturer_header device_info
         ++ ["No manufacturer-specific data available for this device."])
  | _ :: _ =>
      PyStr.join PyFmt.nl
        (manufacturer_header device_info
         ++ flat_map (fun '(mfg_id, data_bytes) => manufacturer_block data_bytes)
                     manufacturer_data)
  end.

(** ** The manufacturer data viewer *)

(** The texts [ManufacturerDataViewer.init_ui] shows for one entry. *)
Record viewer_frame : Type := mk_frame {
  id_label : string;
  length_label : string;
  hex_text : string;
  formatted_text : string;
  binary_text : string;
  ascii_text : string
}.

Definition viewer_frame_of (manufacturer_id : N) (data_bytes : list byte)
  : viewer_frame :=
  let hex_data := hex_upper data_bytes in
  {| id_label := "Manufacturer ID: 0x" +:+ PyFmt.format_04X manufacturer_id;
     length_label :=
       "Data Length: " +:+ PyFmt.str_nat (length data_bytes) +:+ " bytes";
     hex_text := hex_data;
     formatted_text :=
       PyStr.join " "
         (map (fun i => String.substring i 2 hex_data)
              (range_step (String.length hex_data) 0 (String.length hex_data) 2));
     binary_text :=
       PyStr.join " "
         (map (fun b => PyBytes.format_08b (Byte.to_N b)) data_bytes);
     ascii_text := PyStr.join "" (map ascii_repr data_bytes) |}.

(** The content of the dialog: a notice when there is no manufacturer
    data, one frame per entry otherwise. *)
Inductive viewer_content : Type :=
| viewer_notice (label : string)
| viewer_frames (frames : list viewer_frame).

Definition viewer_init_ui (manufacturer_data : dict N (list byte))
  : viewer_content :=
  match manufacturer_data with
  | [] => viewer_notice "No manufacturer data available"
  | _ :: _ =>
      viewer_frames
        (map (fun '(manufacturer_id, data_bytes) =>
                viewer_frame_of manufacturer_id data_bytes)
             manufacturer_data)
  end.

(** ** Status line updates *)

(** The status line [BLEScannerApp.on_error] sets; the dialog it opens
    afterwards is not part of the state. *)
Definition on_error_status (error_msg : string) : string :=
  let first_line :=
    if PyStr.contains error_msg PyFmt.nl
    then hd EmptyString (PyStr.split PyText.newline error_msg)
    else error_msg in
  "Error: " +:+ first_line.

(** [BLEScannerApp.on_scan_stopped], as far as the state goes. *)
Definition on_scan_stopped (self : app) : app :=
  {| devices := devices self;
     table := table self;
     sort_indicator := sort_indicator self;
     status_label :=
       "Scan stopped. Found " +:+ PyFmt.str_nat (length (devices self))
       +:+ " devices." |}.

(** A clock reading as [datetime.now()] returns it. *)
Definition calendar_time (t : datetime) : Prop :=
  (1000 <= year t < 10000 /\ 1 <= month t <= 12 /\ 1 <= day t <= 31 /\
   hour t < 24 /\ minute t < 60 /\ second t < 60)%N.

(** The part of a clock reading that [strftime] keeps in a file name. *)
Definition to_the_second (t : datetime) : N * N * N * N * N * N :=
  (year t, month t, day t, hour t, minute t, second t).

(** ** Selection and the detail panels *)

(** The four texts beside the table of the iterator-driven
    application. *)
Record detail_panels : Type := mk_panels {
  manufacturer_details_text : string;
  service_uuids_details_text : string;
  service_data_details_text : string;
  raw_data_text : string
}.

(** [self.table.item(row, 0).text()] where the item is missing. *)
Definition no_text_attribute : exn :=
  {| exn_kind := "AttributeError";
     exn_text := "'NoneType' object has no attribute 'text'" |}.

Section Panels.

Context `{!TableSorting}.

(** [json.dumps(raw_data, indent=2, default=str)] *)
Variable json_dumps_raw : RawData.t -> string.

(** [BLEScannerApp.update_raw_data_panel] *)
Definition update_raw_data_panel (device_info : DeviceInfo.t) : string :=
  "raw_data = " +:+ json_dumps_raw (DeviceInfo.raw_data device_info).

(** The four updates that [on_cell_clicked], [show_raw_data] and
    [update_raw_data_if_selected] make for a record. *)
Definition show_details (device_info : DeviceInfo.t) : detail_panels :=
  {| manufacturer_details_text := update_manufacturer_details device_info;
     service_uuids_details_text := update_service_uuids_details device_info;
     service_data_details_text := update_service_data_details device_info;
     raw_data_text := update_raw_data_panel device_info |}.



(** [BLEScannerApp.update_raw_data_if_selected] *)
Definition update_raw_data_if_selected (address : string)
    (selected_rows : list nat) (self : app) (shown : detail_panels)
  : result detail_panels :=
  match selected_rows with
  | [] => Ok shown
  | row :: _ =>
      match table self !! row ≫= c0 with
      | None => Raise no_text_attribute
      | Some it =>
          let selected_address := text it in
          if String.eqb selected_address address then
            match dict_get address (devices self) with
            | Some device_info => Ok (show_details device_info)
            | None => Ok shown
            end
          else Ok shown
      end
  end.

(** What [add_device] does to the panels: after store and table are
    updated it calls [update_raw_data_if_selected]. *)
Definition add_device_panels (device_info : DeviceInfo.t)
    (selected_rows : list nat) (self : app) (shown : detail_panels)
  : result detail_panels :=
  update_raw_data_if_selected (DeviceInfo.address device_info) selected_rows
    (add_device device_info self) shown.

End Panels.

(** ** The history of the device store *)

(** The records added since the store was last cleared, oldest first. *)
Definition sightings_since_clear (ops : list table_op) : list DeviceInfo.t :=
  fold_left (fun acc op =>
               match op with
               | Upsert device_info => acc ++ [device_info]
               | Clear => []
               | SortByColumn _ _ => acc
               end) ops [].

(** The signals that report the outcome of one advertisement. *)
Definition is_outcome (eff : effect) : bool :=
  match eff with
  | device_found _ | error_occurred _ => true
  | _ => false
  end.

Definition is_session_mark (eff : effect) : bool :=
  match eff with
  | scan_started | scan_stopped => true
  | _ => false
  end.

(** A stand-in for [json.dumps] on raw data, and a third sighting of
    the sample device that carries another payload. *)
Definition sample_json_raw (raw : RawData.t) : string :=
  "{" +:+ PyStr.join ", "
            ((fun entry => hex_upper entry.2) <$> RawData.manufacturer_data raw)
  +:+ "}".

Definition beacon_sighting : DeviceInfo.t :=
  {| DeviceInfo.address := "AA:BB:CC:DD:EE:FF";
     DeviceInfo.name := "Thermo";
     DeviceInfo.manufacturer := "Apple, Inc.";
     DeviceInfo.manufacturer_id := "0x004C";
     DeviceInfo.service_uuids := "180f";
     DeviceInfo.service_data := "";
     DeviceInfo.rssi := (-65)%Z;
     DeviceInfo.last_seen := "09:05:10";
     DeviceInfo.raw_data :=
       {| RawData.manufacturer_data := [(0x004C%N, [x10; x05; xff])];
          RawData.service_data := [];
          RawData.tx_power := None;
          RawData.platform_data := "" |} |}.

(** ** The sorting of the table widget, as Qt does it

    For runs on concrete tables: the positions Qt's table model
    computes. Items are compared as [QTableWidgetItem::operator<] does,
    by their display texts. *)

Definition column_item (column : nat) (r : table_row) : option item :=
  match column with
  | 0 => c0 r | 1 => c1 r | 2 => c2 r | 3 => c3 r
  | 4 => c4 r | 5 => c5 r | 6 => c6 r | _ => None
  end.

Definition item_lt (a b : item) : bool := String.ltb (text a) (text b).

(** Whether [a] goes before [b] and is not merely equal to it. *)
Definition item_before (order : SortOrder) (a b : item) : bool :=
  match order with
  | AscendingOrder => item_lt a b
  | DescendingOrder => item_lt b a
  end.

(** [QTableModel::columnItems]: the items of a column down to the first
    cell without item. *)
Fixpoint columnItems (column : nat) (table : list table_row) : list item :=
  match table with
  | [] => []
  | r :: rest =>
      match column_item column r with
      | Some it => it :: columnItems column rest
      | None => []
      end
  end.

(** [std::lower_bound] on items that are in order: the number of items
    that go before [it]. *)
Fixpoint lower_bound (order : SortOrder) (it : item) (items : list item) : nat :=
  match items with
  | [] => 0
  | x :: rest =>
      if item_before order x it then S (lower_bound order it rest) else 0
  end.

(** The sorted insertion of [QTableModel::setItem]: the column without
    the row that was written, and in it the lower bound of the new
    item. *)
Definition qt_sorted_row (order : SortOrder) (column row : nat)
    (table : list table_row) : nat :=
  let colItems := columnItems column table in
  let colItems :=
    if decide (row < length colItems) then delete row colItems else colItems in
  match table !! row ≫= column_item column with
  | Some it => lower_bound order it colItems
  | None => length colItems
  end.

(** Stable insertion into rows that are in order. *)
Fixpoint insert_row (order : SortOrder) (column : nat) (r : table_row)
    (sorted : list table_row) : list table_row :=
  match sorted with
  | [] => [r]
  | y :: rest =>
      match column_item column y, column_item column r with
      | Some y_item, Some r_item =>
          if item_before order y_item r_item
          then y :: insert_row order column r rest
          else r :: sorted
      | _, _ => r :: sorted
      end
  end.

(** [QTableModel::sort]: the rows with an item in the column, stably
    sorted, then the rows without. *)
Definition qt_sort_rows (order : SortOrder) (column : nat)
    (table : list table_row) : list table_row :=
  fold_right (insert_row order column) []
    (filter (fun r => is_Some (column_item column r)) table)
  ++ filter (fun r => ¬ is_Some (column_item column r)) table.

#[global] Instance qt_sorting : TableSorting :=
  {| sorted_row := qt_sorted_row; sort_rows := qt_sort_rows |}.

(** * Properties *)

#[local] Arguments String.append !_ _ / : simpl nomatch.

(** ** Strings *)

Section StringFacts.

Lemma string_length_app (s t : string) :
  String.length (s +:+ t) = String.length s + String.length t.
Proof. induction s as [|c s IH]; simpl; [done | by rewrite IH]. Qed.

Lemma string_app_assoc (s t u : string) : (s +:+ t) +:+ u = s +:+ t +:+ u.
Proof. induction s as [|c s IH]; simpl; [done | by rewrite IH]. Qed.

Lemma string_app_nil_r (s : string) : s +:+ "" = s.
Proof. induction s as [|c s IH]; simpl; [done | by rewrite IH]. Qed.

Lemma drop_app_length (s t : string) : PyStr.drop (String.length s) (s +:+ t) = t.
Proof. induction s as [|c s IH]; simpl; [by destruct t | done]. Qed.

(** A string is what [drop] leaves, after some prefix of the dropped
    length. *)
Lemma drop_split (n : nat) (s : string) :
  n <= String.length s ->
  exists p, s = p +:+ PyStr.drop n s /\ String.length p = n.
Proof.
  revert s; induction n as [|n IH]; intros s Hn.
  - exists ""; by destruct s.
  - destruct s as [|c s]; simpl in *; [lia|].
    destruct (IH s) as (p & Hp & Hlen); [lia|].
    exists (String c p); simpl. by rewrite <- Hp, Hlen.
Qed.

Lemma endswith_app (p suf : string) : PyStr.endswith (p +:+ suf) suf = true.
Proof.
  unfold PyStr.endswith. rewrite string_length_app.
  replace (String.length p + String.length suf - String.length suf)
    with (String.length p) by lia.
  rewrite drop_app_length, String.eqb_refl, andb_true_r.
  apply Nat.leb_le; lia.
Qed.

Lemma endswith_inv (s suf : string) :
  PyStr.endswith s suf = true ->
  exists p, s = p +:+ suf /\ String.length p = String.length s - String.length suf.
Proof.
  unfold PyStr.endswith. intros [Hle Heq]%andb_true_iff.
  apply Nat.leb_le in Hle. apply String.eqb_eq in Heq.
  destruct (drop_split (String.length s - String.length suf) s) as (p & Hp & Hlen);
    [lia|].
  exists p. by rewrite Heq in Hp.
Qed.

Lemma split_not_nil (sep : ascii) (s : string) : PyStr.split sep s <> [].
Proof.
  destruct s as [|c s]; simpl; [done|].
  destruct (Ascii.eqb c sep); [done|]. by destruct (PyStr.split sep s).
Qed.

(** [(a + sep + b).split(sep) == a.split(sep) + b.split(sep)] *)
Lemma split_app_sep (sep : ascii) (a b : string) :
  PyStr.split sep (a +:+ String sep b) = PyStr.split sep a ++ PyStr.split sep b.
Proof.
  induction a as [|c a IH]; simpl.
  - by rewrite Ascii.eqb_refl.
  - destruct (Ascii.eqb c sep); [by rewrite IH|].
    rewrite IH. pose proof (split_not_nil sep a).
    by destruct (PyStr.split sep a).
Qed.

(** [sep.join(s.split(sep)) == s] *)
Lemma join_split (sep : ascii) (s : string) :
  PyStr.join (String sep "") (PyStr.split sep s) = s.
Proof.
  induction s as [|c s IH]; simpl; [done|].
  destruct (Ascii.eqb_spec c sep) as [->|Hne].
  - pose proof (split_not_nil sep s).
    destruct (PyStr.split sep s) as [|w ws]; [done|].
    simpl in *. by rewrite IH.
  - pose proof (split_not_nil sep s).
    destruct (PyStr.split sep s) as [|w ws]; [done|].
    destruct ws as [|w' ws]; simpl in *; by rewrite <- IH.
Qed.

Lemma startswith_0000_inv (p : string) :
  String.length p = 8 -> PyStr.startswith p "0000" = true ->
  p = "0000" +:+ PyStr.drop 4 p /\ String.length (PyStr.drop 4 p) = 4.
Proof.
  intros Hlen Hpre.
  do 8 (destruct p as [|? p]; [discriminate Hlen|]).
  destruct p; [|discriminate Hlen].
  unfold PyStr.startswith in Hpre. apply String.prefix_correct in Hpre.
  simpl in Hpre. by injection Hpre as -> -> -> ->.
Qed.

End StringFacts.

(** ** UUID normalisation *)

Lemma sig_suffix_split (p : string) :
  PyStr.split PyStr.hyphen (p +:+ SIG_BASE_SUFFIX)
  = PyStr.split PyStr.hyphen p ++ SIG_BASE_GROUPS.
Proof.
  change SIG_BASE_SUFFIX with (String PyStr.hyphen "0000-1000-8000-00805f9b34fb").
  by rewrite split_app_sep.
Qed.

Lemma join_sig_groups (g0 : string) :
  PyStr.join (String PyStr.hyphen "") (g0 :: SIG_BASE_GROUPS)
  = g0 +:+ SIG_BASE_SUFFIX.
Proof. reflexivity. Qed.

(** The test the code performs and the five-group reading of it agree,
    and a match yields characters 4..8 of the first group. *)
Lemma normalize_uuid_by_groups (uuid : string) :
  normalize_uuid uuid
  = if is_sig_base_128 uuid
    then PyStr.drop 4 (hd EmptyString (PyStr.split PyStr.hyphen uuid))
    else uuid.
Proof.
  unfold normalize_uuid, is_sig_base_128.
  destruct (String.length uuid =? 36) eqn:Hlen; simpl; [|done].
  destruct (PyStr.endswith uuid SIG_BASE_SUFFIX) eqn:Hend.
  - apply endswith_inv in Hend as (p & -> & _).
    rewrite sig_suffix_split.
    pose proof (split_not_nil PyStr.hyphen p) as Hnil.
    destruct (PyStr.split PyStr.hyphen p) as [|g0 [|g gs]]; [done| |].
    + by simpl.
    + simpl. rewrite length_app. simpl.
      replace (S (S (length gs + 4)) =? 5) with false
        by (symmetry; apply Nat.eqb_neq; lia).
      simpl. destruct gs as [|? gs]; simpl; [done|].
      unfold SIG_BASE_GROUPS.
      destruct gs as [|? [|? [|? [|? [|? gs]]]]]; done.
  - destruct (PyStr.split PyStr.hyphen uuid)
      as [|g0 [|g1 [|g2 [|g3 [|g4 [|g5 gs]]]]]] eqn:Hs; try done.
    case_bool_decide as Hg; simpl; [|done].
    exfalso. rewrite <- (join_split PyStr.hyphen uuid), Hs in Hend.
    injection Hg as -> -> -> ->.
    pose proof (join_sig_groups g0) as Hj. unfold SIG_BASE_GROUPS in Hj.
    by rewrite Hj, endswith_app in Hend.
Qed.

(** C1, as the code has it: a 36-character UUID in five hyphen-separated
    groups whose last four groups are spelled exactly as the lower-case
    SIG base and whose first group starts with 0000 is replaced by the
    remaining four characters of its first group, in the case they were
    given; every other string is returned unchanged. *)
Theorem normalize_uuid_sig_base (uuid : string) :
  (is_sig_base_128 uuid = true ->
   exists short,
     String.length short = 4 /\
     uuid = "0000" +:+ short +:+ SIG_BASE_SUFFIX /\
     normalize_uuid uuid = short) /\
  (is_sig_base_128 uuid = false -> normalize_uuid uuid = uuid).
Proof.
  rewrite normalize_uuid_by_groups. split; intros Hsig; rewrite Hsig; [|done].
  unfold is_sig_base_128 in Hsig.
  apply andb_true_iff in Hsig as [Hlen Hsig]. apply Nat.eqb_eq in Hlen.
  pose proof (join_split PyStr.hyphen uuid) as Hjoin.
  destruct (PyStr.split PyStr.hyphen uuid) as [|g0 [|g1 [|g2 [|g3 [|g4 [|g5 gs]]]]]];
    try discriminate Hsig.
  apply andb_true_iff in Hsig as [Hg Hpre]. apply bool_decide_eq_true in Hg.
  injection Hg as -> -> -> ->.
  pose proof (join_sig_groups g0) as Hj. unfold SIG_BASE_GROUPS in Hj.
  rewrite Hj in Hjoin.
  assert (String.length g0 = 8) as Hg0.
  { rewrite <- Hjoin, string_length_app in Hlen. simpl in Hlen. lia. }
  destruct (startswith_0000_inv g0 Hg0 Hpre) as [Heq Hshort].
  exists (PyStr.drop 4 g0). simpl hd. split; [done|]. split; [|done].
  rewrite <- Hjoin. rewrite Heq at 1. by rewrite string_app_assoc.
Qed.

Lemma normalize_uuid_sig_base_witness :
  is_sig_base_128 "0000180f-0000-1000-8000-00805f9b34fb" = true /\
  exists short,
    String.length short = 4 /\
    "0000180f-0000-1000-8000-00805f9b34fb" = "0000" +:+ short +:+ SIG_BASE_SUFFIX /\
    normalize_uuid "0000180f-0000-1000-8000-00805f9b34fb" = short.
Proof.
  split; [reflexivity|].
  apply (normalize_uuid_sig_base "0000180f-0000-1000-8000-00805f9b34fb").
  reflexivity.
Defined.

(** C1 as the specification states it fails on the UUID of its own
    scenario: spelled in upper case, it has the SIG-base shape up to
    case, yet it is returned unchanged instead of as 180F. *)
Lemma normalize_uuid_upper_case_unchanged :
  is_sig_base_128_nocase "0000180F-0000-1000-8000-00805F9B34FB" = true /\
  embedded_16bit_upper "0000180F-0000-1000-8000-00805F9B34FB" = "180F" /\
  normalize_uuid "0000180F-0000-1000-8000-00805F9B34FB"
  = "0000180F-0000-1000-8000-00805F9B34FB" /\
  normalize_uuid "0000180F-0000-1000-8000-00805F9B34FB"
  <> embedded_16bit_upper "0000180F-0000-1000-8000-00805F9B34FB".
Proof. repeat split; [reflexivity..|]. intros H; vm_compute in H; discriminate H. Qed.

(** The lower-case spelling is shortened, and stays in lower case. *)
Example normalize_uuid_keeps_case :
  normalize_uuid "0000180f-0000-1000-8000-00805f9b34fb" = "180f" /\
  embedded_16bit_upper "0000180f-0000-1000-8000-00805f9b34fb" = "180F".
Proof. split; reflexivity. Qed.

Example normalize_uuid_custom :
  normalize_uuid "6e400001-b5a3-f393-e0a9-e50e24dcca9e"
  = "6e400001-b5a3-f393-e0a9-e50e24dcca9e".
Proof. reflexivity. Qed.

(** ** The decoders *)

Section DecoderFacts.

Variable get_manufacturer_name : N -> result string.
Variable list_of_set : list string -> list string.


(** Both decoders fail exactly when the registry lookup does; when it
    succeeds they return a record. *)
Lemma decoders_return now device adv name id :
  extract_manufacturer get_manufacturer_name
    (AdvertisementData.manufacturer_data adv) = Ok (name, id) ->
  exists a b,
    process_device_body get_manufacturer_name now device adv = Ok a
    /\ detection_callback_body get_manufacturer_name list_of_set now device adv
       = Ok b
    /\ DeviceInfo.manufacturer a = name
    /\ DeviceInfo.manufacturer b = name
    /\ DeviceInfo.manufacturer_id a = manufacturer_id_field id
    /\ DeviceInfo.manufacturer_id b = manufacturer_id_field id.
Proof.
  intros Hreg. unfold process_device_body, detection_callback_body.
  rewrite Hreg. simpl. eauto 10.
Qed.

Lemma decoders_raise now device adv e :
  extract_manufacturer get_manufacturer_name
    (AdvertisementData.manufacturer_data adv) = Raise e ->
  process_device_body get_manufacturer_name now device adv = Raise e /\
  detection_callback_body get_manufacturer_name list_of_set now device adv
  = Raise e.
Proof.
  intros Hreg. unfold process_device_body, detection_callback_body.
  by rewrite Hreg.
Qed.

Lemma adv_body_fields now device adv a :
  process_device_body get_manufacturer_name now device adv = Ok a ->
  DeviceInfo.address a = BLEDevice.address device
  /\ DeviceInfo.rssi a = rssi_field (clamp_rssi (getattr_rssi adv))
  /\ DeviceInfo.last_seen a = strftime_HMS now
  /\ DeviceInfo.service_uuids a
     = PyStr.join PyFmt.nl (map normalize_uuid (AdvertisementData.service_uuids adv)).
Proof.
  unfold process_device_body.
  destruct (extract_manufacturer _ _) as [[name id]|e]; simpl; [|done].
  by intros [= <-].
Qed.

Lemma basic_body_fields now device adv b :
  detection_callback_body get_manufacturer_name list_of_set now device adv = Ok b ->
  DeviceInfo.address b = BLEDevice.address device
  /\ DeviceInfo.rssi b = rssi_field (clamp_rssi (getattr_rssi adv))
  /\ DeviceInfo.last_seen b = strftime_HMS now
  /\ DeviceInfo.service_uuids b
     = PyStr.join PyFmt.nl
         (map normalize_uuid (basic_all_service_uuids list_of_set adv)).
Proof.
  unfold detection_callback_body.
  destruct (extract_manufacturer _ _) as [[name id]|e]; simpl; [|done].
  by intros [= <-].
Qed.

(** C3: whenever an event is decoded, in either scanner, a numeric
    reading below -99 is stored as -99 and one from -99 upwards is
    stored as it is, so that every stored reading lies above the
    sentinel; a missing reading is stored as -999. An event is decoded
    whenever the manufacturer lookup returns. *)
Theorem rssi_clamped now device adv name id :
  extract_manufacturer get_manufacturer_name
    (AdvertisementData.manufacturer_data adv) = Ok (name, id) ->
  exists a b,
    process_device_body get_manufacturer_name now device adv = Ok a /\
    detection_callback_body get_manufacturer_name list_of_set now device adv = Ok b /\
    DeviceInfo.rssi a = DeviceInfo.rssi b /\
    match AdvertisementData.rssi adv with
    | Some reading =>
        (reading < -99 -> DeviceInfo.rssi a = -99)%Z /\
        (-99 <= reading -> DeviceInfo.rssi a = reading)%Z /\
        (-999 < -99 <= DeviceInfo.rssi a)%Z
    | None => DeviceInfo.rssi a = (-999)%Z
    end.
Proof.
  intros Hreg.
  destruct (decoders_return now device adv name id Hreg) as (a & b & Ha & Hb & _).
  exists a, b. split; [done|]. split; [done|].
  apply adv_body_fields in Ha as (_ & -> & _).
  apply basic_body_fields in Hb as (_ & -> & _).
  split; [done|]. unfold getattr_rssi.
  destruct (AdvertisementData.rssi adv) as [reading|]; simpl; [lia|done].
Qed.

(** C8, as the code has it: the record keeps the capture time only as
    the text HH:MM:SS, so two decodes of an event whose clock readings
    agree on hour, minute and second return the same record. *)
Theorem last_seen_second_precision now device adv name id :
  extract_manufacturer get_manufacturer_name
    (AdvertisementData.manufacturer_data adv) = Ok (name, id) ->
  exists a b,
    process_device_body get_manufacturer_name now device adv = Ok a /\
    detection_callback_body get_manufacturer_name list_of_set now device adv = Ok b /\
    DeviceInfo.last_seen a = DeviceInfo.last_seen b /\
    DeviceInfo.last_seen a
    = PyFmt.two_digits (hour now) +:+ ":" +:+ PyFmt.two_digits (minute now)
      +:+ ":" +:+ PyFmt.two_digits (second now) /\
    String.length (DeviceInfo.last_seen a) = 8 /\
    forall now',
      hour now' = hour now -> minute now' = minute now ->
      second now' = second now ->
      process_device_body get_manufacturer_name now' device adv = Ok a /\
      detection_callback_body get_manufacturer_name list_of_set now' device adv
      = Ok b.
Proof.
  intros Hreg.
  destruct (decoders_return now device adv name id Hreg) as (a & b & Ha & Hb & _).
  exists a, b. split; [done|]. split; [done|].
  pose proof (adv_body_fields _ _ _ _ Ha) as (_ & _ & Hla & _).
  pose proof (basic_body_fields _ _ _ _ Hb) as (_ & _ & Hlb & _).
  rewrite Hla, Hlb. do 3 (split; [done|]).
  intros now' Hh Hm Hs. split.
  - rewrite <- Ha. unfold process_device_body, strftime_HMS. by rewrite Hh, Hm, Hs.
  - rewrite <- Hb. unfold detection_callback_body, strftime_HMS. by rewrite Hh, Hm, Hs.
Qed.

End DecoderFacts.

(** ** Hexadecimal formatting *)

Section HexFacts.

Local Open Scope N_scope.

Lemma hex_value_digit (d : N) :
  d < 16 -> PyFmt.hex_value_char (PyFmt.hex_digit d) = Some d.
Proof.
  intros Hd.
  destruct d as [|p]; [done|].
  do 4 (destruct p as [p|p|]; try done); lia.
Qed.

Lemma hex_value_from_app (d rest : string) (v w : N) :
  PyFmt.hex_value_from v d = Some w ->
  PyFmt.hex_value_from v (d +:+ rest) = PyFmt.hex_value_from w rest.
Proof.
  revert v; induction d as [|c d IH]; intros v; simpl.
  - by intros [= ->].
  - destruct (PyFmt.hex_value_char c); [apply IH | done].
Qed.

(** With enough fuel the digits written are a numeral of [n], of no
    more than [k] digits when [n < 16^k]. *)
Lemma hex_digits_spec (fuel : nat) :
  forall (n : N) (acc : string) (k : nat),
    (1 <= fuel)%nat -> n < 16 ^ N.of_nat fuel ->
    (1 <= k)%nat -> n < 16 ^ N.of_nat k ->
    exists d,
      PyFmt.hex_digits fuel n acc = d +:+ acc /\
      (1 <= String.length d <= k)%nat /\
      forall v, PyFmt.hex_value_from v d
                = Some (v * 16 ^ N.of_nat (String.length d) + n).
Proof.
  induction fuel as [|fuel IH]; intros n acc k Hfuel1 Hfuel Hk1 Hk; [lia|].
  simpl. pose proof (N.mod_lt n 16 ltac:(lia)) as Hmod.
  pose proof (N.div_mod n 16 ltac:(lia)) as Hdm.
  destruct (N.eqb_spec (n / 16) 0) as [Hz|Hnz].
  - exists (String (PyFmt.hex_digit (n mod 16)) ""). split; [done|].
    split; [simpl; lia|]. intros v. simpl.
    rewrite hex_value_digit by done. f_equal. lia.
  - assert (16 <= n) as Hn16.
    { destruct (N.lt_ge_cases n 16) as [Hlt|]; [|done].
      by rewrite N.div_small in Hnz. }
    destruct k as [|[|k]]; [lia | change (16 ^ N.of_nat 1) with 16 in Hk; lia |].
    destruct fuel as [|fuel'];
      [change (16 ^ N.of_nat 1) with 16 in Hfuel; lia|].
    destruct (IH (n / 16) (String (PyFmt.hex_digit (n mod 16)) acc) (S k))
      as (d & Hd & Hlen & Hval).
    + lia.
    + apply N.Div0.div_lt_upper_bound.
      by rewrite <- N.pow_succ_r', <- Nat2N.inj_succ.
    + lia.
    + apply N.Div0.div_lt_upper_bound.
      by rewrite <- N.pow_succ_r', <- Nat2N.inj_succ.
    + exists (d +:+ String (PyFmt.hex_digit (n mod 16)) "").
      split; [by rewrite Hd, string_app_assoc|].
      rewrite string_length_app. simpl String.length.
      split; [lia|]. intros v.
      rewrite (hex_value_from_app _ _ _ _ (Hval v)). simpl.
      rewrite hex_value_digit by done. f_equal.
      replace (N.of_nat (String.length d + 1))
        with (N.succ (N.of_nat (String.length d))) by lia.
      rewrite N.pow_succ_r'. lia.
Qed.

Lemma pos_size_nat_bound (p : positive) : N.pos p < 2 ^ N.of_nat (Pos.size_nat p).
Proof.
  induction p as [p IH|p IH|]; simpl Pos.size_nat;
    rewrite ?Nat2N.inj_succ, ?N.pow_succ_r'; lia.
Qed.

Lemma size_nat_bound (n : N) : n < 16 ^ N.of_nat (S (N.size_nat n)).
Proof.
  destruct n as [|p]; [done|]. simpl N.size_nat.
  apply N.lt_le_trans with (2 ^ N.of_nat (Pos.size_nat p));
    [apply pos_size_nat_bound|].
  etrans; [apply N.pow_le_mono_l with (b := 16); lia|].
  apply N.pow_le_mono_r; lia.
Qed.

(** [format(n, "X")] writes a hexadecimal numeral of [n]. *)
Lemma format_X_spec (n : N) (k : nat) :
  (1 <= k)%nat -> n < 16 ^ N.of_nat k ->
  (1 <= String.length (PyFmt.format_X n) <= k)%nat /\
  PyFmt.hex_value (PyFmt.format_X n) = Some n.
Proof.
  intros Hk1 Hk. unfold PyFmt.format_X, PyFmt.hex_value.
  destruct (hex_digits_spec (S (N.size_nat n)) n "" k) as (d & -> & Hlen & Hval);
    [lia | apply size_nat_bound | done | done |].
  rewrite string_app_nil_r. split; [done|]. rewrite Hval. f_equal; lia.
Qed.

Lemma zeros_length (k : nat) : String.length (PyFmt.zeros k) = k.
Proof. induction k as [|k IH]; simpl; [done | by rewrite IH]. Qed.

Lemma hex_value_zeros (k : nat) (s : string) :
  PyFmt.hex_value (PyFmt.zeros k +:+ s) = PyFmt.hex_value s.
Proof. induction k as [|k IH]; simpl; [done | apply IH]. Qed.

(** [f"{n:0wX}"] for a number of at most [w] digits: exactly [w] digits
    that denote [n]. *)
Lemma zero_pad_format_X (w : nat) (n : N) :
  (1 <= w)%nat -> n < 16 ^ N.of_nat w ->
  String.length (PyFmt.zero_pad w (PyFmt.format_X n)) = w /\
  PyFmt.hex_value (PyFmt.zero_pad w (PyFmt.format_X n)) = Some n.
Proof.
  intros Hw Hn. destruct (format_X_spec n w Hw Hn) as [Hlen Hval].
  unfold PyFmt.zero_pad. rewrite string_length_app, zeros_length, hex_value_zeros.
  split; [lia | done].
Qed.

Lemma format_04X_spec (n : N) :
  n < 65536 ->
  String.length (PyFmt.format_04X n) = 4%nat /\
  PyFmt.hex_value (PyFmt.format_04X n) = Some n.
Proof.
  intros Hn. apply (zero_pad_format_X 4); [lia|].
  by change (16 ^ N.of_nat 4) with 65536.
Qed.

Lemma format_02X_byte (b : byte) :
  String.length (PyFmt.format_02X (Byte.to_N b)) = 2%nat /\
  PyFmt.hex_value (PyFmt.format_02X (Byte.to_N b)) = Some (Byte.to_N b).
Proof.
  apply (zero_pad_format_X 2); [lia|].
  pose proof (Byte.to_N_bounded b). change (16 ^ N.of_nat 2) with 256. lia.
Qed.

End HexFacts.

(** ** Hex dump *)

Section HexDumpFacts.

(** Quotient and remainder by 8, for [lia]. *)
Ltac div8 x :=
  pose proof (Nat.div_mod_eq x 8);
  pose proof (Nat.mod_upper_bound x 8 ltac:(lia)).

Lemma range_step_8 (fuel : nat) :
  forall start stop,
    (stop - start + 7) / 8 <= fuel ->
    range_step fuel start stop 8
    = (fun k => start + 8 * k) <$> seq 0 ((stop - start + 7) / 8).
Proof.
  induction fuel as [|fuel IH]; intros start stop Hfuel;
    div8 (stop - start + 7); div8 (stop - (start + 8) + 7).
  - by replace ((stop - start + 7) / 8) with 0 by lia.
  - cbn [range_step]. destruct (Nat.ltb_spec start stop) as [Hlt|Hge].
    + rewrite IH by lia.
      replace ((stop - start + 7) / 8) with (S ((stop - (start + 8) + 7) / 8)) by lia.
      cbn [seq]. rewrite fmap_cons. f_equal; [lia|].
      rewrite <- fmap_S_seq, <- list_fmap_compose.
      apply list_fmap_ext. intros _ k _. unfold compose. lia.
    + by replace ((stop - start + 7) / 8) with 0 by lia.
Qed.

Lemma render_chunk_spec (chunk : list byte) :
  render_chunk chunk
  = ((fun b => PyFmt.format_02X (Byte.to_N b)) <$> chunk, ascii_repr <$> chunk).
Proof.
  unfold render_chunk.
  enough (forall h a,
    fold_left
      (fun '(hex_bytes, ascii_chars) b =>
         (hex_bytes ++ [PyFmt.format_02X (Byte.to_N b)], ascii_chars ++ [ascii_repr b]))
      chunk (h, a)
    = (h ++ ((fun b => PyFmt.format_02X (Byte.to_N b)) <$> chunk),
       a ++ (ascii_repr <$> chunk))) as H by apply (H [] []).
  induction chunk as [|b chunk IH]; intros h a; simpl.
  - by rewrite !app_nil_r.
  - by rewrite IH, <- !app_assoc.
Qed.

Lemma pad_row_spec (fuel : nat) :
  forall hex_bytes ascii_chars,
    8 - length hex_bytes <= fuel ->
    pad_row fuel hex_bytes ascii_chars
    = (hex_bytes ++ replicate (8 - length hex_bytes) "  ",
       ascii_chars ++ replicate (8 - length hex_bytes) " ").
Proof.
  induction fuel as [|fuel IH]; intros h a Hfuel; simpl.
  - replace (8 - length h) with 0 by lia. by rewrite !app_nil_r.
  - destruct (Nat.ltb_spec (length h) 8) as [Hlt|Hge].
    + rewrite IH by (rewrite length_app; simpl; lia).
      rewrite length_app. simpl length.
      replace (8 - length h) with (S (8 - (length h + 1))) by lia.
      simpl. by rewrite <- !app_assoc.
    + replace (8 - length h) with 0 by lia. by rewrite !app_nil_r.
Qed.

(** One line of the dump in closed form. *)
Lemma hex_dump_line_spec (i : nat) (chunk : list byte) :
  hex_dump_line i chunk
  = PyFmt.format_04X (N.of_nat i) +:+ ": "
    +:+ PyStr.join " " (((fun b => PyFmt.format_02X (Byte.to_N b)) <$> chunk)
                        ++ replicate (8 - length chunk) "  ")
    +:+ "  |"
    +:+ PyStr.join "" ((ascii_repr <$> chunk) ++ replicate (8 - length chunk) " ")
    +:+ "|".
Proof.
  unfold hex_dump_line. rewrite render_chunk_spec, pad_row_spec by lia.
  by rewrite length_fmap.
Qed.

(** The lines of the dump, one per offset 0, 8, 16, ... below the length. *)
Lemma hex_dump_lookup (data : list byte) (k : nat) :
  k < (length data + 7) / 8 ->
  hex_dump data !! k = Some (hex_dump_line (8 * k) (take 8 (drop (8 * k) data))).
Proof.
  intros Hk. unfold hex_dump.
  rewrite range_step_8 by (div8 (length data - 0 + 7); lia).
  rewrite Nat.sub_0_r.
  rewrite !list_lookup_fmap, lookup_seq_lt by done. done.
Qed.

Lemma hex_dump_length (data : list byte) :
  length (hex_dump data) = (length data + 7) / 8.
Proof.
  unfold hex_dump.
  rewrite range_step_8 by (div8 (length data - 0 + 7); lia).
  by rewrite !length_fmap, length_seq, Nat.sub_0_r.
Qed.

Lemma chunk_length (data : list byte) (k : nat) :
  k < (length data + 7) / 8 ->
  length (take 8 (drop (8 * k) data))
  = if decide (8 * k + 8 <= length data) then 8 else length data mod 8.
Proof.
  intros Hk. rewrite length_take, length_drop.
  div8 (length data + 7). div8 (length data).
  case_decide; lia.
Qed.

(** C5: the dump of [L] bytes has ceil(L/8) rows. Row [k] starts with
    the offset [8k] as four upper-case hexadecimal digits, then a colon
    and a space, the bytes of the chunk as two hexadecimal digits each
    followed by two-space placeholders up to eight entries, all
    separated by single spaces, then the ASCII column between bars, in
    which a byte from 32 to 126 is its character and any other byte is
    a dot, padded with spaces. Every row but a short last one holds
    eight bytes; a short last row holds [L mod 8] bytes and so
    [8 - L mod 8] placeholders. The payload has at most 65536 bytes,
    so that every offset is below 0x10000; the payloads of an
    advertisement, which are all the dump is given, are far shorter. *)
Theorem hex_dump_rows (data : list byte) :
  (N.of_nat (length data) <= 65536)%N ->
  length (hex_dump data) = (length data + 7) / 8 /\
  (forall k, k < (length data + 7) / 8 ->
     let chunk := take 8 (drop (8 * k) data) in
     let offset := PyFmt.format_04X (N.of_nat (8 * k)) in
     hex_dump data !! k
     = Some (offset +:+ ": "
             +:+ PyStr.join " "
                   (((fun b => PyFmt.format_02X (Byte.to_N b)) <$> chunk)
                    ++ replicate (8 - length chunk) "  ")
             +:+ "  |"
             +:+ PyStr.join "" ((ascii_repr <$> chunk)
                                ++ replicate (8 - length chunk) " ")
             +:+ "|") /\
     length chunk
     = (if decide (8 * k + 8 <= length data) then 8 else length data mod 8) /\
     String.length offset = 4 /\
     PyFmt.hex_value offset = Some (N.of_nat (8 * k))) /\
  (forall b : byte,
     String.length (PyFmt.format_02X (Byte.to_N b)) = 2 /\
     PyFmt.hex_value (PyFmt.format_02X (Byte.to_N b)) = Some (Byte.to_N b) /\
     ascii_repr b
     = if bool_decide (32 <= Byte.to_N b <= 126)%N
       then String (ascii_of_byte b) "" else ".").
Proof.
  intros Hshort.
  split; [apply hex_dump_length|]. split.
  - intros k Hk chunk offset.
    split; [by rewrite hex_dump_lookup, hex_dump_line_spec|].
    split; [by apply chunk_length|].
    apply format_04X_spec. div8 (length data + 7). lia.
  - intros b. pose proof (format_02X_byte b) as [Hlen Hval].
    split; [done|]. split; [done|].
    unfold ascii_repr.
    destruct (N.leb_spec 32 (Byte.to_N b)), (N.leb_spec (Byte.to_N b) 126);
      simpl; case_bool_decide; try done; lia.
Qed.

Lemma hex_dump_rows_witness :
  (N.of_nat (length [x48; x65; x6c; x6c; x6f; x00; xff; x7e; x7f; x20])
   <= 65536)%N /\
  hex_dump [x48; x65; x6c; x6c; x6f; x00; xff; x7e; x7f; x20] !! 1
  = Some "0008: 7F 20                    |.       |".
Proof.
  assert (N.of_nat (length [x48; x65; x6c; x6c; x6f; x00; xff; x7e; x7f; x20])
          <= 65536)%N as Hshort by (simpl; lia).
  split; [exact Hshort|].
  pose proof (hex_dump_rows [x48; x65; x6c; x6c; x6f; x00; xff; x7e; x7f; x20]
                Hshort) as (_ & Hrow & _).
  destruct (Hrow 1) as (Hline & _); [simpl; lia|].
  exact Hline.
Defined.

End HexDumpFacts.

(** ** Service UUIDs, manufacturer fields *)

Lemma first_occurrences_elem (xs : list string) (x : string) :
  x ∈ first_occurrences xs <-> x ∈ xs.
Proof.
  induction xs as [|y xs IH]; simpl; [done|].
  rewrite !elem_of_cons, list_elem_of_filter, IH.
  destruct (decide (x = y)); tauto.
Qed.

Section ServiceFacts.

Variable get_manufacturer_name : N -> result string.
Variable list_of_set : list string -> list string.

(** What is assumed of [list(set(xs))]: it lists the elements of [xs]. *)
Hypothesis list_of_set_elem : forall xs x, x ∈ list_of_set xs <-> x ∈ xs.

(** C2, as the code has it: the callback-driven scanner shows the
    normalised union of the advertised service UUIDs and the
    service-data keys; the iterator-driven scanner shows the normalised
    advertised service UUIDs only, in the order advertised. *)
Theorem service_uuids_union_basic_only now device adv name id :
  extract_manufacturer get_manufacturer_name
    (AdvertisementData.manufacturer_data adv) = Ok (name, id) ->
  exists a b,
    process_device_body get_manufacturer_name now device adv = Ok a /\
    detection_callback_body get_manufacturer_name list_of_set now device adv = Ok b /\
    (exists shown,
       DeviceInfo.service_uuids b = PyStr.join PyFmt.nl shown /\
       forall u, u ∈ shown <->
                 exists raw,
                   (raw ∈ AdvertisementData.service_uuids adv
                    \/ raw ∈ dict_keys (AdvertisementData.service_data adv))
                   /\ u = normalize_uuid raw) /\
    DeviceInfo.service_uuids a
    = PyStr.join PyFmt.nl (map normalize_uuid (AdvertisementData.service_uuids adv)).
Proof.
  intros Hreg.
  destruct (decoders_return get_manufacturer_name list_of_set now device adv name id Hreg)
    as (a & b & Ha & Hb & _).
  exists a, b. split; [done|]. split; [done|].
  apply adv_body_fields in Ha as (_ & _ & _ & ->).
  apply basic_body_fields in Hb as (_ & _ & _ & ->).
  split; [|done].
  eexists. split; [done|]. intros u.
  unfold basic_all_service_uuids.
  rewrite list_elem_of_fmap. setoid_rewrite list_of_set_elem.
  setoid_rewrite elem_of_app.
  split; intros (raw & ? & ?); by exists raw.
Qed.

End ServiceFacts.

Lemma service_uuids_union_basic_only_witness :
  extract_manufacturer sample_registry
    (AdvertisementData.manufacturer_data service_data_only_adv) = Ok ("", None) /\
  exists a b,
    process_device_body sample_registry sample_now sample_device
      service_data_only_adv = Ok a /\
    detection_callback_body sample_registry first_occurrences sample_now
      sample_device service_data_only_adv = Ok b /\
    (exists shown,
       DeviceInfo.service_uuids b = PyStr.join PyFmt.nl shown /\
       forall u, u ∈ shown <->
                 exists raw,
                   (raw ∈ AdvertisementData.service_uuids service_data_only_adv
                    \/ raw ∈ dict_keys (AdvertisementData.service_data
                                          service_data_only_adv))
                   /\ u = normalize_uuid raw) /\
    DeviceInfo.service_uuids a
    = PyStr.join PyFmt.nl
        (map normalize_uuid (AdvertisementData.service_uuids service_data_only_adv)).
Proof.
  split; [reflexivity|].
  apply (service_uuids_union_basic_only sample_registry first_occurrences
           first_occurrences_elem sample_now sample_device service_data_only_adv
           "" None).
  reflexivity.
Defined.

(** C2 as the specification states it fails in the iterator-driven
    scanner: a UUID advertised only as a service-data key belongs to the
    normalised union but is missing from the record's service UUIDs,
    which are empty. *)
Lemma service_data_key_not_listed :
  "180f" ∈ normalized_union service_data_only_adv /\
  exists a,
    process_device_body sample_registry sample_now sample_device
      service_data_only_adv = Ok a /\
    DeviceInfo.service_uuids a = "" /\
    DeviceInfo.service_uuids a
    <> PyStr.join PyFmt.nl (normalized_union service_data_only_adv) /\
    PyStr.contains (DeviceInfo.service_uuids a) "180f" = false.
Proof.
  split; [by apply list_elem_of_here|].
  eexists. split; [reflexivity|]. simpl. by repeat split.
Qed.

(** The callback-driven scanner lists it. *)
Example service_data_key_listed_by_basic :
  exists b,
    detection_callback_body sample_registry first_occurrences sample_now
      sample_device service_data_only_adv = Ok b /\
    DeviceInfo.service_uuids b = "180f".
Proof. eexists. split; reflexivity. Qed.

Section ManufacturerFacts.

Variable get_manufacturer_name : N -> result string.
Variable list_of_set : list string -> list string.

(** The manufacturer fields of a record, for the first entry of the
    manufacturer data: the name falls back to the hexadecimal identifier
    when the registry name starts with Unknown, and the identifier field
    is empty for identifier 0. *)
Lemma manufacturer_fields now device adv company payload rest name :
  AdvertisementData.manufacturer_data adv = (company, payload) :: rest ->
  get_manufacturer_name company = Ok name ->
  exists a b,
    process_device_body get_manufacturer_name now device adv = Ok a /\
    detection_callback_body get_manufacturer_name list_of_set now device adv = Ok b /\
    DeviceInfo.manufacturer a = DeviceInfo.manufacturer b /\
    DeviceInfo.manufacturer_id a = DeviceInfo.manufacturer_id b /\
    DeviceInfo.manufacturer a
    = (if PyStr.startswith name "Unknown"
       then "0x" +:+ PyFmt.format_04X company else name) /\
    DeviceInfo.manufacturer_id a
    = (if decide (company = 0%N) then ""
       else "0x" +:+ PyFmt.format_04X company) /\
    ((company < 65536)%N ->
     String.length (PyFmt.format_04X company) = 4 /\
     PyFmt.hex_value (PyFmt.format_04X company) = Some company).
Proof.
  intros Hdata Hname.
  destruct (decoders_return get_manufacturer_name list_of_set now device adv
              (if PyStr.startswith name "Unknown"
               then "0x" +:+ PyFmt.format_04X company else name)
              (Some company))
    as (a & b & Ha & Hb & Hma & Hmb & Hia & Hib).
  { rewrite Hdata. simpl. by rewrite Hname. }
  exists a, b. rewrite Hma, Hmb, Hia, Hib.
  do 5 (split; [done|]). split; [|apply format_04X_spec].
  by destruct company.
Qed.

End ManufacturerFacts.

(** C4 at company identifier 0x0000: the record names the manufacturer
    found under the first key, yet its identifier field is empty, as it
    is for an event without manufacturer data. *)
Theorem manufacturer_id_zero_dropped :
  dict_keys (AdvertisementData.manufacturer_data company_zero_adv) = [0%N] /\
  exists a b,
    process_device_body sample_registry sample_now sample_device
      company_zero_adv = Ok a /\
    detection_callback_body sample_registry first_occurrences sample_now
      sample_device company_zero_adv = Ok b /\
    DeviceInfo.manufacturer a = "Ericsson AB" /\
    DeviceInfo.manufacturer_id a = "" /\
    DeviceInfo.manufacturer b = "Ericsson AB" /\
    DeviceInfo.manufacturer_id b = "".
Proof. split; [done|]. do 2 eexists. by repeat split. Qed.

Example manufacturer_id_apple :
  exists a,
    process_device_body sample_registry sample_now sample_device scenario_adv = Ok a /\
    DeviceInfo.manufacturer a = "Apple, Inc." /\
    DeviceInfo.manufacturer_id a = "0x004C" /\
    DeviceInfo.service_uuids a
    = "180f" +:+ PyFmt.nl +:+ "0000180F-0000-1000-8000-00805F9B34FB" /\
    DeviceInfo.rssi a = (-99)%Z.
Proof. eexists. by repeat split. Qed.

Example manufacturer_name_fallback :
  exists a,
    process_device_body sample_registry sample_now sample_device
      unknown_company_adv = Ok a /\
    DeviceInfo.manufacturer a = "0x9999" /\
    DeviceInfo.manufacturer_id a = "0x9999" /\
    DeviceInfo.rssi a = (-999)%Z.
Proof. eexists. by repeat split. Qed.

(** ** Witnesses and counterexamples for the decoders *)

Lemma rssi_clamped_witness :
  extract_manufacturer sample_registry
    (AdvertisementData.manufacturer_data scenario_adv)
  = Ok ("Apple, Inc.", Some 0x004C%N) /\
  exists a b,
    process_device_body sample_registry sample_now sample_device scenario_adv = Ok a /\
    detection_callback_body sample_registry first_occurrences sample_now
      sample_device scenario_adv = Ok b /\
    DeviceInfo.rssi a = DeviceInfo.rssi b /\
    ((-120 < -99 -> DeviceInfo.rssi a = -99)%Z /\
     (-99 <= -120 -> DeviceInfo.rssi a = -120)%Z /\
     (-999 < -99 <= DeviceInfo.rssi a)%Z).
Proof.
  split; [reflexivity|].
  apply (rssi_clamped sample_registry first_occurrences sample_now sample_device
           scenario_adv "Apple, Inc." (Some 0x004C%N)).
  reflexivity.
Defined.

Lemma last_seen_second_precision_witness :
  extract_manufacturer sample_registry
    (AdvertisementData.manufacturer_data scenario_adv)
  = Ok ("Apple, Inc.", Some 0x004C%N) /\
  exists a b,
    process_device_body sample_registry sample_now sample_device scenario_adv = Ok a /\
    detection_callback_body sample_registry first_occurrences sample_now
      sample_device scenario_adv = Ok b /\
    DeviceInfo.last_seen a = DeviceInfo.last_seen b /\
    DeviceInfo.last_seen a = "09:05:07" /\
    String.length (DeviceInfo.last_seen a) = 8 /\
    forall now',
      hour now' = hour sample_now -> minute now' = minute sample_now ->
      second now' = second sample_now ->
      process_device_body sample_registry now' sample_device scenario_adv = Ok a /\
      detection_callback_body sample_registry first_occurrences now'
        sample_device scenario_adv = Ok b.
Proof.
  split; [reflexivity|].
  apply (last_seen_second_precision sample_registry first_occurrences sample_now
           sample_device scenario_adv "Apple, Inc." (Some 0x004C%N)).
  reflexivity.
Defined.

(** C8 as the specification states it fails: two capture times half a
    second apart are decoded to the same record, so the record does not
    retain the capture time beyond the second. *)
Lemma last_seen_drops_subsecond :
  sample_now <> sample_later /\
  process_device_body sample_registry sample_now sample_device scenario_adv
  = process_device_body sample_registry sample_later sample_device scenario_adv /\
  detection_callback_body sample_registry first_occurrences sample_now
    sample_device scenario_adv
  = detection_callback_body sample_registry first_occurrences sample_later
      sample_device scenario_adv.
Proof. by repeat split. Qed.

(** ** Decode failures *)

Section FailureFacts.

Variable get_manufacturer_name : N -> result string.
Variable format_exc : exn -> string.
Variable get_system_info : string.
Variable list_of_set : list string -> list string.

Abbreviation scan := (scan_loop get_manufacturer_name format_exc get_system_info).
Abbreviation process :=
  (process_device get_manufacturer_name format_exc get_system_info).
Abbreviation callback :=
  (detection_callback get_manufacturer_name format_exc get_system_info list_of_set).

(** Advertisements delivered while scanning are processed one after the
    other, whatever each of them produces. *)
Lemma scan_loop_app (pre rest : list scan_item) :
  forallb live_advert pre = true ->
  scan (pre ++ rest) = ((scan pre).1 ++ (scan rest).1, (scan rest).2).
Proof.
  induction pre as [|it pre IH]; simpl.
  - intros _. by destruct (scan rest).
  - destruct it as [[] now device adv|e]; simpl; try done.
    intros Hlive. rewrite (IH Hlive).
    destruct (scan pre), (scan rest); simpl. by rewrite app_assoc.
Qed.

Lemma scan_loop_live (items : list scan_item) :
  forallb live_advert items = true ->
  scan items
  = (flat_map (fun it => match it with
                         | Advert _ now device adv => process now device adv
                         | ScannerFault _ => []
                         end) items, None).
Proof.
  induction items as [|it items IH]; simpl; [done|].
  destruct it as [[] now device adv|e]; simpl; try done.
  intros Hlive. by rewrite (IH Hlive).
Qed.

(** C7, as the code has it: when decoding an event raises, the
    iterator-driven worker prints the detailed report (error kind and
    message, the failing method and address, stack trace, platform
    probe) on the terminal and emits an error signal that carries the
    address and the error message; no record is emitted for that event,
    and the events after it are processed as if it had not been there.
    The callback of the other scanner reports in the same way. *)
Theorem decode_failure_skips_event pre now device adv post e :
  forallb live_advert pre = true ->
  process_device_body get_manufacturer_name now device adv = Raise e ->
  let report method :=
    [ print ("BLE DEVICE PROCESSING ERROR (Terminal):" +:+ PyFmt.nl
             +:+ PyStr.join PyFmt.nl
                   [ "=== DETAILED ERROR INFORMATION ===";
                     "Error Type: " +:+ exn_kind e;
                     "Error Message: " +:+ exn_text e;
                     "Context: " +:+ "BLE Scanner Worker - " +:+ method
                       +:+ " for device " +:+ BLEDevice.address device;
                     "";
                     "=== STACK TRACE ===";
                     format_exc e;
                     "";
                     get_system_info ]);
      error_occurred ("Error processing device " +:+ BLEDevice.address device
                      +:+ ": " +:+ exn_text e +:+ PyFmt.nl +:+ PyFmt.nl
                      +:+ "See terminal for detailed error information.") ] in
  process now device adv = report "process_device" /\
  callback now device adv = report "detection_callback" /\
  scan (pre ++ Advert true now device adv :: post)
  = ((scan pre).1 ++ report "process_device" ++ (scan post).1, (scan post).2) /\
  (forallb live_advert post = true ->
   (scan (pre ++ Advert true now device adv :: post)).2 = None /\
   (scan post).1
   = flat_map (fun it => match it with
                         | Advert _ now' device' adv' => process now' device' adv'
                         | ScannerFault _ => []
                         end) post).
Proof.
  intros Hpre Hraise report.
  assert (process now device adv = report "process_device") as Hproc.
  { unfold process_device. by rewrite Hraise. }
  split; [done|]. split.
  { unfold detection_callback.
    assert (detection_callback_body get_manufacturer_name list_of_set now device adv
            = Raise e) as ->; [|done].
    revert Hraise. unfold process_device_body, detection_callback_body.
    by destruct (extract_manufacturer _ _) as [[? ?]|?]. }
  split.
  { rewrite scan_loop_app by done. simpl. rewrite Hproc.
    by destruct (scan post). }
  intros Hpost. rewrite scan_loop_app by done. simpl.
  by rewrite (scan_loop_live post Hpost).
Qed.

End FailureFacts.

Lemma decode_failure_skips_event_witness :
  forallb live_advert
    [Advert true sample_now sample_device service_data_only_adv] = true /\
  process_device_body broken_registry sample_now sample_device scenario_adv
  = Raise {| exn_kind := "KeyError"; exn_text := "company table not loaded" |} /\
  exists a b msg txt,
    scan_loop broken_registry sample_format_exc sample_system_info
      [ Advert true sample_now sample_device service_data_only_adv;
        Advert true sample_now sample_device scenario_adv;
        Advert true sample_later sample_device service_data_only_adv ]
    = ([device_found a; print txt; error_occurred msg; device_found b], None).
Proof.
  split; [reflexivity|]. split; [reflexivity|].
  destruct (decode_failure_skips_event broken_registry sample_format_exc
              sample_system_info first_occurrences
              [Advert true sample_now sample_device service_data_only_adv]
              sample_now sample_device scenario_adv
              [Advert true sample_later sample_device service_data_only_adv]
              {| exn_kind := "KeyError"; exn_text := "company table not loaded" |}
              eq_refl eq_refl) as (_ & _ & Hscan & _).
  do 4 eexists. exact Hscan.
Defined.

(** C7 as the specification states it fails: the error signal carries
    the address and the message of the error, but neither its kind nor
    the platform probe output; those go to the terminal only. *)
Lemma error_signal_lacks_diagnostics :
  exists txt msg,
    process_device broken_registry sample_format_exc sample_system_info
      sample_now sample_device scenario_adv
    = [print txt; error_occurred msg] /\
    PyStr.contains msg "AA:BB:CC:DD:EE:FF" = true /\
    PyStr.contains msg "company table not loaded" = true /\
    PyStr.contains msg "KeyError" = false /\
    PyStr.contains msg sample_system_info = false /\
    PyStr.contains txt "KeyError" = true /\
    PyStr.contains txt sample_system_info = true.
Proof. do 2 eexists. split; [reflexivity|]. by vm_compute. Qed.

(** ** The device store and the results table *)

Section DictFacts.

Context {V : Type}.
Implicit Types (d : dict string V) (k : string) (v : V).

Lemma dict_set_idemp k v d : dict_set k v (dict_set k v d) = dict_set k v d.
Proof.
  induction d as [|[k' v'] d IH]; simpl.
  - by rewrite decide_True.
  - destruct (decide (k = k')) as [->|Hne]; simpl.
    + by rewrite decide_True.
    + by rewrite decide_False, IH.
Qed.

(** Assigning to a key that is absent appends the entry. *)
Lemma dict_set_new k v d : k ∉ dict_keys d -> dict_set k v d = d ++ [(k, v)].
Proof.
  induction d as [|[k' v'] d IH]; simpl; [done|].
  intros [Hne Hnotin]%not_elem_of_cons.
  by rewrite decide_False, IH.
Qed.


Lemma dict_get_set k v d : dict_get k (dict_set k v d) = Some v.
Proof.
  induction d as [|[k' v'] d IH]; simpl.
  - by rewrite decide_True.
  - destruct (decide (k = k')) as [->|Hne]; simpl.
    + by rewrite decide_True.
    + by rewrite decide_False.
Qed.

Lemma dict_keys_set k v d :
  dict_keys (dict_set k v d)
  = if decide (k ∈ dict_keys d) then dict_keys d else dict_keys d ++ [k].
Proof.
  induction d as [|[k' v'] d IH]; [done|].
  simpl. destruct (decide (k = k')) as [->|Hne]; simpl.
  - by rewrite decide_True by (by left).
  - unfold dict_keys in *. rewrite IH.
    destruct (decide (k ∈ fst <$> d)) as [Hin|Hnotin].
    + by rewrite decide_True by (by right).
    + by rewrite decide_False by (by intros [?|?]%elem_of_cons).
Qed.

Lemma dict_get_set_ne (a : string) k v d :
  a <> k -> dict_get a (dict_set k v d) = dict_get a d.
Proof.
  intros Hne. induction d as [|[k' v'] d IH]; simpl.
  - by rewrite decide_False.
  - destruct (decide (k = k')) as [->|Hkk']; simpl.
    + by rewrite !decide_False.
    + by rewrite IH.
Qed.

Lemma dict_get_keys (a : string) d : a ∈ dict_keys d <-> is_Some (dict_get a d).
Proof.
  induction d as [|[k v] d IH].
  - split; [by intros ?%elem_of_nil | by intros [? ?]].
  - unfold dict_keys in *. rewrite fmap_cons, elem_of_cons. cbn [dict_get fst].
    destruct (decide (a = k)) as [->|Hne];
      [split; [intros _; by eexists | by left]|].
    rewrite <- IH. tauto.
Qed.

End DictFacts.

Section TableFacts.

Context `{!TableSorting}.

Implicit Types (t : list table_row) (a : string) (info : DeviceInfo.t).

Lemma row_has_address_iff a (r : table_row) :
  row_has_address a r = true <-> text <$> c0 r = Some a.
Proof.
  unfold row_has_address. destruct (c0 r) as [it|]; simpl; [|done].
  rewrite String.eqb_eq. split; [by intros -> | by intros [= ->]].
Qed.

Lemma row_of_has_address info :
  row_has_address (DeviceInfo.address info) (row_of info) = true.
Proof. apply String.eqb_refl. Qed.

Lemma insertRow_end t : insertRow (length t) t = t ++ [empty_row].
Proof. unfold insertRow. by rewrite take_ge, drop_ge by lia. Qed.

Lemma find_row_lt a t r : find_row a t = Some r -> r < length t.
Proof.
  revert r; induction t as [|x t IH]; intros r; simpl; [done|].
  destruct (row_has_address a x).
  - intros [= <-]. lia.
  - destruct (find_row a t) as [r'|]; simpl; [|done].
    intros [= <-]. specialize (IH r' eq_refl). lia.
Qed.

Lemma find_row_app_new a t (x : table_row) :
  find_row a t = None -> row_has_address a x = true ->
  find_row a (t ++ [x]) = Some (length t).
Proof.
  intros Hnone Hx. induction t as [|y t IH]; simpl in *.
  - by rewrite Hx.
  - destruct (row_has_address a y); [done|].
    destruct (find_row a t); [done|]. by rewrite IH.
Qed.

Lemma find_row_insert a t r (x : table_row) :
  find_row a t = Some r -> row_has_address a x = true ->
  find_row a (<[r := x]> t) = Some r.
Proof.
  revert r; induction t as [|y t IH]; intros r Hfind Hx; simpl in *; [done|].
  destruct (row_has_address a y) eqn:Hy.
  - injection Hfind as <-. simpl. by rewrite Hx.
  - destruct (find_row a t) as [r'|] eqn:Hr'; simpl in *; [|done].
    injection Hfind as <-. simpl. by rewrite Hy, (IH r').
Qed.

(** The search returns a row that shows the address, and returns
    nothing only when no row shows it. *)
Lemma find_row_some a t r :
  find_row a t = Some r -> row_addresses t !! r = Some (Some a).
Proof.
  revert r; induction t as [|x t IH]; intros r; simpl; [done|].
  destruct (row_has_address a x) eqn:Hx.
  - intros [= <-]. simpl. f_equal. by apply row_has_address_iff.
  - destruct (find_row a t) as [r'|]; simpl; [|done].
    intros [= <-]. by apply IH.
Qed.

Lemma find_row_none a t : find_row a t = None -> Some a ∉ row_addresses t.
Proof.
  induction t as [|x t IH]; simpl; [intros _; apply not_elem_of_nil|].
  destruct (row_has_address a x) eqn:Hx; [done|].
  destruct (find_row a t) as [r'|]; simpl; [done|]. intros _.
  apply not_elem_of_cons. split; [|by apply IH].
  intros Heq. symmetry in Heq. apply row_has_address_iff in Heq. congruence.
Qed.



(** *** Rows that move *)

Lemma move_row_perm row sortedRow t : move_row row sortedRow t ≡ₚ t.
Proof.
  unfold move_row. destruct (t !! row) as [r|] eqn:Hr; [|done].
  rewrite <- Permutation_middle, take_drop. symmetry.
  by apply delete_Permutation.
Qed.

Lemma cell_address column it (r : table_row) :
  text <$> c0 (set_cell column it r)
  = if decide (column = 0) then Some (text it) else text <$> c0 r.
Proof.
  destruct r. do 7 (destruct column as [|column]; [done|]). done.
Qed.

Lemma alter_cell_addresses row column it t :
  row_addresses (alter (set_cell column it) row t)
  = if decide (column = 0)
    then <[row := Some (text it)]> (row_addresses t)
    else row_addresses t.
Proof.
  unfold row_addresses. destruct (decide (column = 0)) as [->|Hne].
  - rewrite list_insert_alter. apply list_fmap_alter, Forall_forall.
    intros r _. by rewrite cell_address.
  - etrans; [|apply (list_alter_id id _ row); done].
    apply list_fmap_alter, Forall_forall.
    intros r _. by rewrite cell_address, decide_False.
Qed.

(** Whatever the sort indicator, [setItem] changes the address cells
    only when it writes column 0, and then only the one of its row;
    afterwards the rows may be in another order. *)
Lemma setItem_addresses indicator row column it t :
  row_addresses (setItem indicator row column it t)
  ≡ₚ (if decide (column = 0)
      then <[row := Some (text it)]> (row_addresses t)
      else row_addresses t).
Proof.
  rewrite <- alter_cell_addresses. unfold setItem.
  destruct indicator as [[section order]|]; [|done].
  destruct (decide (section = column)); [|done].
  unfold row_addresses. apply fmap_Permutation, move_row_perm.
Qed.

Lemma write_row_addresses indicator row info t :
  row_addresses (write_row indicator row info t)
  ≡ₚ <[row := Some (DeviceInfo.address info)]> (row_addresses t).
Proof.
  unfold write_row.
  do 6 (etrans; [apply setItem_addresses|]; cbn [decide decide_rel]).
  apply setItem_addresses.
Qed.

(** Without sort indicator no row moves: the seven [setItem] calls fill
    the row completely. *)
Lemma write_row_insert row info t :
  write_row None row info t = <[row := row_of info]> t.
Proof.
  unfold write_row, setItem. rewrite !list_alter_alter_eq, list_insert_alter.
  apply list_alter_ext; [|done]. by intros [].
Qed.

(** *** [add_device] *)

Lemma add_device_devices info (self : app) :
  devices (add_device info self)
  = dict_set (DeviceInfo.address info) info (devices self).
Proof. unfold add_device. by destruct (find_row _ _). Qed.

Lemma add_device_indicator info (self : app) :
  sort_indicator (add_device info self) = sort_indicator self.
Proof. unfold add_device. by destruct (find_row _ _). Qed.

Lemma add_device_status info (self : app) :
  status_label (add_device info self)
  = "Scanning... Found "
    +:+ PyFmt.str_nat (length (devices (add_device info self))) +:+ " devices".
Proof. unfold add_device. by destruct (find_row _ _). Qed.

Lemma add_device_rows info (self : app) :
  table (add_device info self)
  = match find_row (DeviceInfo.address info) (table self) with
    | Some row => write_row (sort_indicator self) row info (table self)
    | None =>
        write_row (sort_indicator self) (length (table self)) info
          (table self ++ [empty_row])
    end.
Proof.
  unfold add_device. destruct (find_row _ _); simpl; [done|].
  by rewrite insertRow_end.
Qed.

(** [add_device] without sort indicator, in closed form. *)
Lemma add_device_table info (self : app) :
  sort_indicator self = None ->
  table (add_device info self)
  = match find_row (DeviceInfo.address info) (table self) with
    | Some row => <[row := row_of info]> (table self)
    | None => table self ++ [row_of info]
    end.
Proof.
  intros Hnone. rewrite add_device_rows, Hnone.
  destruct (find_row _ _) as [row|]; rewrite write_row_insert; [done|].
  by rewrite (insert_app_r_alt _ _ (length (table self))), Nat.sub_diag by lia.
Qed.

Lemma app_ext (x y : app) :
  devices x = devices y -> table x = table y ->
  sort_indicator x = sort_indicator y -> status_label x = status_label y ->
  x = y.
Proof. destruct x, y; simpl; by intros -> -> -> ->. Qed.

(** While no header section carries the sort indicator, adding the same
    record a second time changes nothing, whatever the state of the
    store and of the table. *)
Lemma add_device_idempotent_unsorted (device_info : DeviceInfo.t) (self : app) :
  sort_indicator self = None ->
  add_device device_info (add_device device_info self)
  = add_device device_info self.
Proof.
  intros Hnone.
  assert (sort_indicator (add_device device_info self) = None) as Hnone'
    by (by rewrite add_device_indicator).
  apply app_ext.
  - by rewrite !add_device_devices, dict_set_idemp.
  - rewrite (add_device_table _ _ Hnone'), (add_device_table _ _ Hnone).
    destruct (find_row _ (table self)) as [row|] eqn:Hfind.
    + rewrite (find_row_insert _ _ row) by (done || apply row_of_has_address).
      by rewrite list_insert_insert_eq.
    + rewrite find_row_app_new by (done || apply row_of_has_address).
      by rewrite (insert_app_r_alt _ _ (length (table self))), Nat.sub_diag by lia.
  - by rewrite !add_device_indicator.
  - by rewrite !add_device_status, !add_device_devices, dict_set_idemp.
Qed.






(** With or without sort indicator, [add_device] keeps one address cell
    per stored address. *)
Lemma add_device_shows_store info (self : app) :
  table_shows_store self -> table_shows_store (add_device info self).
Proof.
  intros [Hnd Hrows]. unfold table_shows_store.
  rewrite add_device_devices, dict_keys_set, add_device_rows.
  destruct (find_row _ _) as [row|] eqn:Hfind.
  - apply find_row_some in Hfind.
    assert (DeviceInfo.address info ∈ dict_keys (devices self)) as Hin.
    { apply (list_elem_of_fmap_inj_2 Some).
      rewrite <- Hrows. by apply list_elem_of_lookup_2 with row. }
    rewrite decide_True by done. split; [done|].
    by rewrite write_row_addresses, list_insert_id.
  - apply find_row_none in Hfind.
    assert (DeviceInfo.address info ∉ dict_keys (devices self)) as Hnew.
    { intros Hin. apply Hfind. rewrite Hrows.
      by apply list_elem_of_fmap_2. }
    rewrite decide_False by done. split.
    + apply NoDup_app. split; [done|]. split; [|apply NoDup_singleton].
      intros x Hx ->%list_elem_of_singleton. done.
    + rewrite write_row_addresses. unfold row_addresses in *.
      rewrite !fmap_app. simpl.
      rewrite <- (length_fmap (fun r => text <$> c0 r) (table self)).
      rewrite (insert_app_r_alt _ _ (length _)), Nat.sub_diag by lia.
      simpl. by rewrite Hrows.
Qed.

Lemma run_ops_snoc (ops : list table_op) (op : table_op) :
  run_ops (ops ++ [op]) = apply_op (run_ops ops) op.
Proof. unfold run_ops. by rewrite fold_left_app. Qed.



(** What is assumed of [sortByColumn]: it rearranges the rows and
    neither adds nor drops one. *)
Hypothesis sort_rows_perm :
  forall order column t, sort_rows order column t ≡ₚ t.

Lemma run_ops_shows_store (ops : list table_op) : table_shows_store (run_ops ops).
Proof.
  induction ops as [|op ops IH] using rev_ind;
    [split; [apply NoDup_nil_2 | done]|].
  rewrite run_ops_snoc. destruct op as [info| |column order]; simpl.
  - by apply add_device_shows_store.
  - split; [apply NoDup_nil_2 | done].
  - destruct IH as [Hnd Hrows]. split; [done|]. simpl.
    unfold row_addresses in *. by rewrite sort_rows_perm.
Qed.



End TableFacts.

(** *** Qt's sorting on concrete tables *)

Lemma insert_row_perm (order : SortOrder) (column : nat) (r : table_row)
    (sorted : list table_row) :
  insert_row order column r sorted ≡ₚ r :: sorted.
Proof.
  induction sorted as [|y rest IH]; [done|]. simpl.
  destruct (column_item column y), (column_item column r); try done.
  destruct (item_before _ _ _); [|done].
  by rewrite IH, Permutation_swap.
Qed.

(** The whole-table sort rearranges the rows. *)
Lemma qt_sort_rows_perm (order : SortOrder) (column : nat)
    (t : list table_row) :
  sort_rows order column t ≡ₚ t.
Proof.
  simpl. unfold qt_sort_rows.
  rewrite <- (filter_app_complement (fun r => is_Some (column_item column r)) t)
    at 3.
  apply Permutation_app; [|done].
  induction (filter _ t) as [|r rows IH]; [done|].
  simpl. by rewrite insert_row_perm, IH.
Qed.



(** Two sightings with readings -60 and -70 and no header click: one
    record, the later reading and time, in the row it had. *)
Example two_sightings_one_row :
  let self :=
    run_ops [Upsert other_device; Upsert first_sighting; Upsert second_sighting] in
  dict_values (devices self) = [other_device; second_sighting] /\
  row_addresses (table self)
  = [Some "11:22:33:44:55:66"; Some "AA:BB:CC:DD:EE:FF"] /\
  (text <$> (table self !! 1 ≫= c5)) = Some "-70" /\
  (text <$> (table self !! 1 ≫= c6)) = Some "09:05:09" /\
  status_label self = "Scanning... Found 2 devices".
Proof. by repeat split. Qed.

(** C9 fails on the code once a header section carries the sort
    indicator. The Address header is clicked and AA:BB:CC:DD:EE:FF is
    in the table. The record of 11:22:33:44:55:66 is added: its new row
    is moved to row 0 by the first [setItem], and the remaining six
    [setItem] calls, which still use the old row number, overwrite the
    cells of the other device in row 1. Adding the same record again
    finds the address in row 0 and fills that row: the table after two
    calls is not the table after one. The store is the same. *)
Lemma add_device_twice_differs_when_sorted :
  let self := run_ops [SortByColumn 0 AscendingOrder; Upsert first_sighting] in
  let once := add_device other_device self in
  let twice := add_device other_device once in
  let overwritten :=
    set_cell 0 (QTableWidgetItem "AA:BB:CC:DD:EE:FF") (row_of other_device) in
  table self = [row_of first_sighting] /\
  table once
  = [set_cell 0 (QTableWidgetItem "11:22:33:44:55:66") empty_row; overwritten] /\
  table twice = [row_of other_device; overwritten] /\
  twice <> once /\
  devices twice = devices once.
Proof.
  intros self once twice overwritten.
  split; [reflexivity|]. split; [reflexivity|]. split; [reflexivity|].
  split; [|reflexivity].
  intros Heq. apply (f_equal table) in Heq. discriminate Heq.
Qed.

(** ** Export *)

Section ExportFacts.

Variable json_dumps : list DeviceInfo.t -> string.

Lemma substring_prefix (n : nat) (s : string) :
  String.prefix (String.substring 0 n s) s = true.
Proof.
  revert s; induction n as [|n IH]; intros [|c s]; simpl; try done.
  destruct (ascii_dec c c); [apply IH | done].
Qed.

Lemma substring_length (n : nat) (s : string) :
  n <= String.length s -> String.length (String.substring 0 n s) = n.
Proof.
  revert s; induction n as [|n IH]; intros [|c s]; simpl; try done; try lia.
  intros Hn. rewrite IH; lia.
Qed.

(** C10, as the code has it. With an empty store the export touches
    nothing and says so. With at least one record it opens
    ble_scan_results_<YYYYMMDD_HHMMSS>.json for writing. When the
    directory refuses the file nothing is written. Once the file is
    open it exists; it holds the whole snapshot when the device takes
    all of it, and only a part (which may be empty) when the write
    fails. Both failures are reported as Export Error. The files change
    only if a record exists, and no other file is touched. *)
Theorem export_writes_only_records (now : datetime) (self : app) (fs : filesystem) :
  let filename :=
    "ble_scan_results_" +:+ PyFmt.four_digits (year now)
    +:+ PyFmt.two_digits (month now) +:+ PyFmt.two_digits (day now) +:+ "_"
    +:+ PyFmt.two_digits (hour now) +:+ PyFmt.two_digits (minute now)
    +:+ PyFmt.two_digits (second now) +:+ ".json" in
  let content := json_dumps (dict_values (devices self)) in
  let fits :=
    match free_space fs with
    | Some n =>
        String.length content
        <= n + String.length (default EmptyString (files fs !! filename))
    | None => True
    end in
  let result := export_results json_dumps now self fs in
  (devices self = [] ->
   result = (fs, information "Export" "No devices to export")) /\
  (devices self <> [] -> writable fs = false ->
   result.1 = fs /\ exists reason, result.2 = critical "Export Error" reason) /\
  (devices self <> [] -> writable fs = true -> fits ->
   files result.1 = <[filename := content]> (files fs) /\
   result.2 = information "Export Successful" ("Results exported to " +:+ filename)) /\
  (devices self <> [] -> writable fs = true -> ~ fits ->
   (exists kept,
      files result.1 = <[filename := kept]> (files fs) /\
      String.prefix kept content = true /\
      String.length kept < String.length content) /\
   result.2
   = critical "Export Error"
       "Failed to export: [Errno 28] No space left on device") /\
  (files result.1 <> files fs -> devices self <> [] /\ writable fs = true) /\
  (forall other, other <> filename -> files result.1 !! other = files fs !! other) /\
  String.length filename = 37.
Proof.
  intros filename content fits result.
  assert (export_filename now = filename) as Hname.
  { unfold export_filename, strftime_stamp, filename.
    by rewrite !string_app_assoc. }
  unfold result, export_results, open_w, write_text. rewrite Hname. fold content.
  destruct (devices self) as [|entry entries].
  { repeat split; try done; try congruence. }
  destruct (writable fs) eqn:Hw.
  2: { repeat split; try done; try congruence. by eexists. }
  assert (forall kept other,
            other <> filename ->
            <[filename := kept]> (files fs) !! other = files fs !! other)
    as Hothers by (intros kept other Hother; by rewrite lookup_insert_ne).
  cbn [free_space files writable].
  destruct (free_space fs) as [n|] eqn:Hfree; cbn [fmap option_fmap option_map].
  - destruct (Nat.leb_spec (String.length content)
                (n + String.length (default EmptyString (files fs !! filename))))
      as [Hfits|Hfull]; cbn [fst snd files]; rewrite insert_insert_eq.
    + split; [done|]. split; [done|]. split; [done|].
      split; [intros _ _ Hnot; by destruct Hnot|].
      split; [done|]. split; [apply Hothers | done].
    + split; [done|]. split; [done|].
      split; [intros _ _ Hfits; unfold fits in Hfits; lia|].
      split; [|split; [done|]; split; [apply Hothers | done]].
      intros _ _ _. split; [|done].
      eexists. split; [done|]. split; [apply substring_prefix|].
      rewrite substring_length; lia.
  - cbn [fst snd files]. rewrite insert_insert_eq.
    split; [done|]. split; [done|]. split; [done|].
    split; [intros _ _ Hnot; by destruct Hnot|].
    split; [done|]. split; [apply Hothers | done].
Qed.

End ExportFacts.

Lemma export_writes_only_records_witness :
  devices (run_ops [Upsert first_sighting]) <> [] /\
  writable empty_directory = true /\
  files (export_results sample_json sample_now (run_ops [Upsert first_sighting])
           empty_directory).1
  !! "ble_scan_results_20250115_090507.json"
  = Some "[AA:BB:CC:DD:EE:FF]" /\
  files (export_results sample_json sample_now (run_ops [Upsert first_sighting])
           nearly_full_directory).1
  !! "ble_scan_results_20250115_090507.json"
  <> Some "[AA:BB:CC:DD:EE:FF]".
Proof.
  split; [done|]. split; [done|].
  destruct (export_writes_only_records sample_json sample_now
              (run_ops [Upsert first_sighting]) empty_directory)
    as (_ & _ & Hwritten & _).
  destruct Hwritten as [Hfiles _]; [done | done | done |].
  split; [rewrite Hfiles; apply lookup_insert_eq|].
  destruct (export_writes_only_records sample_json sample_now
              (run_ops [Upsert first_sighting]) nearly_full_directory)
    as (_ & _ & _ & Hpartial & _).
  destruct Hpartial as [(kept & Hfiles' & _ & Hshort) _];
    [done | done | vm_compute; lia |].
  rewrite Hfiles', lookup_insert_eq. intros [= ->]. simpl in Hshort. lia.
Defined.

(** C10 as the specification states it fails when the directory refuses
    the file: a record exists, yet no snapshot is written. *)
Lemma export_not_written_when_refused :
  devices (run_ops [Upsert first_sighting]) <> [] /\
  export_results sample_json sample_now (run_ops [Upsert first_sighting])
    read_only_directory
  = (read_only_directory,
     critical "Export Error"
       ("Failed to export: [Errno 13] Permission denied: "
        +:+ "'ble_scan_results_20250115_090507.json'")) /\
  files read_only_directory !! "ble_scan_results_20250115_090507.json" = None.
Proof. split; [done|]. split; [reflexivity|]. apply lookup_empty. Qed.

Example export_empty_store_is_noop :
  export_results sample_json sample_now initial_app empty_directory
  = (empty_directory, information "Export" "No devices to export") /\
  export_results sample_json sample_now (clear_results (run_ops [Upsert first_sighting]))
    empty_directory
  = (empty_directory, information "Export" "No devices to export").
Proof. split; reflexivity. Qed.

(** A device that takes ten more characters: the file is created, holds
    the first ten characters of the snapshot, and the failure is
    reported. *)
Example export_leaves_partial_file :
  let result :=
    export_results sample_json sample_now (run_ops [Upsert first_sighting])
      nearly_full_directory in
  files result.1 !! "ble_scan_results_20250115_090507.json" = Some "[AA:BB:CC:" /\
  result.2
  = critical "Export Error"
      "Failed to export: [Errno 28] No space left on device".
Proof. split; [|reflexivity]. simpl. apply lookup_insert_eq. Qed.

(** * Further properties of the code *)

(** ** Hexadecimal text and back *)

Section HexText.

Lemma hex_upper_cons (b : byte) (data : list byte) :
  hex_upper (b :: data) = hex_upper [b] +:+ hex_upper data.
Proof. reflexivity. Qed.

Lemma bytes_hex_cons (b : byte) (data : list byte) :
  PyFmt.bytes_hex (b :: data) = PyFmt.bytes_hex [b] +:+ PyFmt.bytes_hex data.
Proof. reflexivity. Qed.

Lemma fromhex_hex_upper_byte (b : byte) (rest : string) :
  PyBytes.fromhex (hex_upper [b] +:+ rest) = cons b <$> PyBytes.fromhex rest.
Proof. by destruct b. Qed.

Lemma fromhex_bytes_hex_byte (b : byte) (rest : string) :
  PyBytes.fromhex (PyFmt.bytes_hex [b] +:+ rest) = cons b <$> PyBytes.fromhex rest.
Proof. by destruct b. Qed.

Lemma format_02X_hex_upper (b : byte) :
  PyFmt.format_02X (Byte.to_N b) = hex_upper [b].
Proof. by destruct b. Qed.

Lemma hex_upper_length (data : list byte) :
  String.length (hex_upper data) = 2 * length data.
Proof.
  induction data as [|b data IH]; [done|].
  rewrite hex_upper_cons, string_length_app, IH.
  replace (String.length (hex_upper [b])) with 2 by (by destruct b).
  simpl. lia.
Qed.

Lemma fromhex_hex_upper (data : list byte) :
  PyBytes.fromhex (hex_upper data) = Some data.
Proof.
  induction data as [|b data IH]; [done|].
  by rewrite hex_upper_cons, fromhex_hex_upper_byte, IH.
Qed.

Lemma fromhex_bytes_hex (data : list byte) :
  PyBytes.fromhex (PyFmt.bytes_hex data) = Some data.
Proof.
  induction data as [|b data IH]; [done|].
  by rewrite bytes_hex_cons, fromhex_bytes_hex_byte, IH.
Qed.

Lemma upper_app (s t : string) :
  PyStr.upper (s +:+ t) = PyStr.upper s +:+ PyStr.upper t.
Proof.
  induction s as [|c s IHs]; simpl; [done|].
  unfold PyStr.upper in *. simpl. by rewrite IHs.
Qed.

Lemma upper_hex_upper (data : list byte) :
  PyStr.upper (hex_upper data) = hex_upper data.
Proof.
  induction data as [|b data IH]; [done|].
  rewrite hex_upper_cons, upper_app, IH. f_equal. by destruct b.
Qed.

(** X1: the hexadecimal text the decoders store for a payload
    ([data.hex().upper()]) has two characters per byte, and
    [bytes.fromhex], which the service-data panel applies to it, gives
    the payload back; so does the lower-case text of [data.hex()].
    Upper-casing the stored text again, as the panel does, changes
    nothing. *)
Theorem hex_text_round_trip (data : list byte) :
  PyBytes.fromhex (hex_upper data) = Some data /\
  PyBytes.fromhex (PyFmt.bytes_hex data) = Some data /\
  String.length (hex_upper data) = 2 * length data /\
  PyStr.upper (hex_upper data) = hex_upper data.
Proof.
  split; [apply fromhex_hex_upper|]. split; [apply fromhex_bytes_hex|].
  split; [apply hex_upper_length | apply upper_hex_upper].
Qed.

End HexText.

(** ** Hex dump rows: width and content *)

Section DumpRows.

Lemma join_cons (sep x : string) (rest : list string) :
  rest <> [] -> PyStr.join sep (x :: rest) = x +:+ sep +:+ PyStr.join sep rest.
Proof. by destruct rest. Qed.

Lemma join_length (sep : string) (w : nat) (l : list string) :
  Forall (fun s => String.length s = w) l -> l <> [] ->
  String.length (PyStr.join sep l) + String.length sep
  = length l * (w + String.length sep).
Proof.
  induction 1 as [|x l Hx Hl IH]; intros Hne; [done|].
  destruct l as [|y l]; [simpl; lia|].
  rewrite join_cons, !string_length_app by done.
  specialize (IH ltac:(done)). simpl length in *. lia.
Qed.

Lemma join_empty_sep_length (l : list string) :
  Forall (fun s => String.length s = 1) l ->
  String.length (PyStr.join "" l) = length l.
Proof.
  induction 1 as [|x l Hx Hl IH]; [done|].
  destruct l as [|y l]; [simpl; lia|].
  rewrite join_cons, !string_length_app, IH, Hx by done.
  cbn [length String.length]. lia.
Qed.

Lemma fromhex_space (s : string) : PyBytes.fromhex (" " +:+ s) = PyBytes.fromhex s.
Proof. reflexivity. Qed.

Lemma fromhex_placeholders (p : nat) :
  PyBytes.fromhex (PyStr.join " " (replicate p "  ")) = Some [].
Proof.
  induction p as [|p IH]; [done|].
  destruct p as [|p]; [done|].
  change (replicate (S (S p)) "  ") with ("  " :: replicate (S p) "  ").
  by rewrite join_cons.
Qed.

(** The hexadecimal column of a row reads back as the bytes of the row:
    [bytes.fromhex] skips the separating spaces and the placeholders. *)
Lemma fromhex_hex_column (chunk : list byte) (p : nat) :
  PyBytes.fromhex
    (PyStr.join " " (((fun b => PyFmt.format_02X (Byte.to_N b)) <$> chunk)
                     ++ replicate p "  "))
  = Some chunk.
Proof.
  induction chunk as [|b chunk IH]; [apply fromhex_placeholders|].
  rewrite fmap_cons, <- app_comm_cons, format_02X_hex_upper.
  destruct (((fun b => PyFmt.format_02X (Byte.to_N b)) <$> chunk) ++ replicate p "  ")
    as [|y rest] eqn:Hrest.
  - apply app_eq_nil in Hrest as [Hchunk _].
    apply fmap_nil_inv in Hchunk as ->.
    cbn [PyStr.join]. rewrite <- (string_app_nil_r (hex_upper [b])).
    by rewrite fromhex_hex_upper_byte.
  - rewrite join_cons by done.
    by rewrite fromhex_hex_upper_byte, fromhex_space, IH.
Qed.

Lemma ascii_repr_length (b : byte) : String.length (ascii_repr b) = 1.
Proof. by destruct b. Qed.

(** X2: in a dump of at most 65536 bytes every row has the same 41
    characters: four offset digits, a colon and a space, a hexadecimal
    column of 23 characters, two spaces, and eight characters between
    bars. The hexadecimal column of a row, read with [bytes.fromhex],
    gives exactly the bytes the row stands for. *)
Theorem hex_dump_row_aligned_lossless (data : list byte) (k : nat) :
  k < (length data + 7) / 8 ->
  (N.of_nat (8 * k) < 65536)%N ->
  exists row hex_part ascii_part,
    hex_dump data !! k = Some row /\
    row = PyFmt.format_04X (N.of_nat (8 * k)) +:+ ": " +:+ hex_part
          +:+ "  |" +:+ ascii_part +:+ "|" /\
    String.length hex_part = 23 /\
    String.length ascii_part = 8 /\
    String.length row = 41 /\
    PyBytes.fromhex hex_part = Some (take 8 (drop (8 * k) data)).
Proof.
  intros Hk Hsmall.
  set (chunk := take 8 (drop (8 * k) data)).
  assert (length chunk <= 8) as Hlen by (unfold chunk; rewrite length_take; lia).
  eexists _, _, _. split; [by rewrite hex_dump_lookup, hex_dump_line_spec|].
  split; [done|]. fold chunk.
  assert (String.length
            (PyStr.join " " (((fun b => PyFmt.format_02X (Byte.to_N b)) <$> chunk)
                             ++ replicate (8 - length chunk) "  ")) = 23) as Hhex.
  { pose proof (join_length " " 2
      (((fun b => PyFmt.format_02X (Byte.to_N b)) <$> chunk)
       ++ replicate (8 - length chunk) "  ")) as Hj.
    rewrite length_app, length_fmap, length_replicate in Hj.
    simpl String.length in Hj. 
    assert (length chunk + (8 - length chunk) = 8) as E by lia.
    rewrite E in Hj. 
    enough (String.length
              (PyStr.join " " (((fun b => PyFmt.format_02X (Byte.to_N b)) <$> chunk)
                               ++ replicate (8 - length chunk) "  ")) + 1 = 24) by lia.
    apply Hj.
    - apply Forall_app. split.
      + apply Forall_fmap, Forall_forall. intros b _. apply format_02X_byte.
      + by apply Forall_replicate.
    - intros Hnil. apply (f_equal length) in Hnil.
      rewrite length_app, length_fmap, length_replicate in Hnil. simpl in Hnil. lia. }
  assert (String.length
            (PyStr.join "" ((ascii_repr <$> chunk)
                            ++ replicate (8 - length chunk) " ")) = 8) as Hascii.
  { rewrite join_empty_sep_length.
    - rewrite length_app, length_fmap, length_replicate. lia.
    - apply Forall_app. split.
      + apply Forall_fmap, Forall_forall. intros b _. apply ascii_repr_length.
      + by apply Forall_replicate. }
  split; [done|]. split; [done|]. split; [|apply fromhex_hex_column].
  rewrite !string_length_app, Hhex, Hascii.
  destruct (format_04X_spec _ Hsmall) as [-> _]. done.
Qed.

Lemma hex_dump_row_aligned_lossless_witness :
  exists row hex_part ascii_part,
    hex_dump [x48; x65; x6c; x6c; x6f; x00; xff; x7e; x7f; x20] !! 1 = Some row /\
    row = "0008" +:+ ": " +:+ hex_part +:+ "  |" +:+ ascii_part +:+ "|" /\
    String.length hex_part = 23 /\
    String.length ascii_part = 8 /\
    String.length row = 41 /\
    PyBytes.fromhex hex_part = Some [x7f; x20].
Proof.
  apply (hex_dump_row_aligned_lossless
           [x48; x65; x6c; x6c; x6f; x00; xff; x7e; x7f; x20] 1).
  - simpl. lia.
  - reflexivity.
Defined.

End DumpRows.

(** ** UUID normalisation, once more *)

(** A UUID is either left alone or has 36 characters and is shortened
    to four. *)
Lemma normalize_uuid_shortens (uuid : string) :
  normalize_uuid uuid = uuid \/
  (String.length uuid = 36 /\ String.length (normalize_uuid uuid) = 4).
Proof.
  rewrite normalize_uuid_by_groups.
  destruct (is_sig_base_128 uuid) eqn:Hsig; [right | by left].
  unfold is_sig_base_128 in Hsig.
  apply andb_true_iff in Hsig as [Hlen Hsig]. apply Nat.eqb_eq in Hlen.
  pose proof (join_split PyStr.hyphen uuid) as Hjoin.
  destruct (PyStr.split PyStr.hyphen uuid) as [|g0 [|g1 [|g2 [|g3 [|g4 [|g5 gs]]]]]];
    try discriminate Hsig.
  apply andb_true_iff in Hsig as [Hg Hpre]. apply bool_decide_eq_true in Hg.
  injection Hg as -> -> -> ->.
  pose proof (join_sig_groups g0) as Hj. unfold SIG_BASE_GROUPS in Hj.
  rewrite Hj in Hjoin.
  assert (String.length g0 = 8) as Hg0.
  { rewrite <- Hjoin, string_length_app in Hlen. simpl in Hlen. lia. }
  destruct (startswith_0000_inv g0 Hg0 Hpre) as [_ Hshort].
  simpl hd. by split.
Qed.

(** X3: normalising twice is the same as normalising once, and the
    result is never longer than the input: a UUID that is changed has
    36 characters, becomes four characters long and is left alone from
    then on. *)
Theorem normalize_uuid_idempotent (uuid : string) :
  normalize_uuid (normalize_uuid uuid) = normalize_uuid uuid /\
  String.length (normalize_uuid uuid) <= String.length uuid /\
  (normalize_uuid uuid <> uuid ->
   String.length uuid = 36 /\ String.length (normalize_uuid uuid) = 4).
Proof.
  destruct (normalize_uuid_shortens uuid) as [Hsame|[Hlong Hshort]].
  - rewrite !Hsame. split; [done|]. split; [lia | done].
  - split; [|split; [lia | done]].
    generalize dependent (normalize_uuid uuid). intros short Hshort.
    unfold normalize_uuid. by rewrite Hshort.
Qed.

(** ** The scan session *)

Section SessionFacts.

Variable get_manufacturer_name : N -> result string.
Variable format_exc : exn -> string.
Variable get_system_info : string.
Variable list_of_set : list string -> list string.

(** What one advertisement produces: a record, or a report on the
    terminal followed by an error signal. *)
Lemma process_device_cases now device adv :
  (exists info,
     process_device_body get_manufacturer_name now device adv = Ok info /\
     process_device get_manufacturer_name format_exc get_system_info now device adv
     = [device_found info]) \/
  (exists e text,
     process_device_body get_manufacturer_name now device adv = Raise e /\
     process_device get_manufacturer_name format_exc get_system_info now device adv
     = [print text;
        error_occurred ("Error processing device " +:+ BLEDevice.address device
                        +:+ ": " +:+ exn_text e +:+ see_terminal)]).
Proof.
  unfold process_device.
  destruct (process_device_body _ _ _ _) as [info|e]; [left | right]; eauto.
Qed.

Lemma detection_callback_cases now device adv :
  (exists info,
     detection_callback_body get_manufacturer_name list_of_set now device adv = Ok info /\
     detection_callback get_manufacturer_name format_exc get_system_info list_of_set
       now device adv = [device_found info]) \/
  (exists e text,
     detection_callback_body get_manufacturer_name list_of_set now device adv = Raise e /\
     detection_callback get_manufacturer_name format_exc get_system_info list_of_set
       now device adv
     = [print text;
        error_occurred ("Error processing device " +:+ BLEDevice.address device
                        +:+ ": " +:+ exn_text e +:+ see_terminal)]).
Proof.
  unfold detection_callback.
  destruct (detection_callback_body _ _ _ _ _) as [info|e]; [left | right]; eauto.
Qed.

Lemma scan_loop_no_marks (items : list scan_item) :
  forallb (fun eff => negb (is_session_mark eff))
    (scan_loop get_manufacturer_name format_exc get_system_info items).1 = true.
Proof.
  induction items as [|it items IH]; [done|].
  destruct it as [[] now device adv|e]; simpl; try done.
  destruct (scan_loop _ _ _ items) as [effects failure]. simpl in *.
  rewrite forallb_app, IH, andb_true_r.
  by destruct (process_device_cases now device adv)
    as [(info & _ & ->)|(e & text & _ & ->)].
Qed.

(** X4: whatever the scanner delivers and however the session ends (the
    stream runs out, a stop is requested, the scanner raises), the
    worker of either application emits [scan_started] first and
    [scan_stopped] last, and neither of them in between. *)
Theorem session_is_bracketed (items : list scan_item) (startup : option exn)
    (detections : list (datetime * BLEDevice.t * AdvertisementData.t)) :
  (exists middle,
     start_scanning get_manufacturer_name format_exc get_system_info items
     = scan_started :: middle ++ [scan_stopped] /\
     forallb (fun eff => negb (is_session_mark eff)) middle = true) /\
  (exists middle,
     basic_start_scanning get_manufacturer_name format_exc get_system_info
       list_of_set startup detections
     = scan_started :: middle ++ [scan_stopped] /\
     forallb (fun eff => negb (is_session_mark eff)) middle = true).
Proof.
  split.
  - unfold start_scanning. pose proof (scan_loop_no_marks items) as Hloop.
    destruct (scan_loop _ _ _ items) as [effects failure]. simpl in *.
    exists (effects ++ match failure with
                       | Some e => report_scan_error format_exc get_system_info e
                       | None => []
                       end).
    split; [by rewrite <- app_assoc|].
    rewrite forallb_app, Hloop. by destruct failure.
  - unfold basic_start_scanning. eexists. split; [done|].
    destruct startup as [e|]; [done|].
    induction detections as [|[[now device] adv] detections IH]; [done|].
    simpl. rewrite forallb_app, IH, andb_true_r.
    by destruct (detection_callback_cases now device adv)
      as [(info & _ & ->)|(e & text & _ & ->)].
Qed.

(** X5: a stop request ends the session at the next advertisement: that
    advertisement and everything the scanner delivers after it is
    ignored, and the session ends as if the stream had run out there. *)
Theorem stop_request_ends_session (pre post : list scan_item) now device adv :
  forallb live_advert pre = true ->
  start_scanning get_manufacturer_name format_exc get_system_info
    (pre ++ Advert false now device adv :: post)
  = start_scanning get_manufacturer_name format_exc get_system_info pre /\
  (scan_loop get_manufacturer_name format_exc get_system_info
     (pre ++ Advert false now device adv :: post)).2 = None.
Proof.
  intros Hpre. unfold start_scanning.
  rewrite scan_loop_app by done. simpl.
  rewrite (scan_loop_live _ _ _ pre Hpre). simpl. by rewrite app_nil_r.
Qed.

(** X6: when the scanner itself raises, the session reports that error
    once, after the records of the advertisements it had delivered, and
    stops; nothing delivered afterwards is processed and nothing is
    retried. *)
Theorem scanner_fault_ends_session (pre post : list scan_item) (e : exn) :
  forallb live_advert pre = true ->
  exists text,
    start_scanning get_manufacturer_name format_exc get_system_info
      (pre ++ ScannerFault e :: post)
    = [scan_started]
      ++ (scan_loop get_manufacturer_name format_exc get_system_info pre).1
      ++ [print text;
          error_occurred ("Scanning error: " +:+ exn_text e +:+ see_terminal)]
      ++ [scan_stopped].
Proof.
  intros Hpre. unfold start_scanning.
  rewrite scan_loop_app by done. simpl.
  eexists. by rewrite app_nil_r.
Qed.

Lemma prefix_app (p s : string) : String.prefix p (p +:+ s) = true.
Proof.
  induction p as [|c p IH]; simpl; [by destruct s|].
  by destruct (ascii_dec c c).
Qed.

Lemma prefix_app3 (a b c rest : string) :
  String.prefix (a +:+ b +:+ c) (a +:+ b +:+ c +:+ rest) = true.
Proof.
  replace (a +:+ b +:+ c +:+ rest) with ((a +:+ b +:+ c) +:+ rest)
    by (by rewrite !string_app_assoc).
  apply prefix_app.
Qed.

(** X7: every advertisement delivered while scanning is answered by
    exactly one signal, in the order of delivery: either the record of
    its device or an error that names its device. *)
Theorem one_outcome_per_advert (items : list scan_item) :
  forallb live_advert items = true ->
  Forall2
    (fun it eff =>
       match it, eff with
       | Advert _ _ device _, device_found info =>
           DeviceInfo.address info = BLEDevice.address device
       | Advert _ _ device _, error_occurred msg =>
           String.prefix
             ("Error processing device " +:+ BLEDevice.address device +:+ ": ")
             msg = true
       | _, _ => False
       end)
    items
    (filter (fun eff => is_outcome eff = true)
       (scan_loop get_manufacturer_name format_exc get_system_info items).1).
Proof.
  induction items as [|it items IH]; [constructor|].
  destruct it as [[] now device adv|e]; simpl; try done.
  intros Hlive. specialize (IH Hlive).
  destruct (scan_loop _ _ _ items) as [effects failure]. simpl in *.
  rewrite filter_app.
  destruct (process_device_cases now device adv)
    as [(info & Hbody & ->)|(e & text & _ & ->)].
  - rewrite filter_cons_True by done. simpl. constructor; [|done].
    by apply adv_body_fields in Hbody as (-> & _).
  - rewrite filter_cons_False by done.
    rewrite filter_cons_True by done. simpl. constructor; [|done].
    exact (prefix_app3 "Error processing device " (BLEDevice.address device)
             ": " (exn_text e +:+ see_terminal)).
Qed.

End SessionFacts.

Lemma stop_request_ends_session_witness :
  forallb live_advert
    [Advert true sample_now sample_device scenario_adv] = true /\
  start_scanning sample_registry sample_format_exc sample_system_info
    [ Advert true sample_now sample_device scenario_adv;
      Advert false sample_later sample_device company_zero_adv;
      Advert true sample_later sample_device unknown_company_adv ]
  = start_scanning sample_registry sample_format_exc sample_system_info
      [Advert true sample_now sample_device scenario_adv].
Proof.
  split; [reflexivity|].
  apply (stop_request_ends_session sample_registry sample_format_exc
           sample_system_info
           [Advert true sample_now sample_device scenario_adv]
           [Advert true sample_later sample_device unknown_company_adv]
           sample_later sample_device company_zero_adv).
  reflexivity.
Defined.

Lemma scanner_fault_ends_session_witness :
  forallb live_advert
    [Advert true sample_now sample_device scenario_adv] = true /\
  exists info text,
    start_scanning sample_registry sample_format_exc sample_system_info
      [ Advert true sample_now sample_device scenario_adv;
        ScannerFault {| exn_kind := "BleakError"; exn_text := "adapter gone" |};
        Advert true sample_later sample_device unknown_company_adv ]
    = [ scan_started; device_found info; print text;
        error_occurred ("Scanning error: adapter gone"
                        +:+ PyFmt.nl +:+ PyFmt.nl
                        +:+ "See terminal for detailed error information.");
        scan_stopped ].
Proof.
  split; [reflexivity|].
  destruct (scanner_fault_ends_session sample_registry sample_format_exc
              sample_system_info
              [Advert true sample_now sample_device scenario_adv]
              [Advert true sample_later sample_device unknown_company_adv]
              {| exn_kind := "BleakError"; exn_text := "adapter gone" |}
              eq_refl) as [text Htext].
  eexists _, text. exact Htext.
Defined.

Lemma one_outcome_per_advert_witness :
  forallb live_advert
    [ Advert true sample_now sample_device service_data_only_adv;
      Advert true sample_now sample_device scenario_adv ] = true /\
  length (filter (fun eff => is_outcome eff = true)
            (scan_loop broken_registry sample_format_exc sample_system_info
               [ Advert true sample_now sample_device service_data_only_adv;
                 Advert true sample_now sample_device scenario_adv ]).1) = 2.
Proof.
  split; [reflexivity|].
  pose proof (one_outcome_per_advert broken_registry sample_format_exc
                sample_system_info
                [ Advert true sample_now sample_device service_data_only_adv;
                  Advert true sample_now sample_device scenario_adv ]
                eq_refl) as Hall.
  apply Forall2_length in Hall. symmetry. exact Hall.
Defined.

(** ** The two decoders side by side *)

Section VariantFacts.

Variable get_manufacturer_name : N -> result string.
Variable list_of_set : list string -> list string.

(** X8: on one event the two decoders fail together, with the same
    exception, or return records that agree in every field but the
    service UUIDs and the service data: address, name, manufacturer,
    manufacturer identifier, RSSI, last seen, and the manufacturer
    data, TX power and platform data kept as raw data. *)
Theorem decoders_agree_outside_services now device adv :
  match process_device_body get_manufacturer_name now device adv,
        detection_callback_body get_manufacturer_name list_of_set now device adv
  with
  | Ok a, Ok b =>
      DeviceInfo.address a = DeviceInfo.address b /\
      DeviceInfo.name a = DeviceInfo.name b /\
      DeviceInfo.manufacturer a = DeviceInfo.manufacturer b /\
      DeviceInfo.manufacturer_id a = DeviceInfo.manufacturer_id b /\
      DeviceInfo.rssi a = DeviceInfo.rssi b /\
      DeviceInfo.last_seen a = DeviceInfo.last_seen b /\
      RawData.manufacturer_data (DeviceInfo.raw_data a)
      = RawData.manufacturer_data (DeviceInfo.raw_data b) /\
      RawData.tx_power (DeviceInfo.raw_data a)
      = RawData.tx_power (DeviceInfo.raw_data b) /\
      RawData.platform_data (DeviceInfo.raw_data a)
      = RawData.platform_data (DeviceInfo.raw_data b)
  | Raise e, Raise e' => e = e'
  | _, _ => False
  end.
Proof.
  unfold process_device_body, detection_callback_body.
  by destruct (extract_manufacturer _ _) as [[name id]|e].
Qed.

(** X9: the RSSI cell of the row of a decoded record shows N/A when the
    advertisement carried no reading and the stored, clamped reading as
    a decimal number otherwise; in both cases the integer kept for
    sorting is the stored one, -999 for a missing reading and never
    below -99 for a real one. *)
Theorem rssi_cell_of_decoded_record now device adv a :
  process_device_body get_manufacturer_name now device adv = Ok a
  \/ detection_callback_body get_manufacturer_name list_of_set now device adv = Ok a ->
  exists cell,
    c5 (row_of a) = Some cell /\
    user_role cell = Some (DeviceInfo.rssi a) /\
    match AdvertisementData.rssi adv with
    | None => text cell = "N/A" /\ DeviceInfo.rssi a = (-999)%Z
    | Some reading =>
        text cell = PyFmt.str_Z (Z.max reading (-99)) /\
        DeviceInfo.rssi a = Z.max reading (-99) /\
        (-99 <= DeviceInfo.rssi a)%Z
    end.
Proof.
  intros Hbody.
  assert (DeviceInfo.rssi a = rssi_field (clamp_rssi (getattr_rssi adv))) as Hrssi.
  { destruct Hbody as [Hbody|Hbody].
    - by apply adv_body_fields in Hbody as (_ & -> & _).
    - by apply basic_body_fields in Hbody as (_ & -> & _). }
  eexists. split; [done|]. rewrite Hrssi. unfold rssi_item, getattr_rssi.
  destruct (AdvertisementData.rssi adv) as [reading|]; simpl.
  - rewrite bool_decide_eq_true_2 by lia. simpl. repeat split; lia.
  - done.
Qed.

End VariantFacts.

Lemma rssi_cell_of_decoded_record_witness :
  exists a cell,
    process_device_body sample_registry sample_now sample_device scenario_adv = Ok a /\
    c5 (row_of a) = Some cell /\
    text cell = "-99" /\ user_role cell = Some (-99)%Z.
Proof.
  eexists _. 
  destruct (rssi_cell_of_decoded_record sample_registry first_occurrences
              sample_now sample_device scenario_adv _ (or_introl eq_refl))
    as (cell & Hcell & Hrole & Htext & _).
  exists cell. split; [reflexivity|]. split; [exact Hcell|].
  split; [exact Htext | exact Hrole].
Defined.

(** ** The history of the store *)

Section HistoryFacts.

Context `{!TableSorting}.

Lemma sightings_since_clear_snoc (ops : list table_op) (op : table_op) :
  sightings_since_clear (ops ++ [op])
  = match op with
    | Upsert info => sightings_since_clear ops ++ [info]
    | Clear => []
    | SortByColumn _ _ => sightings_since_clear ops
    end.
Proof. unfold sightings_since_clear. by rewrite fold_left_app. Qed.

Lemma first_occurrences_snoc (xs : list string) (x : string) :
  first_occurrences (xs ++ [x])
  = if decide (x ∈ xs) then first_occurrences xs else first_occurrences xs ++ [x].
Proof.
  induction xs as [|y xs IH]; [done|].
  simpl. rewrite IH.
  destruct (decide (x ∈ xs)) as [Hin|Hnotin].
  - by rewrite decide_True by (by right).
  - rewrite filter_app.
    destruct (decide (x = y)) as [->|Hne].
    + rewrite decide_True by (by left).
      rewrite filter_cons_False, filter_nil, app_nil_r by (by intros []). done.
    + rewrite decide_False by (by intros [?|?]%elem_of_cons).
      by rewrite filter_cons_True.
Qed.


(** The stored addresses, in the order of their first sighting. *)
Lemma run_ops_keys (ops : list table_op) :
  dict_keys (devices (run_ops ops))
  = first_occurrences (DeviceInfo.address <$> sightings_since_clear ops).
Proof.
  induction ops as [|op ops IH] using rev_ind; [done|].
  rewrite run_ops_snoc, sightings_since_clear_snoc.
  destruct op as [info| |column order]; [|done|done]. cbn [apply_op].
  rewrite add_device_devices, dict_keys_set, fmap_app.
  change (DeviceInfo.address <$> [info]) with [DeviceInfo.address info].
  rewrite first_occurrences_snoc, IH.
  destruct (decide (DeviceInfo.address info
                    ∈ first_occurrences (DeviceInfo.address <$> sightings_since_clear ops)))
    as [Hin|Hnotin].
  - by rewrite decide_True by (by apply first_occurrences_elem).
  - by rewrite decide_False by (by rewrite <- first_occurrences_elem).
Qed.


(** What is assumed of [sortByColumn]: it rearranges the rows and
    neither adds nor drops one. *)
Hypothesis sort_rows_perm :
  forall order column t, sort_rows order column t ≡ₚ t.


End HistoryFacts.


(** ** Error signals on the status line *)

Section StatusFacts.

Lemma contains_nl_app (a b : string) :
  PyStr.contains (a +:+ b) PyFmt.nl
  = PyStr.contains a PyFmt.nl || PyStr.contains b PyFmt.nl.
Proof.
  induction a as [|c a IH]; [by destruct b|].
  cbn [String.append PyStr.contains]. rewrite IH.
  unfold PyFmt.nl. cbn [String.prefix].
  destruct (ascii_dec (ascii_of_nat 10) c); [by destruct a, b|done].
Qed.

Lemma split_no_newline (s : string) :
  PyStr.contains s PyFmt.nl = false -> PyStr.split PyText.newline s = [s].
Proof.
  induction s as [|c s IH]; [done|].
  cbn [PyStr.contains PyStr.split]. unfold PyFmt.nl, PyText.newline in *.
  cbn [String.prefix].
  destruct (ascii_dec (ascii_of_nat 10) c) as [<-|Hne].
  - by destruct s.
  - simpl. intros Hs. rewrite (IH Hs).
    destruct (Ascii.eqb_spec c (ascii_of_nat 10)) as [->|_]; done.
Qed.

(** The first line of a text whose first line feed comes after [p]. *)
Lemma on_error_status_first_line (p rest : string) :
  PyStr.contains p PyFmt.nl = false ->
  on_error_status (p +:+ PyFmt.nl +:+ rest) = "Error: " +:+ p.
Proof.
  intros Hp. unfold on_error_status.
  rewrite contains_nl_app, Hp. cbn [orb].
  replace (PyStr.contains (PyFmt.nl +:+ rest) PyFmt.nl) with true
    by (by destruct rest).
  change (PyFmt.nl +:+ rest) with (String PyText.newline rest).
  by rewrite split_app_sep, (split_no_newline p Hp).
Qed.

(** X11: when an error signal of the worker reaches the application,
    the status line shows its first line only: "Error: Error processing
    device <address>: <message>" for a decode failure and "Error:
    Scanning error: <message>" for a failure of the scanner, provided
    address and message contain no line feed. *)
Theorem error_signal_on_status_line (format_exc : exn -> string)
    (get_system_info method : string) (device : BLEDevice.t) (e : exn) :
  PyStr.contains (BLEDevice.address device) PyFmt.nl = false ->
  PyStr.contains (exn_text e) PyFmt.nl = false ->
  (exists text msg,
     report_device_error format_exc get_system_info method device e
     = [print text; error_occurred msg] /\
     on_error_status msg
     = "Error: Error processing device " +:+ BLEDevice.address device
       +:+ ": " +:+ exn_text e) /\
  (exists text msg,
     report_scan_error format_exc get_system_info e
     = [print text; error_occurred msg] /\
     on_error_status msg = "Error: Scanning error: " +:+ exn_text e).
Proof.
  intros Haddr Htext. split.
  - eexists _, _. split; [reflexivity|].
    pose proof (on_error_status_first_line
      ("Error processing device " +:+ BLEDevice.address device +:+ ": " +:+ exn_text e)
      (PyFmt.nl +:+ "See terminal for detailed error information.")) as Hline.
    rewrite !string_app_assoc in Hline. unfold see_terminal.
    apply Hline.
    by rewrite !contains_nl_app, Haddr, Htext.
  - eexists _, _. split; [reflexivity|].
    pose proof (on_error_status_first_line
      ("Scanning error: " +:+ exn_text e)
      (PyFmt.nl +:+ "See terminal for detailed error information.")) as Hline.
    rewrite !string_app_assoc in Hline. unfold see_terminal.
    apply Hline. by rewrite !contains_nl_app, Htext.
Qed.

End StatusFacts.

Lemma error_signal_on_status_line_witness :
  PyStr.contains (BLEDevice.address sample_device) PyFmt.nl = false /\
  on_error_status
    ("Error processing device AA:BB:CC:DD:EE:FF: company table not loaded"
     +:+ PyFmt.nl +:+ PyFmt.nl +:+ "See terminal for detailed error information.")
  = "Error: Error processing device AA:BB:CC:DD:EE:FF: company table not loaded".
Proof.
  split; [reflexivity|].
  destruct (error_signal_on_status_line sample_format_exc sample_system_info
              "process_device" sample_device
              {| exn_kind := "KeyError"; exn_text := "company table not loaded" |}
              eq_refl eq_refl) as [(text & msg & Hreport & Hstatus) _].
  injection Hreport as _ <-. exact Hstatus.
Defined.

(** ** Snapshot files *)

Section SnapshotFacts.

Local Open Scope N_scope.

Lemma dec_digit_inj (x y : N) :
  PyFmt.dec_digit x = PyFmt.dec_digit y -> x mod 10 = y mod 10.
Proof.
  unfold PyFmt.dec_digit. intros H. apply (f_equal N_of_ascii) in H.
  pose proof (N.mod_lt x 10 ltac:(lia)). pose proof (N.mod_lt y 10 ltac:(lia)).
  rewrite !N_ascii_embedding in H by lia. lia.
Qed.

Lemma two_digits_inj (n m : N) :
  n < 100 -> m < 100 -> PyFmt.two_digits n = PyFmt.two_digits m -> n = m.
Proof.
  intros Hn Hm [= H1%dec_digit_inj H0%dec_digit_inj].
  pose proof (N.div_mod n 10 ltac:(lia)). pose proof (N.div_mod m 10 ltac:(lia)).
  pose proof (N.mod_lt n 10 ltac:(lia)). pose proof (N.mod_lt m 10 ltac:(lia)).
  assert (n / 10 < 10) by (apply N.Div0.div_lt_upper_bound; lia).
  assert (m / 10 < 10) by (apply N.Div0.div_lt_upper_bound; lia).
  rewrite !N.mod_small in H1 by lia. lia.
Qed.

Lemma four_digits_inj (n m : N) :
  n < 10000 -> m < 10000 -> PyFmt.four_digits n = PyFmt.four_digits m -> n = m.
Proof.
  intros Hn Hm [= H3%dec_digit_inj H2%dec_digit_inj H1%dec_digit_inj H0%dec_digit_inj].
  pose proof (N.div_mod n 10 ltac:(lia)). pose proof (N.div_mod m 10 ltac:(lia)).
  pose proof (N.mod_lt n 10 ltac:(lia)). pose proof (N.mod_lt m 10 ltac:(lia)).
  pose proof (N.div_mod (n / 10) 10 ltac:(lia)).
  pose proof (N.div_mod (m / 10) 10 ltac:(lia)).
  pose proof (N.mod_lt (n / 10) 10 ltac:(lia)).
  pose proof (N.mod_lt (m / 10) 10 ltac:(lia)).
  pose proof (N.div_mod (n / 100) 10 ltac:(lia)).
  pose proof (N.div_mod (m / 100) 10 ltac:(lia)).
  pose proof (N.mod_lt (n / 100) 10 ltac:(lia)).
  pose proof (N.mod_lt (m / 100) 10 ltac:(lia)).
  assert (n / 100 = n / 10 / 10) as En by (by rewrite N.Div0.div_div).
  assert (m / 100 = m / 10 / 10) as Em by (by rewrite N.Div0.div_div).
  assert (n / 1000 = n / 100 / 10) as En' by (by rewrite N.Div0.div_div).
  assert (m / 1000 = m / 100 / 10) as Em' by (by rewrite N.Div0.div_div).
  assert (n / 1000 < 10) by (apply N.Div0.div_lt_upper_bound; lia).
  assert (m / 1000 < 10) by (apply N.Div0.div_lt_upper_bound; lia).
  rewrite !N.mod_small in H3 by lia. lia.
Qed.

Lemma export_filename_inj (t1 t2 : datetime) :
  calendar_time t1 -> calendar_time t2 ->
  export_filename t1 = export_filename t2 -> to_the_second t1 = to_the_second t2.
Proof.
  intros (Hy1 & Hm1 & Hd1 & Hh1 & Hmi1 & Hs1) (Hy2 & Hm2 & Hd2 & Hh2 & Hmi2 & Hs2).
  unfold export_filename, strftime_stamp, to_the_second.
  intros Heq. simpl in Heq. injection Heq as Y3 Y2 Y1 Y0 M1 M0 D1 D0 H1 H0 I1 I0 S1 S0.
  assert (PyFmt.four_digits (year t1) = PyFmt.four_digits (year t2)) as Hy
    by (unfold PyFmt.four_digits; congruence).
  assert (PyFmt.two_digits (month t1) = PyFmt.two_digits (month t2)) as Hm
    by (unfold PyFmt.two_digits; congruence).
  assert (PyFmt.two_digits (day t1) = PyFmt.two_digits (day t2)) as Hd
    by (unfold PyFmt.two_digits; congruence).
  assert (PyFmt.two_digits (hour t1) = PyFmt.two_digits (hour t2)) as Hh
    by (unfold PyFmt.two_digits; congruence).
  assert (PyFmt.two_digits (minute t1) = PyFmt.two_digits (minute t2)) as Hmi
    by (unfold PyFmt.two_digits; congruence).
  assert (PyFmt.two_digits (second t1) = PyFmt.two_digits (second t2)) as Hs
    by (unfold PyFmt.two_digits; congruence).
  apply four_digits_inj in Hy; [|lia..]. apply two_digits_inj in Hm; [|lia..].
  apply two_digits_inj in Hd; [|lia..]. apply two_digits_inj in Hh; [|lia..].
  apply two_digits_inj in Hmi; [|lia..]. apply two_digits_inj in Hs; [|lia..].
  by rewrite Hy, Hm, Hd, Hh, Hmi, Hs.
Qed.

Variable json_dumps : list DeviceInfo.t -> string.

(** An export that reports success has written the whole snapshot. *)
Lemma export_success (t : datetime) (self : app) (dir : filesystem)
    (body : string) :
  (export_results json_dumps t self dir).2
  = information "Export Successful" body ->
  files (export_results json_dumps t self dir).1
  = <[export_filename t := json_dumps (dict_values (devices self))]> (files dir).
Proof.
  unfold export_results, open_w, write_text.
  destruct (devices self) as [|e d]; [done|].
  destruct (writable dir); [|done].
  cbn [free_space files writable].
  destruct (free_space dir) as [n|]; cbn [fmap option_fmap option_map].
  - destruct (Nat.leb _ _); cbn [fst snd files]; [|done].
    intros _. by rewrite insert_insert_eq.
  - cbn [fst snd files]. intros _. by rewrite insert_insert_eq.
Qed.

(** X12: two exports that succeed leave two snapshot files unless they
    fall into the same second: the file of the later export holds the
    later records, and the file of the earlier export still holds the
    earlier records when the two clock readings differ in year, month,
    day, hour, minute or second. Within the same second both exports
    write the same file, and the later one replaces the earlier. *)
Theorem later_export_keeps_earlier_snapshot (t1 t2 : datetime)
    (self1 self2 : app) (fs : filesystem) :
  calendar_time t1 -> calendar_time t2 ->
  let first := export_results json_dumps t1 self1 fs in
  let second := export_results json_dumps t2 self2 first.1 in
  first.2
  = information "Export Successful" ("Results exported to " +:+ export_filename t1) ->
  second.2
  = information "Export Successful" ("Results exported to " +:+ export_filename t2) ->
  let fs2 := second.1 in
  files fs2 !! export_filename t2 = Some (json_dumps (dict_values (devices self2))) /\
  (to_the_second t1 <> to_the_second t2 ->
   files fs2 !! export_filename t1 = Some (json_dumps (dict_values (devices self1)))) /\
  (to_the_second t1 = to_the_second t2 ->
   export_filename t1 = export_filename t2 /\
   files fs2 = <[export_filename t2 := json_dumps (dict_values (devices self2))]> (files fs)).
Proof.
  intros Hc1 Hc2 first second Hfirst Hsecond fs2.
  apply export_success in Hfirst, Hsecond.
  fold first in Hfirst. fold second fs2 in Hsecond. rewrite Hsecond, Hfirst.
  split; [by rewrite lookup_insert_eq|]. split.
  - intros Hne. rewrite lookup_insert_ne, lookup_insert_eq; [done|].
    intros Heq. apply Hne. symmetry. by apply export_filename_inj.
  - intros Heq.
    assert (export_filename t1 = export_filename t2) as Hname.
    { unfold export_filename, strftime_stamp.
      by injection Heq as -> -> -> -> -> ->. }
    split; [done|]. by rewrite Hname, insert_insert_eq.
Qed.

End SnapshotFacts.

Lemma later_export_keeps_earlier_snapshot_witness :
  calendar_time sample_now /\
  (export_results sample_json sample_now (run_ops [Upsert first_sighting])
     empty_directory).2
  = information "Export Successful"
      "Results exported to ble_scan_results_20250115_090507.json" /\
  files (export_results sample_json (mk_datetime 2025 1 15 9 5 8 0)
           (run_ops [Upsert first_sighting; Upsert other_device])
           (export_results sample_json sample_now
              (run_ops [Upsert first_sighting]) empty_directory).1).1
  !! "ble_scan_results_20250115_090507.json"
  = Some "[AA:BB:CC:DD:EE:FF]".
Proof.
  assert (forall t, to_the_second t = (2025, 1, 15, 9, 5, 7)%N \/
                    to_the_second t = (2025, 1, 15, 9, 5, 8)%N ->
                    calendar_time t) as Hcal.
  { intros t [H|H]; injection H as Hy Hm Hd Hh Hmi Hs;
      unfold calendar_time; rewrite Hy, Hm, Hd, Hh, Hmi, Hs; lia. }
  split; [apply Hcal; by left|]. split; [reflexivity|].
  destruct (later_export_keeps_earlier_snapshot sample_json sample_now
              (mk_datetime 2025 1 15 9 5 8 0)
              (run_ops [Upsert first_sighting])
              (run_ops [Upsert first_sighting; Upsert other_device])
              empty_directory) as (_ & Hkept & _);
    [apply Hcal; by left | apply Hcal; by right | reflexivity | reflexivity |].
  apply Hkept. discriminate.
Defined.

(** ** The detail panels *)

Section PanelFacts.

Lemma split_join_newline (parts : list string) :
  parts <> [] ->
  Forall (fun s => PyStr.contains s PyFmt.nl = false) parts ->
  PyStr.split PyText.newline (PyStr.join PyFmt.nl parts) = parts.
Proof.
  intros Hne Hall. induction Hall as [|x rest Hx Hrest IH]; [done|].
  destruct rest as [|y rest]; [by apply split_no_newline|].
  rewrite join_cons by done.
  change (PyFmt.nl +:+ PyStr.join PyFmt.nl (y :: rest))
    with (String PyText.newline (PyStr.join PyFmt.nl (y :: rest))).
  by rewrite split_app_sep, (split_no_newline x Hx), IH.
Qed.

Lemma concat_imap_nonblank (f : nat -> string -> string) (us : list string) :
  Forall (fun u => PyText.nonblank u = true) us ->
  concat (imap (fun i u => if PyText.nonblank u then [f i u] else []) us)
  = imap f us.
Proof.
  intros Hall. revert f. induction Hall as [|u us Hu Hus IH]; intros f; [done|].
  cbn [imap concat]. rewrite Hu. simpl. f_equal. apply (IH (f ∘ S)).
Qed.

Lemma filter_all_nonblank (us : list string) :
  Forall (fun u => PyText.nonblank u = true) us ->
  filter (fun u => PyText.nonblank u = true) us = us.
Proof.
  induction 1 as [|u us Hu Hus IH]; [done|].
  by rewrite filter_cons_True, IH.
Qed.

(** X13: the service-UUID panel gives back the list the decoder joined
    into one text: for a record whose service UUIDs are the lines of a
    non-empty list of UUIDs, none of them blank or containing a line
    feed, the panel numbers these UUIDs from 1 in their order and ends
    with their count. *)
Theorem service_uuids_panel_lists_all (info : DeviceInfo.t) (us : list string) :
  DeviceInfo.service_uuids info = PyStr.join PyFmt.nl us ->
  us <> [] ->
  Forall (fun u => PyText.nonblank u = true) us ->
  Forall (fun u => PyStr.contains u PyFmt.nl = false) us ->
  update_service_uuids_details info
  = PyStr.join PyFmt.nl
      (["Service UUIDs:"; ""]
       ++ imap (fun i u => PyFmt.str_nat (i + 1) +:+ ". " +:+ u) us
       ++ [""; "Total: " +:+ PyFmt.str_nat (length us) +:+ " service UUID(s)"]).
Proof.
  intros Hjoin Hne Hblank Hnl. unfold update_service_uuids_details.
  rewrite Hjoin.
  assert (String.eqb (PyStr.join PyFmt.nl us) "" = false) as ->.
  { destruct Hblank as [|u rest Hu _]; [done|].
    destruct u as [|c u]; [done|]. by destruct rest. }
  rewrite split_join_newline by done.
  by rewrite concat_imap_nonblank, filter_all_nonblank.
Qed.

End PanelFacts.

Lemma service_uuids_panel_lists_all_witness :
  exists a,
    process_device_body sample_registry sample_now sample_device scenario_adv = Ok a /\
    update_service_uuids_details a
    = PyStr.join PyFmt.nl
        [ "Service UUIDs:"; ""; "1. 180f";
          "2. 0000180F-0000-1000-8000-00805F9B34FB"; "";
          "Total: 2 service UUID(s)" ].
Proof.
  eexists. split; [reflexivity|].
  apply (service_uuids_panel_lists_all _
           ["180f"; "0000180F-0000-1000-8000-00805F9B34FB"]).
  - reflexivity.
  - discriminate.
  - by repeat constructor.
  - by repeat constructor.
Defined.

Section ServiceDataFacts.

Variable get_manufacturer_name : N -> result string.

(** The service data the iterator-driven decoder keeps as raw data. *)
Lemma adv_body_raw_data now device adv a :
  process_device_body get_manufacturer_name now device adv = Ok a ->
  RawData.manufacturer_data (DeviceInfo.raw_data a)
  = AdvertisementData.manufacturer_data adv /\
  RawData.service_data (DeviceInfo.raw_data a)
  = fold_left (fun acc '(uuid, data) =>
                 dict_set (normalize_uuid uuid) (Some (hex_upper data)) acc)
              (AdvertisementData.service_data adv) [].
Proof.
  unfold process_device_body.
  destruct (extract_manufacturer _ _) as [[name id]|e]; simpl; [|done].
  by intros [= <-].
Qed.

Lemma enhanced_service_data_keys (entries : dict string (list byte)) :
  dict_keys (fold_left (fun acc '(uuid, data) =>
                          dict_set (normalize_uuid uuid) (Some (hex_upper data)) acc)
                       entries [])
  = first_occurrences (normalize_uuid <$> dict_keys entries).
Proof.
  induction entries as [|[uuid data] entries IH] using rev_ind; [done|].
  rewrite fold_left_app. cbn [fold_left]. rewrite dict_keys_set, IH.
  unfold dict_keys. repeat rewrite fmap_app.
  change (normalize_uuid <$> (fst <$> [(uuid, data)])) with [normalize_uuid uuid].
  rewrite first_occurrences_snoc.
  destruct (decide (normalize_uuid uuid
                    ∈ first_occurrences (normalize_uuid <$> (fst <$> entries))))
    as [Hin|Hnotin].
  - by rewrite decide_True by (by apply first_occurrences_elem).
  - by rewrite decide_False by (by rewrite <- first_occurrences_elem).
Qed.

Lemma enhanced_service_data_get (entries : dict string (list byte)) (key : string) :
  dict_get key
    (fold_left (fun acc '(uuid, data) =>
                  dict_set (normalize_uuid uuid) (Some (hex_upper data)) acc)
               entries [])
  = (fun entry => Some (hex_upper entry.2))
      <$> last (filter (fun entry => normalize_uuid entry.1 = key) entries).
Proof.
  induction entries as [|[uuid data] entries IH] using rev_ind; [done|].
  rewrite fold_left_app, filter_app. cbn [fold_left].
  destruct (decide (normalize_uuid uuid = key)) as [<-|Hne].
  - rewrite dict_get_set, filter_cons_True, filter_nil by done.
    by rewrite last_snoc.
  - rewrite dict_get_set_ne by done.
    by rewrite filter_cons_False, filter_nil, app_nil_r.
Qed.

(** The block of the service-data panel for a stored payload. *)
Lemma service_data_block_of_payload (uuid : string) (data : list byte) :
  service_data_block uuid (Some (hex_upper data))
  = [ "UUID: " +:+ uuid;
      "Data Length: " +:+ PyFmt.str_nat (length data) +:+ " bytes";
      ""; "Raw Data (Hex):"; hex_upper data; ""; "Hex Dump:"; "" ]
    ++ hex_dump data ++ [""].
Proof.
  unfold service_data_block. by rewrite fromhex_hex_upper, upper_hex_upper.
Qed.

(** X14: the raw service data of a record of the iterator-driven
    decoder has one entry per normalised service-data UUID, in the
    order of first appearance; when several advertised keys normalise
    to the same UUID the payload of the last one is kept. Each entry
    holds the hexadecimal text of its payload, which reads back to the
    payload; a UUID that no advertised key normalises to has no
    entry. *)
Theorem service_data_of_decoded_record now device adv a :
  process_device_body get_manufacturer_name now device adv = Ok a ->
  let kept := RawData.service_data (DeviceInfo.raw_data a) in
  dict_keys kept
  = first_occurrences
      (normalize_uuid <$> dict_keys (AdvertisementData.service_data adv)) /\
  forall uuid,
    match last (filter (fun entry => normalize_uuid entry.1 = uuid)
                       (AdvertisementData.service_data adv)) with
    | None => dict_get uuid kept = None
    | Some (_, data) =>
        exists data_hex,
          dict_get uuid kept = Some (Some data_hex) /\
          PyBytes.fromhex data_hex = Some data
    end.
Proof.
  intros Hbody kept.
  destruct (adv_body_raw_data _ _ _ _ Hbody) as [_ Hkept].
  unfold kept. rewrite Hkept. split; [apply enhanced_service_data_keys|].
  intros uuid. rewrite enhanced_service_data_get.
  destruct (last _) as [[raw data]|]; [|done].
  eexists. split; [done | apply fromhex_hex_upper].
Qed.

End ServiceDataFacts.

Lemma service_data_of_decoded_record_witness :
  exists a,
    process_device_body sample_registry sample_now sample_device
      service_data_only_adv = Ok a /\
    exists data_hex,
      dict_get "180f" (RawData.service_data (DeviceInfo.raw_data a))
      = Some (Some data_hex) /\
      PyBytes.fromhex data_hex = Some [x64].
Proof.
  eexists. split; [reflexivity|].
  destruct (service_data_of_decoded_record sample_registry sample_now
              sample_device service_data_only_adv _ eq_refl) as [_ Hget].
  exact (Hget "180f").
Defined.

Section ManufacturerPanelFacts.

Variable get_manufacturer_name : N -> result string.
Variable list_of_set : list string -> list string.

Lemma basic_body_raw_manufacturer now device adv b :
  detection_callback_body get_manufacturer_name list_of_set now device adv = Ok b ->
  RawData.manufacturer_data (DeviceInfo.raw_data b)
  = AdvertisementData.manufacturer_data adv.
Proof.
  unfold detection_callback_body.
  destruct (extract_manufacturer _ _) as [[name id]|e]; simpl; [|done].
  by intros [= <-].
Qed.

Lemma manufacturer_block_shape (data : list byte) :
  length (manufacturer_block data) = 7 + (length data + 7) / 8 /\
  manufacturer_block data !! 3 = Some (hex_upper data) /\
  PyBytes.fromhex (hex_upper data) = Some data.
Proof.
  split; [|split; [done | apply fromhex_hex_upper]].
  unfold manufacturer_block. rewrite !length_app, hex_dump_length.
  cbn [length]. lia.
Qed.

(** X15: for a decoded record with manufacturer data the manufacturer
    panel starts with the manufacturer shown in the table, then the
    manufacturer identifier unless the first company identifier is 0,
    and continues with one block for every entry of the manufacturer
    data, not only the first: payload length, the hexadecimal text
    (which reads back to the payload) and a dump of ceil(length/8)
    rows. *)
Theorem manufacturer_panel_of_decoded_record
    now device adv a company payload rest name :
  AdvertisementData.manufacturer_data adv = (company, payload) :: rest ->
  get_manufacturer_name company = Ok name ->
  process_device_body get_manufacturer_name now device adv = Ok a
  \/ detection_callback_body get_manufacturer_name list_of_set now device adv = Ok a ->
  update_manufacturer_details a
  = PyStr.join PyFmt.nl
      (["Manufacturer: "
        +:+ (if PyStr.startswith name "Unknown"
             then "0x" +:+ PyFmt.format_04X company else name)]
       ++ (if decide (company = 0%N) then []
           else ["Manufacturer ID: 0x" +:+ PyFmt.format_04X company])
       ++ [""]
       ++ flat_map (fun entry => manufacturer_block entry.2)
                   ((company, payload) :: rest)) /\
  forall data,
    length (manufacturer_block data) = 7 + (length data + 7) / 8 /\
    manufacturer_block data !! 3 = Some (hex_upper data) /\
    PyBytes.fromhex (hex_upper data) = Some data.
Proof.
  intros Hdata Hname Hbody. split; [|apply manufacturer_block_shape].
  destruct (manufacturer_fields get_manufacturer_name list_of_set now device adv
              company payload rest name Hdata Hname)
    as (a' & b' & Ha' & Hb' & Hmm & Hii & Hm & Hi & _).
  assert (DeviceInfo.manufacturer a
          = (if PyStr.startswith name "Unknown"
             then "0x" +:+ PyFmt.format_04X company else name)
          /\ DeviceInfo.manufacturer_id a
             = (if decide (company = 0%N) then ""
                else "0x" +:+ PyFmt.format_04X company)
          /\ RawData.manufacturer_data (DeviceInfo.raw_data a)
             = (company, payload) :: rest) as (Hman & Hid & Hraw).
  { destruct Hbody as [Hbody|Hbody].
    - rewrite Ha' in Hbody. injection Hbody as <-.
      split; [done|]. split; [done|].
      destruct (adv_body_raw_data _ _ _ _ _ Ha') as [-> _]. done.
    - rewrite Hb' in Hbody. injection Hbody as <-.
      rewrite <- Hmm, <- Hii. split; [done|]. split; [done|].
      by rewrite (basic_body_raw_manufacturer _ _ _ _ Hb'). }
  assert (forall entries : dict N (list byte),
            flat_map (fun '(mfg_id, data_bytes) => manufacturer_block data_bytes)
                     entries
            = flat_map (fun entry => manufacturer_block entry.2) entries) as Hblocks.
  { intros entries. induction entries as [|[c d] entries IH]; [done|].
    cbn [flat_map]. by rewrite IH. }
  unfold update_manufacturer_details, manufacturer_header.
  rewrite Hraw, Hman, Hid, Hblocks.
  destruct (decide (company = 0%N)) as [->|Hne].
  - change (String.eqb "" "") with true. cbv iota.
    by rewrite <- !app_assoc.
  - replace (String.eqb ("0x" +:+ PyFmt.format_04X company) "") with false
      by done.
    by rewrite <- !app_assoc.
Qed.

End ManufacturerPanelFacts.

Lemma manufacturer_panel_of_decoded_record_witness :
  exists a,
    process_device_body sample_registry sample_now sample_device
      unknown_company_adv = Ok a /\
    update_manufacturer_details a
    = PyStr.join PyFmt.nl
        [ "Manufacturer: 0x9999"; "Manufacturer ID: 0x9999"; "";
          "Data Length: 1 bytes"; ""; "Raw Data (Hex):"; "01"; ""; "Hex Dump:";
          "0000: 01                       |.       |"; "" ].
Proof.
  eexists. split; [reflexivity|].
  destruct (manufacturer_panel_of_decoded_record sample_registry first_occurrences
              sample_now sample_device unknown_company_adv _
              0x9999%N [x01] [] "Unknown" eq_refl eq_refl (or_introl eq_refl))
    as [Hpanel _].
  exact Hpanel.
Defined.

(** ** The manufacturer data viewer *)

Section ViewerFacts.

Lemma range_step_2 (m : nat) :
  forall fuel start,
    m <= fuel ->
    range_step fuel start (start + 2 * m) 2 = (fun k => start + 2 * k) <$> seq 0 m.
Proof.
  induction m as [|m IH]; intros fuel start Hfuel.
  - destruct fuel as [|fuel]; [done|]. cbn [range_step].
    destruct (Nat.ltb_spec start (start + 2 * 0)); [lia | done].
  - destruct fuel as [|fuel]; [lia|]. cbn [range_step].
    destruct (Nat.ltb_spec start (start + 2 * S m)); [|lia].
    replace (start + 2 * S m) with (start + 2 + 2 * m) by lia.
    rewrite IH by lia. cbn [seq]. rewrite fmap_cons. f_equal; [lia|].
    rewrite <- fmap_S_seq, <- list_fmap_compose.
    apply list_fmap_ext. intros _ k _. unfold compose. lia.
Qed.

Lemma hex_upper_pairs (data : list byte) :
  (fun i => String.substring i 2 (hex_upper data))
    <$> ((fun k => 0 + 2 * k) <$> seq 0 (length data))
  = (fun b => hex_upper [b]) <$> data.
Proof.
  induction data as [|b data IH]; [done|].
  cbn [length seq]. rewrite !fmap_cons. f_equal.
  - rewrite hex_upper_cons. generalize (hex_upper data). intros r.
    by destruct b, r.
  - rewrite <- IH, <- fmap_S_seq, <- !list_fmap_compose.
    apply list_fmap_ext. intros _ k _. unfold compose.
    replace (0 + 2 * S k) with (S (S (0 + 2 * k))) by lia.
    rewrite hex_upper_cons. generalize (hex_upper data). intros r.
    by destruct b.
Qed.

(** The texts of one frame of the viewer. *)
Lemma viewer_frame_texts (manufacturer_id : N) (data : list byte) :
  let frame := viewer_frame_of manufacturer_id data in
  PyBytes.fromhex (hex_text frame) = Some data /\
  formatted_text frame
  = PyStr.join " " ((fun b => PyFmt.format_02X (Byte.to_N b)) <$> data) /\
  PyBytes.fromhex (formatted_text frame) = Some data /\
  String.length (ascii_text frame) = length data /\
  (data <> [] ->
   String.length (formatted_text frame) = 3 * length data - 1 /\
   String.length (binary_text frame) = 9 * length data - 1).
Proof.
  intros frame.
  assert (formatted_text frame
          = PyStr.join " " ((fun b => PyFmt.format_02X (Byte.to_N b)) <$> data))
    as Hformatted.
  { unfold frame, viewer_frame_of. cbn [formatted_text].
    rewrite hex_upper_length.
    pose proof (range_step_2 (length data) (2 * length data) 0 ltac:(lia)) as Hr.
    change (0 + 2 * length data) with (2 * length data) in Hr. rewrite Hr.
    change (map (fun i => String.substring i 2 (hex_upper data)))
      with (fmap (M := list) (fun i => String.substring i 2 (hex_upper data))).
    rewrite hex_upper_pairs. f_equal.
    apply list_fmap_ext. intros _ b _. symmetry. apply format_02X_hex_upper. }
  split; [apply fromhex_hex_upper|]. split; [done|]. split.
  { rewrite Hformatted.
    rewrite <- (app_nil_r ((fun b => PyFmt.format_02X (Byte.to_N b)) <$> data)).
    apply (fromhex_hex_column data 0). }
  split.
  { unfold frame, viewer_frame_of. cbn [ascii_text].
    rewrite join_empty_sep_length; [apply length_map|].
    apply Forall_forall. intros s [b [-> _]]%list_elem_of_fmap.
    apply ascii_repr_length. }
  intros Hne. rewrite Hformatted. split.
  - pose proof (join_length " " 2
      ((fun b => PyFmt.format_02X (Byte.to_N b)) <$> data)) as Hj.
    rewrite length_fmap in Hj. cbn [String.length] in Hj.
    destruct data as [|b data]; [done|].
    enough (String.length
              (PyStr.join " " ((fun b => PyFmt.format_02X (Byte.to_N b)) <$> b :: data))
            + 1 = length (b :: data) * (2 + 1)) by (cbn [length] in *; lia).
    apply Hj; [|done].
    apply Forall_fmap, Forall_forall. intros b' _. apply format_02X_byte.
  - unfold frame, viewer_frame_of. cbn [binary_text].
    pose proof (join_length " " 8
      (map (fun b => PyBytes.format_08b (Byte.to_N b)) data)) as Hj.
    rewrite length_map in Hj. cbn [String.length] in Hj.
    destruct data as [|b data]; [done|].
    enough (String.length
              (PyStr.join " " (map (fun b => PyBytes.format_08b (Byte.to_N b)) (b :: data)))
            + 1 = length (b :: data) * (8 + 1)) by (cbn [length] in *; lia).
    apply Hj; [|done].
    apply Forall_forall. intros s [b' [-> _]]%list_elem_of_fmap.
    unfold PyBytes.format_08b. cbn [map PyStr.concat_chars fold_right String.length].
    done.
Qed.

(** X16: the viewer shows one frame per entry of the manufacturer data,
    in the order of the dictionary. In each frame the spaced hexadecimal
    text is the payload's bytes as two upper-case digits each, separated
    by single spaces; both this text and the contiguous one read back to
    the payload with [bytes.fromhex]; the ASCII text has one character
    per byte and the binary text eight binary digits per byte, separated
    by single spaces. *)
Theorem viewer_texts_lossless (manufacturer_data : dict N (list byte)) :
  manufacturer_data <> [] ->
  exists frames,
    viewer_init_ui manufacturer_data = viewer_frames frames /\
    Forall2
      (fun entry frame =>
         id_label frame = "Manufacturer ID: 0x" +:+ PyFmt.format_04X entry.1 /\
         PyBytes.fromhex (hex_text frame) = Some entry.2 /\
         formatted_text frame
         = PyStr.join " " ((fun b => PyFmt.format_02X (Byte.to_N b)) <$> entry.2) /\
         PyBytes.fromhex (formatted_text frame) = Some entry.2 /\
         String.length (ascii_text frame) = length entry.2 /\
         (entry.2 <> [] ->
          String.length (formatted_text frame) = 3 * length entry.2 - 1 /\
          String.length (binary_text frame) = 9 * length entry.2 - 1))
      manufacturer_data frames.
Proof.
  intros Hne.
  exists ((fun '(manufacturer_id, data_bytes) =>
             viewer_frame_of manufacturer_id data_bytes) <$> manufacturer_data).
  split; [by destruct manufacturer_data|].
  apply Forall2_fmap_r, Forall2_same_length_lookup_2; [done|].
  intros i [id data] entry' Hi Hi'. rewrite Hi in Hi'. injection Hi' as <-.
  split; [done|]. apply viewer_frame_texts.
Qed.

Lemma viewer_texts_lossless_witness :
  exists frame,
    viewer_init_ui [(0x004C%N, [x02; x15; xff])] = viewer_frames [frame] /\
    formatted_text frame = "02 15 FF" /\
    String.length (binary_text frame) = 26.
Proof.
  destruct (viewer_texts_lossless [(0x004C%N, [x02; x15; xff])] ltac:(discriminate))
    as (frames & Hframes & Hall).
  injection Hframes as <-.
  apply Forall2_cons_1 in Hall as [(_ & _ & Hformatted & _ & _ & Hlen) _].
  eexists. split; [reflexivity|]. split; [exact Hformatted|].
  destruct Hlen as [_ Hbinary]; [discriminate|]. exact Hbinary.
Defined.

End ViewerFacts.

(** ** The service-data panel as a whole *)

Section SortedFacts.

Lemma insert_sorted_perm (x : string) (l : list string) :
  PyText.insert_sorted x l ≡ₚ x :: l.
Proof.
  induction l as [|y l IH]; [done|]. simpl.
  destruct (String.leb x y); [done|].
  rewrite IH. apply Permutation_swap.
Qed.

Lemma sorted_perm (l : list string) : PyText.sorted l ≡ₚ l.
Proof.
  induction l as [|x l IH]; [done|].
  unfold PyText.sorted in *. simpl. by rewrite insert_sorted_perm, IH.
Qed.

Lemma insert_sorted_ordered (x : string) (l : list string) :
  Sorted (fun a b => String.leb a b = true) l ->
  Sorted (fun a b => String.leb a b = true) (PyText.insert_sorted x l).
Proof.
  induction 1 as [|y l Hl IH Hhd]; simpl; [by repeat constructor|].
  destruct (String.leb x y) eqn:Hxy.
  - constructor; [by constructor | by constructor].
  - constructor; [done|].
    assert (String.leb y x = true) as Hyx
      by (destruct (String.leb_total x y); congruence).
    destruct l as [|z l]; simpl; [by constructor|].
    destruct (String.leb x z); constructor; [done|].
    by apply HdRel_inv in Hhd.
Qed.

Lemma sorted_ordered (l : list string) :
  Sorted (fun a b => String.leb a b = true) (PyText.sorted l).
Proof.
  induction l as [|x l IH]; [constructor|].
  by apply insert_sorted_ordered.
Qed.

End SortedFacts.

Section ServiceDataPanelFacts.

Variable get_manufacturer_name : N -> result string.

(** X17: for a record of the iterator-driven decoder the service-data
    panel is cleared when the advertisement carried no service data;
    otherwise it consists of one block per kept UUID, the UUIDs in
    ascending order, each block giving the UUID, the length of its
    payload, its hexadecimal text and the dump of the payload. *)
Theorem service_data_panel_of_decoded_record now device adv a :
  process_device_body get_manufacturer_name now device adv = Ok a ->
  match AdvertisementData.service_data adv with
  | [] => update_service_data_details a = ""
  | _ :: _ =>
      exists uuids,
        uuids ≡ₚ first_occurrences
                   (normalize_uuid <$> dict_keys (AdvertisementData.service_data adv)) /\
        Sorted (fun u v => String.leb u v = true) uuids /\
        update_service_data_details a
        = PyStr.join PyFmt.nl
            (flat_map
               (fun uuid =>
                  match last (filter (fun entry => normalize_uuid entry.1 = uuid)
                                     (AdvertisementData.service_data adv)) with
                  | Some (_, data) =>
                      [ "UUID: " +:+ uuid;
                        "Data Length: " +:+ PyFmt.str_nat (length data) +:+ " bytes";
                        ""; "Raw Data (Hex):"; hex_upper data; ""; "Hex Dump:"; "" ]
                      ++ hex_dump data ++ [""]
                  | None => []
                  end) uuids)
  end.
Proof.
  intros Hbody.
  destruct (adv_body_raw_data _ _ _ _ _ Hbody) as [_ Hkept].
  pose proof (enhanced_service_data_keys (AdvertisementData.service_data adv))
    as Hkeys.
  pose proof (enhanced_service_data_get (AdvertisementData.service_data adv))
    as Hget.
  rewrite <- Hkept in Hkeys, Hget.
  unfold update_service_data_details.
  destruct (AdvertisementData.service_data adv) as [|entry entries] eqn:Hsd.
  { by rewrite Hkept. }
  assert (RawData.service_data (DeviceInfo.raw_data a) <> []) as Hne.
  { intros Hnil. destruct entry as [raw data].
    rewrite Hnil in Hkeys. discriminate Hkeys. }
  assert (forall (l : dict string (option string)) (x y : string),
            l <> [] -> match l with [] => x | _ :: _ => y end = y) as Hmatch
    by (by intros [|? ?] ? ? ?).
  rewrite Hmatch by done.
  exists (PyText.sorted (dict_keys (RawData.service_data (DeviceInfo.raw_data a)))).
  split; [by rewrite sorted_perm, Hkeys|]. split; [apply sorted_ordered|].
  f_equal.
  assert (forall l : list string,
            (forall u, u ∈ l -> u ∈ dict_keys (RawData.service_data (DeviceInfo.raw_data a))) ->
            flat_map (fun uuid =>
                        service_data_block uuid
                          (mjoin (dict_get uuid (RawData.service_data (DeviceInfo.raw_data a)))))
                     l
            = flat_map
                (fun uuid =>
                   match last (filter (fun entry => normalize_uuid entry.1 = uuid)
                                      (entry :: entries)) with
                   | Some (_, data) =>
                       [ "UUID: " +:+ uuid;
                         "Data Length: " +:+ PyFmt.str_nat (length data) +:+ " bytes";
                         ""; "Raw Data (Hex):"; hex_upper data; ""; "Hex Dump:"; "" ]
                       ++ hex_dump data ++ [""]
                   | None => []
                   end) l) as Hblocks.
  { induction l as [|uuid l IH]; intros Hl; [done|].
    cbn [flat_map]. rewrite IH by (intros u Hu; apply Hl; by right).
    f_equal. specialize (Hget uuid).
    assert (is_Some (dict_get uuid (RawData.service_data (DeviceInfo.raw_data a))))
      as [v Hv] by (apply dict_get_keys, Hl; by left).
    rewrite Hget. rewrite Hget in Hv.
    destruct (last _) as [[raw data]|]; [|done].
    apply service_data_block_of_payload. }
  apply Hblocks. intros u Hu. by rewrite sorted_perm in Hu.
Qed.

End ServiceDataPanelFacts.

Lemma service_data_panel_of_decoded_record_witness :
  exists a,
    process_device_body sample_registry sample_now sample_device
      service_data_only_adv = Ok a /\
    exists uuids,
      uuids ≡ₚ ["180f"] /\
      update_service_data_details a
      = PyStr.join PyFmt.nl
          (flat_map
             (fun uuid =>
                match last (filter (fun entry => normalize_uuid entry.1 = uuid)
                              (AdvertisementData.service_data service_data_only_adv)) with
                | Some (_, data) =>
                    [ "UUID: " +:+ uuid;
                      "Data Length: " +:+ PyFmt.str_nat (length data) +:+ " bytes";
                      ""; "Raw Data (Hex):"; hex_upper data; ""; "Hex Dump:"; "" ]
                    ++ hex_dump data ++ [""]
                | None => []
                end) uuids).
Proof.
  eexists. split; [reflexivity|].
  destruct (service_data_panel_of_decoded_record sample_registry sample_now
              sample_device service_data_only_adv _ eq_refl)
    as (uuids & Hperm & _ & Hpanel).
  exists uuids. split; [exact Hperm | exact Hpanel].
Defined.

(** ** The service columns of the callback-driven decoder *)

Section BasicServiceFacts.

Variable get_manufacturer_name : N -> result string.
Variable list_of_set : list string -> list string.

(** What is assumed of [list(set(xs))]: no element twice. *)
Hypothesis list_of_set_nodup : forall xs, NoDup (list_of_set xs).

Lemma fold_dict_set_nodup {V : Type} (f : string -> V) (l : list string) :
  NoDup l ->
  fold_left (fun acc k => dict_set k (f k) acc) l [] = (fun k => (k, f k)) <$> l.
Proof.
  induction l as [|k l IH] using rev_ind; intros Hnd; [done|].
  apply NoDup_app in Hnd as (Hl & Hk & _).
  rewrite fold_left_app, fmap_app, IH by done. cbn [fold_left].
  apply dict_set_new. unfold dict_keys. rewrite <- list_fmap_compose.
  intros [k' [-> Hk']]%list_elem_of_fmap.
  apply (Hk k'); [done | by left].
Qed.

(** X18: in a record of the callback-driven decoder the Service UUIDs
    column and the Service Data column have one line per UUID of the
    same duplicate-free list, in the same order: line k of the data
    column is the hexadecimal text of the payload advertised under the
    UUID of line k, or null when that UUID came without payload. The
    raw service data has one entry per UUID of that list, under the UUID
    as advertised (not normalised), with the same hexadecimal text or no
    value. *)
Theorem basic_service_columns_line_up now device adv b :
  detection_callback_body get_manufacturer_name list_of_set now device adv = Ok b ->
  exists uuids,
    NoDup uuids /\
    DeviceInfo.service_uuids b = PyStr.join PyFmt.nl (normalize_uuid <$> uuids) /\
    DeviceInfo.service_data b
    = PyStr.join PyFmt.nl
        ((fun uuid =>
            match dict_get uuid (AdvertisementData.service_data adv) with
            | Some data => hex_upper data
            | None => "null"
            end) <$> uuids) /\
    RawData.service_data (DeviceInfo.raw_data b)
    = (fun uuid =>
         (uuid, hex_upper <$> dict_get uuid (AdvertisementData.service_data adv)))
        <$> uuids /\
    length (normalize_uuid <$> uuids)
    = length ((fun uuid =>
                 match dict_get uuid (AdvertisementData.service_data adv) with
                 | Some data => hex_upper data
                 | None => "null"
                 end) <$> uuids).
Proof.
  unfold detection_callback_body.
  destruct (extract_manufacturer _ _) as [[name id]|e]; simpl; [|done].
  intros [= <-]. simpl.
  exists (basic_all_service_uuids list_of_set adv).
  split; [apply list_of_set_nodup|]. split; [done|]. split; [done|].
  split; [|by rewrite !length_fmap].
  apply (fold_dict_set_nodup
           (fun uuid => hex_upper <$> dict_get uuid (AdvertisementData.service_data adv))).
  apply list_of_set_nodup.
Qed.

End BasicServiceFacts.

Lemma first_occurrences_nodup (xs : list string) : NoDup (first_occurrences xs).
Proof.
  induction xs as [|x xs IH]; simpl; [constructor|].
  constructor; [|by apply NoDup_filter].
  by intros [? _]%list_elem_of_filter.
Qed.

Lemma basic_service_columns_line_up_witness :
  exists b,
    detection_callback_body sample_registry first_occurrences sample_now
      sample_device service_data_only_adv = Ok b /\
    exists uuids,
      NoDup uuids /\
      DeviceInfo.service_uuids b = PyStr.join PyFmt.nl (normalize_uuid <$> uuids) /\
      RawData.service_data (DeviceInfo.raw_data b)
      = (fun uuid =>
           (uuid, hex_upper <$> dict_get uuid
                    (AdvertisementData.service_data service_data_only_adv)))
          <$> uuids.
Proof.
  eexists. split; [reflexivity|].
  destruct (basic_service_columns_line_up sample_registry first_occurrences
              first_occurrences_nodup sample_now sample_device
              service_data_only_adv _ eq_refl)
    as (uuids & Hnd & Huuids & _ & Hraw & _).
  exists uuids. split; [exact Hnd|]. split; [exact Huuids | exact Hraw].
Defined.

(** ** The device count on the status line *)

Section StatusCountFacts.

Context `{!TableSorting}.

(** X19: the number of devices the status line reports, after an update
    and when a scan stops, is the number of distinct addresses seen
    since the store was last cleared. *)
Theorem status_line_counts_distinct_addresses
    (ops : list table_op) (device_info : DeviceInfo.t) :
  let distinct ops' :=
    length (first_occurrences (DeviceInfo.address <$> sightings_since_clear ops')) in
  status_label (run_ops (ops ++ [Upsert device_info]))
  = "Scanning... Found "
    +:+ PyFmt.str_nat (distinct (ops ++ [Upsert device_info])) +:+ " devices" /\
  status_label (on_scan_stopped (run_ops ops))
  = "Scan stopped. Found " +:+ PyFmt.str_nat (distinct ops) +:+ " devices." /\
  distinct (ops ++ [Clear]) = 0.
Proof.
  intros distinct. unfold distinct.
  assert (forall ops', length (devices (run_ops ops'))
                       = length (first_occurrences
                                   (DeviceInfo.address <$> sightings_since_clear ops')))
    as Hcount.
  { intros ops'.
    rewrite <- run_ops_keys. unfold dict_keys. by rewrite length_fmap. }
  split; [|split].
  - rewrite <- Hcount, run_ops_snoc. cbn [apply_op].
    rewrite add_device_devices. unfold add_device.
    by destruct (find_row _ _).
  - by rewrite <- Hcount.
  - by rewrite sightings_since_clear_snoc.
Qed.

End StatusCountFacts.

(** ** Selection and the detail panels *)

Section SelectionFacts.

Context `{!TableSorting}.

Variable json_dumps_raw : RawData.t -> string.

(** What is assumed of [sortByColumn]: it rearranges the rows and
    neither adds nor drops one. *)
Hypothesis sort_rows_perm :
  forall order column t, sort_rows order column t ≡ₚ t.

(** The first cell of every row holds a stored address. *)
Lemma table_address_cell (self : app) (row : nat) :
  table_shows_store self -> row < length (table self) ->
  exists it,
    table self !! row ≫= c0 = Some it /\
    text it ∈ dict_keys (devices self).
Proof.
  intros [_ Hrows] Hrow.
  apply lookup_lt_is_Some_2 in Hrow as [r Hr].
  assert ((text <$> c0 r) ∈ row_addresses (table self)) as Hin.
  { apply list_elem_of_lookup_2 with row. unfold row_addresses.
    by rewrite list_lookup_fmap, Hr. }
  rewrite Hrows in Hin. apply list_elem_of_fmap in Hin as (address & Heq & Hin).
  rewrite Hr. simpl. destruct (c0 r) as [it|]; [|done].
  injection Heq as Heq. exists it. split; [done|]. by rewrite Heq.
Qed.


(** X21: while scanning, an update for the device whose address is shown
    in the selected row refreshes the four detail panels with the new
    record, and an update for any other device leaves them as they are,
    wherever sorting has put the rows; for a selected row inside the
    table the look-up never raises, so the update reaches the status
    line. *)
Theorem selected_device_refreshed
    (ops : list table_op) (device_info : DeviceInfo.t)
    (row : nat) (rest : list nat) (shown : detail_panels) :
  let self := run_ops ops in
  let self' := add_device device_info self in
  row < length (table self') ->
  exists selected_address,
    text <$> (table self' !! row ≫= c0) = Some selected_address /\
    selected_address ∈ dict_keys (devices self') /\
    add_device_panels json_dumps_raw device_info (row :: rest) self shown
    = Ok (if decide (selected_address = DeviceInfo.address device_info)
          then show_details json_dumps_raw device_info
          else shown).
Proof.
  intros self self' Hrow. subst self self'.
  assert (table_shows_store (add_device device_info (run_ops ops))) as Hshows
    by apply add_device_shows_store, (run_ops_shows_store sort_rows_perm).
  destruct (table_address_cell _ _ Hshows Hrow) as (it & Hcell & Hkey).
  exists (text it). split; [by rewrite Hcell|]. split; [done|].
  unfold add_device_panels, update_raw_data_if_selected.
  rewrite Hcell.
  destruct (decide (text it = DeviceInfo.address device_info)) as [->|Hne].
  - by rewrite String.eqb_refl, add_device_devices, dict_get_set.
  - by apply String.eqb_neq in Hne as ->.
Qed.

End SelectionFacts.


Lemma selected_device_refreshed_witness :
  let ops := [SortByColumn 0 AscendingOrder; Upsert first_sighting; Upsert other_device] in
  1 < length (table (add_device beacon_sighting (run_ops ops))) /\
  add_device_panels sample_json_raw beacon_sighting [1] (run_ops ops)
    (show_details sample_json_raw first_sighting)
  = Ok (show_details sample_json_raw beacon_sighting).
Proof.
  intros ops. split; [vm_compute; lia|].
  destruct (selected_device_refreshed sample_json_raw qt_sort_rows_perm
              ops beacon_sighting 1 []
              (show_details sample_json_raw first_sighting)
              ltac:(vm_compute; lia))
    as (selected & Hcell & _ & Hpanels).
  injection Hcell as <-. exact Hpanels.
Defined.
